(** * A wallet and atomic-spend engine over a coin ledger

    Shallow embedding of [chialisp/test/__init__.py]: the coin selector
    [CoinPairSearch], the [Wallet] operations ([compute_combine_action],
    [combine_coins], [choose_coin], [launch_contract], [spend_coin]) and the
    [Network] driver ([farm_block], [skip_time], [push_tx]).

    Python integers are [Z]; [bytes] values are lists of bytes; a [dict] is an
    association list in insertion order (the selector depends on the order in
    which [usable_coins.items()] is iterated); [datetime.timedelta] values are
    a number of microseconds.  Where the module makes a coin of a computed
    amount or a [timedelta] of a computed length, the [uint64] and the
    [timedelta] range are checked as the constructors check them, with
    [OverflowError] outside.  The ledger simulator, the key and signature
    primitives and the hash functions are libraries the module imports: they
    are the fields of two interfaces, [Chia] and [SpendSim]. *)

From Stdlib Require Import String Ascii DecimalString ZArith List Lia Bool.
From Stdlib Require Import Permutation Sorted.
From Stdlib.Strings Require Import Byte.
Import ListNotations.
Open Scope Z_scope.

(** ** Bytes and dictionaries *)

Definition bytes := list byte.
Definition bytes32 := bytes.

Definition bytes_eq_dec : forall a b : bytes, {a = b} + {a <> b} :=
  list_eq_dec byte_eq_dec.

(** [sum(xs)]: Python adds the items to [0] from the left. *)
Definition sum (xs : list Z) : Z := fold_left Z.add xs 0.

Arguments sum : simpl never.

Section Dict.
Context {K V : Type} (K_eq_dec : forall a b : K, {a = b} + {a <> b}).

(** A [dict]: keys are unique and keep the order in which they were first
    inserted. *)
Definition dict := list (K * V).

(** [d[k] = v] *)
Fixpoint dict_set (k : K) (v : V) (d : dict) : dict :=
  match d with
  | [] => [(k, v)]
  | (k', v') :: r =>
      if K_eq_dec k' k then (k', v) :: r else (k', v') :: dict_set k v r
  end.

(** [d.get(k)] *)
Fixpoint dict_get (k : K) (d : dict) : option V :=
  match d with
  | [] => None
  | (k', v') :: r => if K_eq_dec k' k then Some v' else dict_get k r
  end.

Definition dict_keys (d : dict) : list K := map fst d.
Definition dict_values (d : dict) : list V := map snd d.
Definition dict_items (d : dict) : list (K * V) := d.
End Dict.

Arguments dict : clear implicits.

(** ** Coins *)

(** [chia.types.blockchain_format.coin.Coin] *)
Record Coin := mkCoin {
  parent_coin_info : bytes32;
  puzzle_hash : bytes32;
  amount : Z
}.

Definition amounts (coins : list Coin) : list Z := map amount coins.

(** ** The coin selector: [class CoinPairSearch] *)

Module CoinPairSearch.

Record t := mk {
  target : Z;
  total : Z;
  max_coins : list Coin
}.

(** [__init__(self, target_amount)] *)
Definition init (target_amount : Z) : t := mk target_amount 0 [].

(** [get_result(self)] *)
Definition get_result (self : t) : list Coin * Z :=
  (max_coins self, total self).

(** The [for ... else] of [insort]: the coin goes before the first kept
    coin of strictly smaller amount, or at the end when there is none. *)
Fixpoint insert_desc (l : list Coin) (coin : Coin) : list Coin :=
  match l with
  | [] => [coin]
  | x :: r =>
      if amount x <? amount coin then coin :: x :: r
      else x :: insert_desc r coin
  end.

(** [insort(self, coin, s, e)]; the bounds [s] and [e] are not read. *)
Definition insort (self : t) (coin : Coin) (s e : Z) : t :=
  mk (target self) (total self) (insert_desc (max_coins self) coin).

(** The [while] loop of [process_coin_for_combine_search]: as long as the
    list is not empty and the total without the last kept coin still
    covers the target, drop the last coin.  Every round shortens the list,
    so [length max_coins] rounds are enough ([evict_exit]). *)
Fixpoint evict (rounds : nat) (self : t) : t :=
  match rounds with
  | O => self
  | S n =>
      match max_coins self with
      | [] => self
      | x :: _ =>
          let smallest := last (max_coins self) x in
          if total self - amount smallest >=? target self then
            evict n (mk (target self)
                        (total self - amount smallest)
                        (removelast (max_coins self)))
          else self
      end
  end.

(** [process_coin_for_combine_search(self, coin)] *)
Definition process_coin_for_combine_search (self : t) (coin : Coin) : t :=
  let self := mk (target self) (total self + amount coin) (max_coins self) in
  if (length (max_coins self) =? 0)%nat then
    mk (target self) (total self) (max_coins self ++ [coin])
  else
    let self :=
      insort self coin 0 (Z.of_nat (length (max_coins self)) - 1) in
    evict (length (max_coins self)) self.

End CoinPairSearch.

(** [Wallet.compute_combine_action(self, amt, actions, usable_coins)]; it
    reads no field of the wallet, and [actions] is not read. *)
Definition compute_combine_action {A : Type}
    (amt : Z) (actions : list A) (usable_coins : dict bytes32 Coin)
  : option (list Coin) :=
  let searcher := CoinPairSearch.init amt in
  let searcher :=
    fold_left (fun s kc => CoinPairSearch.process_coin_for_combine_search s (snd kc))
              (dict_items usable_coins) searcher in
  let '(max_coins, total) := CoinPairSearch.get_result searcher in
  if total >=? amt then Some max_coins else None.

(** ** Programs, spends and bundles *)

(** The members of [ConditionOpcode] that the module names. *)
Inductive ConditionOpcode :=
| CREATE_COIN
| CREATE_COIN_ANNOUNCEMENT
| ASSERT_COIN_ANNOUNCEMENT.

#[local] Set Warnings "-register-all".

(** A [Program] is kept as the Python value handed to [Program.to]: an
    integer, a [bytes] value, an opcode, a list, a pair [(a, b)], or an
    already compiled puzzle, which is opaque here. *)
Inductive Program :=
| PInt (z : Z)
| PBytes (b : bytes)
| POp (op : ConditionOpcode)
| PList (items : list Program)
| PTuple (a b : Program)
| PCode (text : bytes).

(** [chia.types.coin_solution.CoinSolution] *)
Record CoinSolution := mkCoinSolution {
  coin : Coin;
  puzzle_reveal : Program;
  solution : Program
}.

(** [chia.types.spend_bundle.SpendBundle]; a signature is its serialization. *)
Record SpendBundle := mkSpendBundle {
  coin_solutions : list CoinSolution;
  aggregated_signature : bytes
}.

(** The fields of a [CoinRecord] that [farm_block] reads. *)
Record CoinRecord := mkCoinRecord {
  record_coin : Coin;
  spent : bool
}.

(** ** Exceptions and results *)

(** The exceptions the module can raise.  [UnknownWallet] is not a Python
    exception: a wallet is named here by the key under which the network
    registered it, and an operation on a key that names no wallet, which has
    no counterpart in Python, stops with it. *)
Inductive exn :=
| ValueError (msg : string)
| AssertionError
| IndexError
| TypeError
| OverflowError
| UnknownWallet.

Definition result (A : Type) : Type := (exn + A)%type.

(** The amount of a [Coin] is a [uint64]: making a coin of another amount
    raises [OverflowError]. *)
Definition uint64_ok (z : Z) : bool := (0 <=? z) && (z <? 2 ^ 64).

Definition uint64 (z : Z) : result Z :=
  if uint64_ok z then inr z else inl OverflowError.

(** A [datetime.timedelta], in microseconds, lies between -999999999 days
    and 999999999 days 23:59:59.999999; making one out of this range, by
    the constructor or by an addition, raises [OverflowError]. *)
Definition timedelta_ok (us : Z) : bool :=
  (-999999999 * 86400000000 <=? us) && (us <? 1000000000 * 86400000000).

Definition timedelta (us : Z) : result Z :=
  if timedelta_ok us then inr us else inl OverflowError.

(** The dictionary returned by [Network.push_tx]: either
    [{"error": ...}] or [{'additions': ..., 'removals': ...}]. *)
Inductive PushResult :=
| ErrorDict (error : string)
| FarmedDict (additions removals : list Coin).

Module SpendResult.
Record t := mk {
  result : PushResult;
  error : option string;
  outputs : list Coin
}.

(** [__init__(self, result)] *)
Definition init (result : PushResult) : t :=
  match result with
  | ErrorDict e => mk result (Some e) []
  | FarmedDict additions _ => mk result None additions
  end.

(** [find_standard_coins(self, puzzle_hash)] *)
Definition find_standard_coins (self : t) (ph : bytes32) : list Coin :=
  filter (fun x => if bytes_eq_dec (puzzle_hash x) ph then true else false)
         (outputs self).
End SpendResult.

(** ** The imported libraries *)

(** What the module imports from [chia], [blspy] and [pytimeparse].  Keys and
    signatures are opaque handles, kept as their serialization. *)
Class Chia := {
  (** [Coin.name()]: the coin id, a hash of the three fields *)
  coin_name : Coin -> bytes32;
  std_hash : bytes -> bytes32;
  (** [Program.get_tree_hash()] *)
  get_tree_hash : Program -> bytes32;
  puzzle_for_pk : bytes -> Program;
  calculate_synthetic_secret_key : bytes -> bytes32 -> bytes;
  DEFAULT_HIDDEN_PUZZLE_HASH : bytes32;
  GENESIS_CHALLENGE : bytes32;
  AGG_SIG_ME_ADDITIONAL_DATA : bytes;
  MAX_BLOCK_COST_CLVM : Z;
  (** [AugSchemeMPL.sign] and [AugSchemeMPL.aggregate] *)
  sign : bytes -> bytes -> bytes;
  aggregate : list bytes -> bytes;
  (** [sign_coin_solutions] returns
      [SpendBundle(coin_solutions, aggregated_signature)]: the field gives the
      signature, or the exception raised while signing. *)
  sign_coin_solutions :
    list CoinSolution -> (bytes -> result bytes) -> bytes -> Z -> result bytes;
  (** [str(pk)] *)
  str_pk : bytes -> string;
  (** [public_key_for_index] and [private_key_for_index] *)
  public_key_for_index : Z -> bytes;
  private_key_for_index : Z -> bytes;
  (** [pytimeparse.parse(s) / duration_div], a number of days, in the
      microseconds [datetime.timedelta] rounds it to, whether or not a
      [timedelta] can hold them; [None] when [pytimeparse.parse] returns
      [None] *)
  parse_timedelta : string -> option Z
}.

(** [SpendSim] and its [SimClient]: the ledger and its clock. *)
Class SpendSim := {
  Sim : Type;
  (** [SpendSim.create()] *)
  sim_create : Sim;
  (** [SimClient.push_tx(bundle)]: the new simulator state and the [error]
      of the returned [(status, error)], given as [str(error)]; [None] when
      the bundle is accepted *)
  sim_push_tx : Sim -> SpendBundle -> Sim * option string;
  (** [SpendSim.farm_block(puzzle_hash)]: [(additions, removals)] *)
  sim_farm_block : Sim -> bytes32 -> Sim * (list Coin * list Coin);
  (** [SimClient.get_coin_records_by_puzzle_hash(puzzle_hash)] *)
  get_coin_records_by_puzzle_hash : Sim -> bytes32 -> list CoinRecord;
  (** [SpendSim.timestamp], in seconds, and [SpendSim.pass_time(time)] *)
  timestamp : Sim -> Z;
  pass_time : Sim -> Z -> Sim
}.

(** ** Coin and contract wrappers *)

Module CoinWrapper.
Record t := mk {
  parent_coin_info : bytes32;
  puzzle_hash : bytes32;
  amount : Z;
  source : Program
}.

Definition puzzle (self : t) : Program := source self.

Definition as_coin (self : t) : Coin :=
  mkCoin (parent_coin_info self) (puzzle_hash self) (amount self).

(** [name()] is inherited from [Coin]. *)
Definition name `{Chia} (self : t) : bytes32 := coin_name (as_coin self).

(** [create_standard_spend(self, priv, conditions)] *)
Definition create_standard_spend `{Chia}
    (self : t) (priv : bytes) (conditions : Program)
  : CoinSolution * bytes :=
  let delegated_puzzle_solution := PTuple (PInt 1) conditions in
  let solution := PList [PList []; delegated_puzzle_solution; PList []] in
  let coin_solution_object :=
    mkCoinSolution (as_coin self) (puzzle self) solution in
  let signature :=
    sign (calculate_synthetic_secret_key priv DEFAULT_HIDDEN_PUZZLE_HASH)
         (get_tree_hash delegated_puzzle_solution ++ name self
            ++ AGG_SIG_ME_ADDITIONAL_DATA) in
  (coin_solution_object, signature).
End CoinWrapper.

Module ContractWrapper.
Record t := mk {
  genesis_challenge : bytes32;
  source : Program
}.

Definition puzzle (self : t) : Program := source self.

Definition puzzle_hash `{Chia} (self : t) : bytes32 :=
  get_tree_hash (source self).

(** [custom_coin(self, parent, amt)] *)
Definition custom_coin `{Chia} (self : t) (parent : Coin) (amt : Z)
  : CoinWrapper.t :=
  CoinWrapper.mk (coin_name parent) (puzzle_hash self) amt (source self).
End ContractWrapper.

(** [CoinWrapper.contract(self)] *)
Definition CoinWrapper_contract `{Chia} (self : CoinWrapper.t)
  : ContractWrapper.t :=
  ContractWrapper.mk GENESIS_CHALLENGE (CoinWrapper.source self).

(** ** Wallets and the network *)

(** A wallet object is named by the key [str(pk)] under which
    [Network.wallets] holds it. *)
Abbreviation wref := string.

Module Wallet.
(** The fields of [class Wallet]; [parent] is the one network. *)
Record t := mk {
  name : string;
  pk_ : bytes;
  sk_ : bytes;
  usable_coins : dict bytes32 Coin;
  puzzle : Program;
  puzzle_hash : bytes32
}.

(** [__init__(self, parent, name, pk, priv)] *)
Definition init `{Chia} (name : string) (pk priv : bytes) : t :=
  let puzzle := puzzle_for_pk pk in
  mk name pk priv [] puzzle (get_tree_hash puzzle).

Definition pk (self : t) : bytes := pk_ self.

(** [add_coin(self, coin)] *)
Definition add_coin `{Chia} (self : t) (coin : Coin) : t :=
  mk (name self) (pk_ self) (sk_ self)
     (dict_set bytes_eq_dec (coin_name coin) coin (usable_coins self))
     (puzzle self) (puzzle_hash self).

(** [_clear_coins(self)] *)
Definition _clear_coins (self : t) : t :=
  mk (name self) (pk_ self) (sk_ self) [] (puzzle self) (puzzle_hash self).

(** [balance(self)] *)
Definition balance (self : t) : Z :=
  sum (map amount (dict_values (usable_coins self))).
End Wallet.

(** The arguments [spend_coin] accepts for [remain=]. *)
Inductive Remainer :=
| RemainContract (c : ContractWrapper.t)
| RemainWallet (w : wref)
| RemainOther.

(** The keyword arguments of [spend_coin]. *)
Record SpendKwargs := mkSpendKwargs {
  kw_amt : option Z;
  kw_args : option Program;
  kw_to : option wref;
  kw_remain : option Remainer
}.

(** [duration_div] and [block_time] only serve [datetime.timedelta(block_time)]:
    18.75 seconds, in microseconds. *)
Definition farm_duration : Z := 18750000.

(** [datetime.timedelta(seconds = n)] in microseconds *)
Definition timedelta_seconds (n : Z) : Z := n * 1000000.

(** [len(x)] *)
Definition len {A : Type} (l : list A) : Z := Z.of_nat (length l).

(** The decimal text of an integer in an f-string. *)
Definition str_int (z : Z) : string := NilEmpty.string_of_int (Z.to_int z).

Section Engine.
Context `{Chia} `{SpendSim}.

(** The fields of [class Network]; [sim_client] is a view of [sim]. *)
Record Network := mkNetwork {
  time : Z;
  sim : Sim;
  wallets : dict string Wallet.t;
  nobody : wref
}.

(** *** Running a method: state, exceptions and divergence *)

Inductive outcome (A : Type) :=
| Return (a : A) (s : Network)
| Raise (e : exn) (s : Network)
| Timeout.

Definition M (A : Type) : Type := Network -> outcome A.

Definition ret {A} (a : A) : M A := fun s => Return _ a s.

Definition bind {A B} (m : M A) (k : A -> M B) : M B :=
  fun s =>
    match m s with
    | Return _ a s' => k a s'
    | Raise _ e s' => Raise _ e s'
    | Timeout _ => Timeout _
    end.

Definition raise {A} (e : exn) : M A := fun s => Raise _ e s.
Definition get : M Network := fun s => Return _ s s.
Definition put (s : Network) : M unit := fun _ => Return _ tt s.
Definition timeout {A} : M A := fun _ => Timeout _.

(** [assert b] *)
Definition assert_ (b : bool) : M unit :=
  if b then ret tt else raise AssertionError.

Definition lift {A} (r : result A) : M A :=
  match r with inl e => raise e | inr a => ret a end.

End Engine.

Arguments Return {_ A} a s.
Arguments Raise {_ A} e s.
Arguments Timeout {_ A}.

Notation "x <- c1 ;; c2" := (bind c1 (fun x => c2))
  (at level 61, c1 at next level, right associativity).
Notation "c1 ;; c2" := (bind c1 (fun _ => c2))
  (at level 61, right associativity).

Section Operations.
Context `{Chia} `{SpendSim}.

(** Reading a wallet object through its reference. *)
Definition get_wallet (w : wref) : M Wallet.t :=
  fun s =>
    match dict_get string_dec w (wallets s) with
    | Some o => Return o s
    | None => Raise UnknownWallet s
    end.

(** *** [class Network] *)

(** [Network.get_timestamp(self)] *)
Definition get_timestamp (s : Network) : Z :=
  timedelta_seconds (timestamp (sim s)).

(** The second loop of [farm_block], for one wallet: the coins of the
    unspent records are added one by one. *)
Definition add_unspent (w : Wallet.t) (coin_records : list CoinRecord)
  : Wallet.t :=
  fold_left
    (fun w coin_record =>
       if Bool.eqb (spent coin_record) false
       then Wallet.add_coin w (record_coin coin_record)
       else w)
    coin_records w.

(** [Network.farm_block(self, **kwargs)], with [farmer] the value of the
    keyword [farmer=] when it is given. *)
Definition farm_block (farmer : option wref) : M (list Coin * list Coin) :=
  s <- get ;;
  farmer <- get_wallet (match farmer with
                        | Some f => f
                        | None => nobody s
                        end) ;;
  let '(sim1, farmed) := sim_farm_block (sim s) (Wallet.puzzle_hash farmer) in
  let cleared :=
    map (fun kw => (fst kw, Wallet._clear_coins (snd kw))) (wallets s) in
  let refreshed :=
    map (fun kw =>
           (fst kw,
            add_unspent (snd kw)
              (get_coin_records_by_puzzle_hash sim1
                 (Wallet.puzzle_hash (snd kw)))))
        cleared in
  put (mkNetwork (time s + farm_duration) sim1 refreshed (nobody s)) ;;
  ret farmed.

(** [Network.push_tx(self, bundle)] *)
Definition push_tx (bundle : SpendBundle) : M PushResult :=
  s <- get ;;
  let '(sim1, error) := sim_push_tx (sim s) bundle in
  put (mkNetwork (time s) sim1 (wallets s) (nobody s)) ;;
  match error with
  | Some e => ret (ErrorDict e)
  | None =>
      farmed <- farm_block None ;;
      ret (FarmedDict (fst farmed) (snd farmed))
  end.

(** The [while] loop of [skip_time]; [fuel] bounds the number of rounds. *)
Fixpoint skip_time_loop (fuel : nat) (target_time : Z) (farmer : option wref)
  : M unit :=
  s <- get ;;
  if target_time >? get_timestamp s then
    match fuel with
    | O => timeout
    | S fuel' =>
        farm_block farmer ;;
        s <- get ;;
        put (mkNetwork (time s) (pass_time (sim s) 20) (wallets s) (nobody s)) ;;
        skip_time_loop fuel' target_time farmer
    end
  else ret tt.

(** [Network.skip_time(self, target_duration, **kwargs)]: dividing [None]
    raises [TypeError]; the duration and its sum with [self.time] are
    [timedelta]s. *)
Definition skip_time (fuel : nat) (target_duration : string)
    (farmer : option wref) : M unit :=
  s <- get ;;
  match parse_timedelta target_duration with
  | None => raise TypeError
  | Some days =>
      duration <- lift (timedelta days) ;;
      target_time <- lift (timedelta (time s + duration)) ;;
      skip_time_loop fuel target_time farmer
  end.

(** [Network._alloc_key(self)] and [Network.make_wallet(self, name)] *)
Definition _alloc_key (s : Network) : bytes * bytes :=
  let key_idx := len (wallets s) in
  (public_key_for_index key_idx, private_key_for_index key_idx).

Definition make_wallet (name : string) : M wref :=
  s <- get ;;
  let '(pk, priv) := _alloc_key s in
  let w := Wallet.init name pk priv in
  let key := str_pk (Wallet.pk w) in
  put (mkNetwork (time s) (sim s)
         (dict_set string_dec key w (wallets s)) (nobody s)) ;;
  ret key.

(** [Network.create()]: the clock starts at 18750 days and 61201 seconds. *)
Definition create : outcome Network :=
  (nobody_ref <- make_wallet "nobody" ;;
   w <- get_wallet nobody_ref ;;
   s <- get ;;
   put (mkNetwork (time s) (sim s)
          (dict_set string_dec (str_pk (Wallet.pk w)) w (wallets s))
          nobody_ref) ;;
   get)
    (mkNetwork (18750 * 86400000000 + 61201 * 1000000) sim_create []
               EmptyString).

(** *** [class Wallet] *)

(** The part of [combine_coins] between the reading of the balance and the
    push: the spend bundle, or [IndexError] from [coins[-1]], or
    [OverflowError] from the making of [final_coin] when the summed amount
    is no [uint64]. *)
Definition combine_spend_bundle (self : Wallet.t) (coins : list CoinWrapper.t)
  : result SpendBundle :=
  match coins with
  | [] => inl IndexError
  | c0 :: _ =>
      let last_coin := last coins c0 in
      match uint64 (sum (map CoinWrapper.amount coins)) with
      | inl e => inl e
      | inr total =>
      let final_coin :=
        CoinWrapper.mk
          (CoinWrapper.name last_coin)
          (Wallet.puzzle_hash self)
          total
          (Wallet.puzzle self) in
      let spends :=
        map (fun c =>
               let announce_conditions :=
                 PList [PList [POp ASSERT_COIN_ANNOUNCEMENT;
                               PBytes (std_hash (CoinWrapper.name last_coin
                                                 ++ CoinWrapper.name final_coin))]] in
               CoinWrapper.create_standard_spend c (Wallet.sk_ self)
                 announce_conditions)
            (removelast coins) in
      let final_coin_creation :=
        PList [PList [POp CREATE_COIN_ANNOUNCEMENT;
                      PBytes (CoinWrapper.name final_coin)];
               PList [POp CREATE_COIN;
                      PBytes (Wallet.puzzle_hash self);
                      PInt (CoinWrapper.amount final_coin)]] in
      let last_spend :=
        CoinWrapper.create_standard_spend last_coin (Wallet.sk_ self)
          final_coin_creation in
      let destroyed_coin_solutions := map fst spends ++ [fst last_spend] in
      let signatures := map snd spends ++ [snd last_spend] in
      let signature := aggregate signatures in
      inr (mkSpendBundle destroyed_coin_solutions signature)
      end
  end.

(** The two assertions that follow the push in [combine_coins], and its
    [return]. *)
Definition combine_checks (self : wref) (beginning_balance beginning_coins : Z)
    (coins : list CoinWrapper.t) (pushed : PushResult) : M SpendResult.t :=
  w <- get_wallet self ;;
  assert_ (beginning_balance =? Wallet.balance w) ;;
  assert_ (len (Wallet.usable_coins w) =? beginning_coins - (len coins - 1)) ;;
  ret (SpendResult.init pushed).

(** [Wallet.combine_coins(self, coins)] *)
Definition combine_coins (self : wref) (coins : list CoinWrapper.t)
  : M SpendResult.t :=
  w <- get_wallet self ;;
  let beginning_balance := Wallet.balance w in
  let beginning_coins := len (Wallet.usable_coins w) in
  spend_bundle <- lift (combine_spend_bundle w coins) ;;
  pushed <- push_tx spend_bundle ;;
  combine_checks self beginning_balance beginning_coins coins pushed.

(** [Wallet.choose_coin(self, amt)]; [fuel] bounds the depth of the
    recursion.  [combine_coins] returns a [SpendResult], never [None], so
    the test [result is None] is always false. *)
Fixpoint choose_coin (fuel : nat) (self : wref) (amt : Z) : M (option Coin) :=
  match fuel with
  | O => timeout
  | S fuel' =>
      w <- get_wallet self ;;
      let start_balance := Wallet.balance w in
      match compute_combine_action amt (@nil unit) (Wallet.usable_coins w) with
      | None => ret None
      | Some coins_to_spend =>
          match coins_to_spend with
          | [only] => ret (Some only)
          | _ =>
              combine_coins self
                (map (fun x =>
                        CoinWrapper.mk (parent_coin_info x) (puzzle_hash x)
                          (amount x) (Wallet.puzzle w))
                     coins_to_spend) ;;
              w <- get_wallet self ;;
              assert_ (Wallet.balance w =? start_balance) ;;
              choose_coin fuel' self amt
          end
      end
  end.

(** The conditions [launch_contract] hands to the funding coin. *)
Definition launch_conditions (self : Wallet.t) (cw : ContractWrapper.t)
    (found_coin : Coin) (amt : Z) : list Program :=
  let condition_args :=
    [PList [POp CREATE_COIN; PBytes (ContractWrapper.puzzle_hash cw); PInt amt]] in
  if amt <? amount found_coin then
    condition_args
      ++ [PList [POp CREATE_COIN;
                 PBytes (Wallet.puzzle_hash self);
                 PInt (amount found_coin - amt)]]
  else condition_args.

(** The spend bundle [launch_contract] pushes. *)
Definition launch_spend_bundle (self : Wallet.t) (cw : ContractWrapper.t)
    (found_coin : Coin) (amt : Z) : SpendBundle :=
  let condition_args := launch_conditions self cw found_coin amt in
  let delegated_puzzle_solution := PTuple (PInt 1) (PList condition_args) in
  let solution := PList [PList []; delegated_puzzle_solution; PList []] in
  let signature :=
    sign (calculate_synthetic_secret_key (Wallet.sk_ self)
            DEFAULT_HIDDEN_PUZZLE_HASH)
         (get_tree_hash delegated_puzzle_solution ++ coin_name found_coin
            ++ AGG_SIG_ME_ADDITIONAL_DATA) in
  mkSpendBundle [mkCoinSolution found_coin (Wallet.puzzle self) solution]
                signature.

(** [Wallet.launch_contract(self, source, **kwargs)], with [kw_amt] the
    value of the keyword [amt=] when it is given. *)
Definition launch_contract (fuel : nat) (self : wref) (source : Program)
    (kw_amt : option Z) : M (option CoinWrapper.t) :=
  let amt := match kw_amt with Some a => a | None => 1 end in
  found_coin <- choose_coin fuel self amt ;;
  match found_coin with
  | None =>
      raise (ValueError ("could not find available coin containing "
                           ++ str_int amt ++ " mojo"))
  | Some found_coin =>
      w <- get_wallet self ;;
      let cw := ContractWrapper.mk GENESIS_CHALLENGE source in
      let spend_bundle := launch_spend_bundle w cw found_coin amt in
      pushed <- push_tx spend_bundle ;;
      match pushed with
      | ErrorDict _ => ret None
      | FarmedDict _ _ =>
          ret (Some (ContractWrapper.custom_coin cw found_coin amt))
      end
  end.

(** [Wallet.give_chia(self, target, amt)] *)
Definition give_chia (fuel : nat) (self target : wref) (amt : Z)
  : M (option CoinWrapper.t) :=
  t <- get_wallet target ;;
  launch_contract fuel self (Wallet.puzzle t) (Some amt).

(** The local function [pk_to_sk] that [spend_coin] hands to
    [sign_coin_solutions]: [assert pk == self.pk()], then [self.sk_]. *)
Definition pk_to_sk (self : Wallet.t) (pk : bytes) : result bytes :=
  if bytes_eq_dec pk (Wallet.pk self) then inr (Wallet.sk_ self)
  else inl AssertionError.

(** The solution [spend_coin] builds for the coin: the automatic
    conditions, or the explicit [args=] passed through. *)
Definition spend_solution (self : wref) (coin : CoinWrapper.t)
    (kwargs : SpendKwargs) : M Program :=
  let amt := match kw_amt kwargs with Some a => a | None => 1 end in
  w <- get_wallet self ;;
  match kw_args kwargs with
  | None =>
      target_puzzle_hash <-
        match kw_to kwargs with
        | Some to => t <- get_wallet to ;; ret (Wallet.puzzle_hash t)
        | None => ret (Wallet.puzzle_hash w)
        end ;;
      let solution_list :=
        [PList [POp CREATE_COIN; PBytes target_puzzle_hash; PInt amt]] in
      solution_list <-
        match kw_remain kwargs with
        | Some remainer =>
            let remain_amt := CoinWrapper.amount coin - amt in
            match remainer with
            | RemainContract c =>
                ret (solution_list
                       ++ [PList [POp CREATE_COIN;
                                  PBytes (ContractWrapper.puzzle_hash c);
                                  PInt remain_amt]])
            | RemainWallet r =>
                rw <- get_wallet r ;;
                ret (solution_list
                       ++ [PList [POp CREATE_COIN;
                                  PBytes (Wallet.puzzle_hash rw);
                                  PInt remain_amt]])
            | RemainOther =>
                raise (ValueError "remainer is not a wallet or a contract")
            end
        | None => ret solution_list
        end ;;
      let delegated_puzzle_solution := PTuple (PInt 1) (PList solution_list) in
      ret (PList [PList []; delegated_puzzle_solution; PList []])
  | Some args => ret args
  end.

(** [Wallet.spend_coin(self, coin, **kwargs)] *)
Definition spend_coin (self : wref) (coin : CoinWrapper.t)
    (kwargs : SpendKwargs) : M SpendResult.t :=
  w <- get_wallet self ;;
  solution <- spend_solution self coin kwargs ;;
  let solution_for_coin :=
    mkCoinSolution (CoinWrapper.as_coin coin) (CoinWrapper.puzzle coin)
                   solution in
  signature <- lift (sign_coin_solutions [solution_for_coin] (pk_to_sk w)
                       AGG_SIG_ME_ADDITIONAL_DATA MAX_BLOCK_COST_CLVM) ;;
  let spend_bundle := mkSpendBundle [solution_for_coin] signature in
  pushed <- push_tx spend_bundle ;;
  ret (SpendResult.init pushed).

End Operations.

(** ** A small ledger to run the engine on

    An instance of each interface, simple enough to compute with: ids and
    hashes are readable concatenations, the ledger keeps its coin records in
    a list, accepts a bundle when every coin it spends is an unspent record,
    no coin is spent twice and no created amount is negative, and pays a
    reward of 10 per farmed block. *)

Module Toy.

Definition b (s : string) : bytes := list_byte_of_string s.

Definition coin_eq_dec (x y : Coin) : {x = y} + {x <> y}.
Proof.
  decide equality; try apply Z.eq_dec; apply bytes_eq_dec.
Defined.

Definition toy_coin_name (c : Coin) : bytes32 :=
  parent_coin_info c ++ b ":" ++ puzzle_hash c ++ b ":" ++ b (str_int (amount c)).

Definition toy_tree_hash (p : Program) : bytes32 :=
  match p with
  | PCode t => b "#" ++ t
  | PBytes t => t
  | _ => b "#sexp"
  end.

(** Durations of the form [<digits>s]. *)
Definition toy_parse_timedelta (s : string) : option Z :=
  match rev (list_ascii_of_string s) with
  | "s"%char :: digits =>
      match NilEmpty.uint_of_string (string_of_list_ascii (rev digits)) with
      | Some u => Some (Z.of_uint u * 1000000)
      | None => None
      end
  | _ => None
  end.

#[global] Instance chia : Chia := {|
  coin_name := toy_coin_name;
  std_hash := fun x => b "h(" ++ x ++ b ")";
  get_tree_hash := toy_tree_hash;
  puzzle_for_pk := fun pk => PCode (b "p2 " ++ pk);
  calculate_synthetic_secret_key := fun sk _ => sk;
  DEFAULT_HIDDEN_PUZZLE_HASH := b "hidden";
  GENESIS_CHALLENGE := b "genesis";
  AGG_SIG_ME_ADDITIONAL_DATA := b "me";
  MAX_BLOCK_COST_CLVM := 11000000000;
  sign := fun sk msg => sk ++ b "<" ++ msg ++ b ">";
  aggregate := fun sigs => concat sigs;
  sign_coin_solutions := fun _ pk_to_sk _ _ => inr (b "sig");
  str_pk := fun pk => string_of_list_byte pk;
  public_key_for_index := fun i => b ("pk" ++ str_int i);
  private_key_for_index := fun i => b ("sk" ++ str_int i);
  parse_timedelta := toy_parse_timedelta
|}.

Record ledger := mkLedger {
  records : list CoinRecord;
  mempool : list SpendBundle;
  clock : Z;
  height : Z
}.

Definition unspent (l : ledger) (c : Coin) : bool :=
  existsb (fun r => if coin_eq_dec (record_coin r) c then negb (spent r) else false)
          (records l).

Fixpoint distinct (cs : list Coin) : bool :=
  match cs with
  | [] => true
  | x :: r => negb (existsb (fun y => if coin_eq_dec x y then true else false) r)
              && distinct r
  end.

(** The coins a spend creates: the [CREATE_COIN] conditions of a standard
    solution [[], (1 . conditions), []]. *)
Definition created (cs : CoinSolution) : list Coin :=
  match solution cs with
  | PList [PList []; PTuple (PInt 1) (PList conditions); PList []] =>
      flat_map (fun cond =>
                  match cond with
                  | PList [POp CREATE_COIN; PBytes ph; PInt a] =>
                      [mkCoin (toy_coin_name (coin cs)) ph a]
                  | _ => []
                  end) conditions
  | _ => []
  end.

Definition toy_push_tx (l : ledger) (bundle : SpendBundle)
  : ledger * option string :=
  let spends := map coin (coin_solutions bundle) in
  let additions := flat_map created (coin_solutions bundle) in
  if negb (forallb (unspent l) spends) then (l, Some "UNKNOWN_UNSPENT"%string)
  else if negb (distinct spends) then (l, Some "DOUBLE_SPEND"%string)
  else if existsb (fun c => amount c <? 0) additions
       then (l, Some "COIN_AMOUNT_NEGATIVE"%string)
  else (mkLedger (records l) (mempool l ++ [bundle]) (clock l) (height l), None).

Definition toy_farm_block (l : ledger) (ph : bytes32)
  : ledger * (list Coin * list Coin) :=
  let spends := flat_map coin_solutions (mempool l) in
  let removals := map coin spends in
  let additions := flat_map created spends in
  let reward := mkCoin (b ("block" ++ str_int (height l))) ph 10 in
  let old :=
    map (fun r =>
           if existsb (fun c => if coin_eq_dec (record_coin r) c then true else false)
                      removals
           then mkCoinRecord (record_coin r) true else r)
        (records l) in
  (mkLedger (old ++ map (fun c => mkCoinRecord c false) (additions ++ [reward]))
            [] (clock l) (height l + 1),
   (additions, removals)).

#[global] Instance spend_sim : SpendSim := {|
  Sim := ledger;
  sim_create := mkLedger [] [] 1 0;
  sim_push_tx := toy_push_tx;
  sim_farm_block := toy_farm_block;
  get_coin_records_by_puzzle_hash := fun l ph =>
    filter (fun r => if bytes_eq_dec (puzzle_hash (record_coin r)) ph
                     then true else false) (records l);
  timestamp := clock;
  pass_time := fun l t => mkLedger (records l) (mempool l) (clock l + t) (height l)
|}.

(** Running a sequence of calls from a state. *)
Definition state_after {A} (m : M A) (s : outcome Network) : outcome Network :=
  match s with
  | Return s0 _ =>
      match m s0 with
      | Return _ s1 => Return s1 s1
      | Raise e s1 => Raise e s1
      | Timeout => Timeout
      end
  | other => other
  end.

Definition alice : wref := "pk1"%string.

(** A fresh network, the wallet [alice], three blocks farmed for her:
    she holds three coins of 10. *)
Definition three_coins : outcome Network :=
  state_after (farm_block (Some alice))
    (state_after (farm_block (Some alice))
       (state_after (farm_block (Some alice))
          (state_after (make_wallet "alice") create))).

Definition the_state {A} (o : outcome A) : Network :=
  match o with
  | Return _ s => s
  | Raise _ s => s
  | Timeout => mkNetwork 0 sim_create [] EmptyString
  end.

Definition toy : Network := the_state three_coins.

Definition wallet_of (w : wref) (s : Network) : Wallet.t :=
  match dict_get string_dec w (wallets s) with
  | Some o => o
  | None => Wallet.init EmptyString [] []
  end.

Definition coins_of (w : wref) (s : Network) : list Z :=
  map amount (dict_values (Wallet.usable_coins (wallet_of w s))).

(** The coins of [alice] in [toy], as [choose_coin] wraps them. *)
Definition alice_coins : list CoinWrapper.t :=
  map (fun x =>
         CoinWrapper.mk (parent_coin_info x) (puzzle_hash x) (amount x)
                        (Wallet.puzzle (wallet_of alice toy)))
      (dict_values (Wallet.usable_coins (wallet_of alice toy))).

Definition first_two : list CoinWrapper.t := firstn 2 alice_coins.

(** After the first two coins were combined, the first one is spent:
    combining it again with the third is a double spend. *)
Definition after_combine : Network :=
  the_state (combine_coins alice first_two toy).

Definition stale_pair : list CoinWrapper.t :=
  firstn 1 alice_coins ++ skipn 2 alice_coins.

(** The same network with its time at 0, so that the ledger's clock, which
    starts at one second, is not far behind. *)
Definition early : Network :=
  mkNetwork 0 (sim toy) (wallets toy) (nobody toy).

(** A contract, and the coin of [alice] that funds its launch. *)
Definition src : Program := PCode (b "contract").
Definition cw : ContractWrapper.t := ContractWrapper.mk GENESIS_CHALLENGE src.
Definition c0 : Coin := mkCoin (b "block0") (b "#p2 pk1") 10.

(** Spending more than the coin holds, the remainder for [alice]. *)
Definition overspend : SpendKwargs :=
  mkSpendKwargs (Some 11) None None (Some (RemainWallet alice)).

(** A wallet of two coins of 10: two blocks farmed for [alice]. *)
Definition two_coins : Network :=
  the_state
    (state_after (farm_block (Some alice))
       (state_after (farm_block (Some alice))
          (state_after (make_wallet "alice") create))).

(** What the small ledger keeps: no record and no coin that a bundle of the
    mempool creates has a negative amount. *)
Definition valid_ledger (l : ledger) : Prop :=
  Forall (fun r => 0 <= amount (record_coin r)) (records l) /\
  Forall (fun bundle =>
            Forall (fun c => 0 <= amount c)
                   (flat_map created (coin_solutions bundle)))
         (mempool l).

(** Two coins with the amounts of the farmer's and the pool's reward of a
    first block of the real ledger. *)
Definition reward_pair : list CoinWrapper.t :=
  [CoinWrapper.mk (b "farmer0") (b "#p2 pk1") 18375000000000000000
                  (PCode (b "p2 pk1"));
   CoinWrapper.mk (b "pool0") (b "#p2 pk1") 2625000000000000000
                  (PCode (b "p2 pk1"))].

End Toy.

(** ** Notions used in the statements *)

(** The search that [compute_combine_action] runs over the candidates. *)
Definition search_of (amt : Z) (usable_coins : dict bytes32 Coin)
  : CoinPairSearch.t :=
  fold_left CoinPairSearch.process_coin_for_combine_search
            (dict_values usable_coins) (CoinPairSearch.init amt).

(** Descending order of amounts. *)
Definition ge_amount (a b : Coin) : Prop := amount b <= amount a.

Definition desc (l : list Coin) : Prop := StronglySorted ge_amount l.

(** The state of a search over the coins [seen] so far, for a positive
    target. *)
Record search_inv (seen : list Coin) (s : CoinPairSearch.t) : Prop := {
  inv_total :
    CoinPairSearch.total s = sum (amounts (CoinPairSearch.max_coins s));
  inv_desc : desc (CoinPairSearch.max_coins s);
  inv_sub :
    exists dropped, Permutation (CoinPairSearch.max_coins s ++ dropped) seen;
  inv_kept : seen <> [] -> CoinPairSearch.max_coins s <> [];
  inv_tight :
    forall d, CoinPairSearch.max_coins s <> [] ->
              CoinPairSearch.total s
              - amount (last (CoinPairSearch.max_coins s) d)
              < CoinPairSearch.target s;
  inv_cover :
    CoinPairSearch.total s = sum (amounts seen)
    \/ CoinPairSearch.target s <= CoinPairSearch.total s
}.

Section Notions.
Context `{Chia} `{SpendSim}.

(** The state in which a run ends, when it ends. *)
Definition final {A} (o : outcome A) : option Network :=
  match o with
  | Return _ s => Some s
  | Raise _ s => Some s
  | Timeout => None
  end.

(** The wallets of the network without their coin sets: what no
    operation changes. *)
Definition actors (s : Network) : list (string * Wallet.t) :=
  map (fun kw => (fst kw, Wallet._clear_coins (snd kw))) (wallets s).

Definition same_actors (s s' : Network) : Prop :=
  nobody s' = nobody s /\ actors s' = actors s.

Definition keeps_actors {A} (m : M A) : Prop :=
  forall s s', final (m s) = Some s' -> same_actors s s'.

Definition registered (w : wref) (s : Network) : Prop :=
  dict_get string_dec w (wallets s) <> None.

(** The coin set that the refresh of [farm_block] builds from a list of
    coins, starting from [d]. *)
Definition coin_dict (cs : list Coin) (d : dict bytes32 Coin)
  : dict bytes32 Coin :=
  fold_left (fun d c => dict_set bytes_eq_dec (coin_name c) c d) cs d.

(** The coins of the unspent records of a query. *)
Definition unspent_coins (records : list CoinRecord) : list Coin :=
  map record_coin (filter (fun r => Bool.eqb (spent r) false) records).

(** The puzzle hash [spend_coin] sends the amount to: the wallet's own,
    or that of the wallet given as [to=]. *)
Definition recipient_hash (s : Network) (self : Wallet.t) (to : option wref)
  : option bytes32 :=
  match to with
  | None => Some (Wallet.puzzle_hash self)
  | Some t =>
      option_map Wallet.puzzle_hash (dict_get string_dec t (wallets s))
  end.

(** The puzzle hash of a remainder recipient that is a contract or a
    wallet. *)
Definition remainer_hash (s : Network) (remainer : Remainer)
  : option bytes32 :=
  match remainer with
  | RemainContract c => Some (ContractWrapper.puzzle_hash c)
  | RemainWallet r =>
      option_map Wallet.puzzle_hash (dict_get string_dec r (wallets s))
  | RemainOther => None
  end.
End Notions.

(** ** Notions used in the further statements *)

(** What a search keeps for every target and every amount: the total is the
    sum of the kept coins, they are in descending order, and they are among
    the coins seen. *)
Record search_basic (seen : list Coin) (s : CoinPairSearch.t) : Prop := {
  basic_total :
    CoinPairSearch.total s = sum (amounts (CoinPairSearch.max_coins s));
  basic_desc : desc (CoinPairSearch.max_coins s);
  basic_sub :
    exists dropped, Permutation (CoinPairSearch.max_coins s ++ dropped) seen
}.

(** The first kept coin is a largest coin seen. *)
Definition head_max (seen : list Coin) (s : CoinPairSearch.t) : Prop :=
  forall h x, hd_error (CoinPairSearch.max_coins s) = Some h ->
              In x seen -> amount x <= amount h.

(** The conditions of a standard solution [[], (1 . conditions), []]. *)
Definition standard_conditions (solution : Program) : list Program :=
  match solution with
  | PList [PList []; PTuple (PInt 1) (PList conditions); PList []] => conditions
  | _ => []
  end.

(** The amounts of the [CREATE_COIN] conditions of a list of conditions. *)
Definition created_amounts (conditions : list Program) : list Z :=
  flat_map (fun cond =>
              match cond with
              | PList [POp CREATE_COIN; PBytes _; PInt a] => [a]
              | _ => []
              end) conditions.

(** The amounts of all the coins a bundle of standard spends creates. *)
Definition bundle_created (bundle : SpendBundle) : list Z :=
  flat_map (fun cs => created_amounts (standard_conditions (solution cs)))
           (coin_solutions bundle).

(** The wrapping of a wallet's coin that [choose_coin] hands to
    [combine_coins]. *)
Definition wrap_coin (puzzle : Program) (x : Coin) : CoinWrapper.t :=
  CoinWrapper.mk (parent_coin_info x) (puzzle_hash x) (amount x) puzzle.

Section FurtherNotions.
Context `{Chia} `{SpendSim}.

(** A wallet as [Wallet.__init__] makes it and [farm_block] refreshes it:
    the puzzle is the standard puzzle of its public key, the puzzle hash is
    the hash of that puzzle, and every coin is filed under its id. *)
Definition wallet_ok (w : Wallet.t) : Prop :=
  Wallet.puzzle w = puzzle_for_pk (Wallet.pk_ w) /\
  Wallet.puzzle_hash w = get_tree_hash (Wallet.puzzle w) /\
  forall id c,
    dict_get bytes_eq_dec id (Wallet.usable_coins w) = Some c ->
    coin_name c = id.

Definition network_ok (s : Network) : Prop :=
  registered (nobody s) s /\
  forall k w, In (k, w) (wallets s) -> wallet_ok w.

(** The calls a user of the module makes on a network and its wallets. *)
Inductive call :=
| CallMakeWallet (name : string)
| CallFarmBlock (farmer : option wref)
| CallSkipTime (fuel : nat) (target_duration : string) (farmer : option wref)
| CallPushTx (bundle : SpendBundle)
| CallCombineCoins (self : wref) (coins : list CoinWrapper.t)
| CallChooseCoin (fuel : nat) (self : wref) (amt : Z)
| CallLaunchContract (fuel : nat) (self : wref) (source : Program)
                     (kw_amt : option Z)
| CallGiveChia (fuel : nat) (self target : wref) (amt : Z)
| CallSpendCoin (self : wref) (coin : CoinWrapper.t) (kwargs : SpendKwargs).

Definition run_call (c : call) : M unit :=
  match c with
  | CallMakeWallet name => make_wallet name ;; ret tt
  | CallFarmBlock farmer => farm_block farmer ;; ret tt
  | CallSkipTime fuel d farmer => skip_time fuel d farmer
  | CallPushTx bundle => push_tx bundle ;; ret tt
  | CallCombineCoins self coins => combine_coins self coins ;; ret tt
  | CallChooseCoin fuel self amt => choose_coin fuel self amt ;; ret tt
  | CallLaunchContract fuel self source kw_amt =>
      launch_contract fuel self source kw_amt ;; ret tt
  | CallGiveChia fuel self target amt =>
      give_chia fuel self target amt ;; ret tt
  | CallSpendCoin self coin kwargs => spend_coin self coin kwargs ;; ret tt
  end.

(** The networks that [Network.create()] and any calls after it lead to,
    whether a call returned or raised. *)
Inductive reachable : Network -> Prop :=
| reach_create (s : Network) :
    final create = Some s -> reachable s
| reach_call (s s' : Network) (c : call) :
    reachable s -> final (run_call c s) = Some s' -> reachable s'.

(** A run keeps a property of the network. *)
(** The exceptions of [m] all satisfy [Q]. *)
Definition raises_only (Q : exn -> Prop) {A} (m : M A) : Prop :=
  forall s e s', m s = Raise e s' -> Q e.

(** The ledger is one that keeps [I], and the coins of the wallet [self]
    have no negative amount. *)
Definition funds_ok (I : Sim -> Prop) (self : wref) (s : Network) : Prop :=
  I (sim s) /\
  forall w, dict_get string_dec self (wallets s) = Some w ->
            Forall (fun c => 0 <= amount c)
                   (dict_values (Wallet.usable_coins w)).

Definition preserves (P : Network -> Prop) {A} (m : M A) : Prop :=
  forall s s', P s -> final (m s) = Some s' -> P s'.
End FurtherNotions.

(** * Properties *)

(** ** Sums *)

Lemma fold_add_shift (l : list Z) (a : Z) :
  fold_left Z.add l a = a + fold_left Z.add l 0.
Proof.
  revert a; induction l as [|x l IH]; intros a; simpl.
  - lia.
  - rewrite (IH (a + x)), (IH x). lia.
Qed.

Lemma sum_nil : sum [] = 0.
Proof. reflexivity. Qed.

Lemma sum_cons (x : Z) (l : list Z) : sum (x :: l) = x + sum l.
Proof. unfold sum; simpl. apply fold_add_shift. Qed.

Lemma sum_app (l l' : list Z) : sum (l ++ l') = sum l + sum l'.
Proof.
  induction l as [|x l IH]; simpl.
  - reflexivity.
  - rewrite !sum_cons, IH; lia.
Qed.

Lemma sum_perm (l l' : list Z) : Permutation l l' -> sum l = sum l'.
Proof.
  induction 1; rewrite ?sum_cons in *; lia.
Qed.

Lemma sum_nonneg (l : list Z) : Forall (fun x => 0 <= x) l -> 0 <= sum l.
Proof.
  induction 1; rewrite ?sum_nil, ?sum_cons; lia.
Qed.

Lemma amounts_nonneg (cs : list Coin) :
  Forall (fun c => 0 <= amount c) cs -> Forall (fun x => 0 <= x) (amounts cs).
Proof.
  unfold amounts; induction 1; simpl; constructor; auto.
Qed.

Lemma last_default {A} (l : list A) (d d' : A) :
  l <> [] -> last l d = last l d'.
Proof.
  induction l as [|x [|y l] IH]; intros Hne; try congruence; try reflexivity.
  change (last (y :: l) d = last (y :: l) d'). apply IH; discriminate.
Qed.

Ltac sum_norm :=
  unfold amounts;
  repeat (rewrite ?map_app, ?sum_app, ?sum_cons; cbn [map app]);
  change (sum []) with 0 in *.

(** ** The selector *)

Module SelectorFacts.
Import CoinPairSearch.

Lemma insert_desc_perm (l : list Coin) (c : Coin) :
  Permutation (insert_desc l c) (c :: l).
Proof.
  induction l as [|x l IH]; simpl.
  - reflexivity.
  - destruct (amount x <? amount c).
    + reflexivity.
    + rewrite IH. apply perm_swap.
Qed.

Lemma insert_desc_sorted (l : list Coin) (c : Coin) :
  desc l -> desc (insert_desc l c).
Proof.
  unfold desc; induction l as [|x l IH]; intros Hs; simpl.
  - repeat constructor.
  - apply StronglySorted_inv in Hs as [Hl Hx].
    destruct (amount x <? amount c) eqn:E.
    + apply Z.ltb_lt in E. constructor.
      * constructor; assumption.
      * constructor; [unfold ge_amount; lia|].
        eapply Forall_impl; [|exact Hx]. unfold ge_amount; intros; lia.
    + apply Z.ltb_ge in E. constructor; [auto|].
      eapply Permutation_Forall.
      * symmetry; apply insert_desc_perm.
      * constructor; [exact E | exact Hx].
Qed.

Lemma desc_prefix (l l' : list Coin) : desc (l ++ l') -> desc l.
Proof.
  unfold desc; induction l as [|x l IH]; simpl; intros Hs.
  - constructor.
  - apply StronglySorted_inv in Hs as [Hl Hx]. constructor; [auto|].
    apply Forall_app in Hx. tauto.
Qed.

(** In a descending list the last coin is a smallest one. *)
Lemma desc_last_min (l : list Coin) (d x : Coin) :
  desc l -> In x l -> amount (last l d) <= amount x.
Proof.
  unfold desc; induction l as [|y l IH]; intros Hs Hin; [destruct Hin|].
  apply StronglySorted_inv in Hs as [Hl Hy].
  destruct l as [|z l].
  - destruct Hin as [->|[]]. simpl; lia.
  - change (amount (last (z :: l) d) <= amount x).
    destruct Hin as [->|Hin]; [|auto].
    rewrite Forall_forall in Hy.
    apply (Hy (last (z :: l) d)).
    rewrite (last_default _ d z) by discriminate.
    rewrite (app_removelast_last z) at 2 by discriminate.
    apply in_or_app; right; left; reflexivity.
Qed.

(** What the eviction loop leaves: a prefix of the kept list, the total
    lowered by the dropped amounts, and the exit condition of the loop. *)
Lemma evict_exit (n : nat) (s : t) :
  total s = sum (amounts (max_coins s)) ->
  (length (max_coins s) <= n)%nat ->
  target (evict n s) = target s /\
  exists dropped,
    max_coins s = max_coins (evict n s) ++ dropped /\
    total (evict n s) = total s - sum (amounts dropped) /\
    (dropped = [] \/ target s <= total (evict n s)) /\
    (forall d, max_coins (evict n s) <> [] ->
               total (evict n s) - amount (last (max_coins (evict n s)) d)
               < target s).
Proof.
  revert s; induction n as [|n IH]; intros s Htot Hlen.
  - simpl. split; [reflexivity|]. exists []. rewrite app_nil_r.
    sum_norm. repeat split; auto; try lia.
    intros d Hne. destruct (max_coins s); [congruence | simpl in Hlen; lia].
  - cbn [evict]. destruct (max_coins s) as [|x l] eqn:El.
    + split; [reflexivity|]. exists []. rewrite El. sum_norm.
      repeat split; auto; try lia. intros; congruence.
    + cbv zeta.
      destruct (total s - amount (last (x :: l) x) >=? target s) eqn:E.
      * apply Z.geb_le in E.
        assert (Hsplit : x :: l = removelast (x :: l) ++ [last (x :: l) x])
          by (apply app_removelast_last; discriminate).
        destruct (IH (mk (target s) (total s - amount (last (x :: l) x))
                         (removelast (x :: l))))
          as (Ht & dropped & Hd & Htot' & Hcov & Hexit).
        { cbn [total max_coins]. rewrite Htot.
          rewrite Hsplit at 1. sum_norm. lia. }
        { cbn [max_coins].
          apply (f_equal (@length Coin)) in Hsplit.
          rewrite length_app in Hsplit.
          cbn [length] in Hsplit, Hlen. lia. }
        cbn [target total max_coins] in Ht, Hd, Htot', Hcov, Hexit.
        split; [exact Ht|].
        exists (dropped ++ [last (x :: l) x]).
        split; [|split; [|split]].
        -- rewrite app_assoc, <- Hd. exact Hsplit.
        -- rewrite Htot'. sum_norm. lia.
        -- right. destruct Hcov as [->|Hcov]; [|exact Hcov].
           rewrite Htot'. sum_norm. lia.
        -- exact Hexit.
      * rewrite Z.geb_leb in E; apply Z.leb_gt in E.
        split; [reflexivity|]. exists []. rewrite El, app_nil_r.
        sum_norm. repeat split; auto; try lia.
        intros d _. rewrite (last_default _ d x) by discriminate. lia.
Qed.

Lemma init_inv (amt : Z) : search_inv [] (init amt).
Proof.
  split; simpl.
  - reflexivity.
  - constructor.
  - exists []. reflexivity.
  - congruence.
  - congruence.
  - left; reflexivity.
Qed.

Lemma process_target (s : t) (c : Coin) :
  total s = sum (amounts (max_coins s)) ->
  target (process_coin_for_combine_search s c) = target s.
Proof.
  intros Htot.
  unfold process_coin_for_combine_search; cbn [max_coins target total].
  destruct (max_coins s) as [|x l] eqn:El; [reflexivity|].
  cbn [length Nat.eqb].
  set (s1 := insort _ c 0 _).
  assert (Htot1 : total s1 = sum (amounts (max_coins s1))).
  { unfold s1, insort, amounts; cbn [total max_coins].
    rewrite (sum_perm _ _ (Permutation_map amount
                             (insert_desc_perm (x :: l) c))).
    rewrite Htot. sum_norm. lia. }
  destruct (evict_exit (length (max_coins s1)) s1 Htot1 (le_n _)) as [Ht _].
  exact Ht.
Qed.

Lemma process_inv (seen : list Coin) (s : t) (c : Coin) :
  0 < target s -> 0 <= amount c ->
  search_inv seen s ->
  search_inv (seen ++ [c]) (process_coin_for_combine_search s c).
Proof.
  intros Hpos Hc [Htot Hdesc [dropped Hsub] Hkept Htight Hcover].
  unfold process_coin_for_combine_search; cbn [max_coins target total].
  destruct (max_coins s) as [|x l] eqn:El.
  - (* the first coin is kept as it is *)
    cbn [length Nat.eqb app].
    assert (Hseen : seen = []).
    { destruct seen; [reflexivity|]. exfalso. apply Hkept; congruence. }
    subst seen. revert Htot; sum_norm; intros Htot.
    split; cbn [max_coins target total app].
    + sum_norm. lia.
    + repeat constructor.
    + exists []. reflexivity.
    + congruence.
    + intros d _. simpl. lia.
    + left. sum_norm. lia.
  - cbn [length Nat.eqb].
    set (s1 := insort _ c 0 _).
    assert (Hperm : Permutation (max_coins s1) (c :: x :: l))
      by apply insert_desc_perm.
    assert (Htot1 : total s1 = sum (amounts (max_coins s1))).
    { unfold amounts.
      rewrite (sum_perm _ _ (Permutation_map amount Hperm)).
      unfold s1, insort; cbn [total]. rewrite Htot. sum_norm. lia. }
    destruct (evict_exit (length (max_coins s1)) s1 Htot1 (le_n _))
      as (Ht & gone & Hd & Htot' & Hcov & Hexit).
    change (target s1) with (target s) in *.
    change (total s1) with (total s + amount c) in *.
    set (s2 := evict (length (max_coins s1)) s1) in *.
    assert (Hdesc1 : desc (max_coins s1))
      by (apply insert_desc_sorted; exact Hdesc).
    assert (Htot2 : total s2 = sum (amounts (max_coins s2))).
    { rewrite Htot', Htot1, Hd. sum_norm. lia. }
    split.
    + exact Htot2.
    + apply desc_prefix with gone. rewrite <- Hd. exact Hdesc1.
    + exists (gone ++ dropped).
      rewrite app_assoc, <- Hd, Hperm.
      rewrite <- Hsub.
      apply (Permutation_cons_append ((x :: l) ++ dropped) c).
    + intros _ Hnil. rewrite Hnil in Htot2.
      destruct Hcov as [->|Hcov].
      * rewrite app_nil_r in Hd. rewrite <- Hd in Hnil. rewrite Hnil in Hperm.
        apply Permutation_nil in Hperm. discriminate.
      * revert Htot2; sum_norm; intros Htot2. lia.
    + intros d Hne. rewrite Ht. apply Hexit, Hne.
    + rewrite Ht. destruct Hcov as [->|Hcov]; [|right; exact Hcov].
      destruct Hcover as [Hall|Hge].
      * left. rewrite Htot', Hall. sum_norm. lia.
      * right. rewrite Htot'. sum_norm. lia.
Qed.

Lemma process_all_inv (cs seen : list Coin) (s : t) :
  0 < target s ->
  Forall (fun c => 0 <= amount c) cs ->
  search_inv seen s ->
  search_inv (seen ++ cs) (fold_left process_coin_for_combine_search cs s)
  /\ target (fold_left process_coin_for_combine_search cs s) = target s.
Proof.
  revert seen s; induction cs as [|c cs IH]; intros seen s Hpos Hcs Hinv.
  - rewrite app_nil_r. split; [exact Hinv | reflexivity].
  - inversion Hcs as [|? ? Hc Hcs']; subst. cbn [fold_left].
    assert (Ht : target (process_coin_for_combine_search s c) = target s)
      by (apply process_target, Hinv).
    destruct (IH (seen ++ [c]) (process_coin_for_combine_search s c))
      as [Hinv' Ht'].
    + rewrite Ht; exact Hpos.
    + exact Hcs'.
    + apply process_inv; assumption.
    + rewrite <- app_assoc in Hinv'. split; [exact Hinv'|]. congruence.
Qed.

End SelectorFacts.

Lemma fold_left_values {S K V : Type} (f : S -> V -> S) (d : list (K * V)) (s : S) :
  fold_left (fun s kc => f s (snd kc)) d s = fold_left f (map snd d) s.
Proof.
  revert s; induction d as [|kc d IH]; intros s; simpl; [reflexivity | apply IH].
Qed.

Lemma compute_combine_action_search (amt : Z) (usable_coins : dict bytes32 Coin) :
  compute_combine_action amt (@nil unit) usable_coins =
  if CoinPairSearch.total (search_of amt usable_coins) >=? amt
  then Some (CoinPairSearch.max_coins (search_of amt usable_coins))
  else None.
Proof.
  unfold compute_combine_action, search_of, dict_items, dict_values,
    CoinPairSearch.get_result.
  rewrite fold_left_values. reflexivity.
Qed.

Lemma search_of_inv (amt : Z) (usable_coins : dict bytes32 Coin) :
  0 < amt ->
  Forall (fun c => 0 <= amount c) (dict_values usable_coins) ->
  search_inv (dict_values usable_coins) (search_of amt usable_coins)
  /\ CoinPairSearch.target (search_of amt usable_coins) = amt.
Proof.
  intros Hpos Hnn.
  apply (SelectorFacts.process_all_inv (dict_values usable_coins) []
           (CoinPairSearch.init amt)); auto.
  apply SelectorFacts.init_inv.
Qed.

(** C2 as stated fails at target 0: with the single candidate of amount 5
    the selector returns that coin, the candidates cover the target, and
    dropping the coin leaves a total of 0, which is not below the target. *)
Lemma selector_zero_target_not_tight :
  let usable := [([], mkCoin [] [] 5)] in
  0 <= sum (amounts (dict_values usable)) /\
  exists sel,
    compute_combine_action 0 (@nil unit) usable = Some sel /\
    ~ (exists c, In c sel /\ (forall x, In x sel -> amount c <= amount x) /\
                 sum (amounts sel) - amount c < 0).
Proof.
  cbv zeta. split; [vm_compute; discriminate|].
  eexists; split; [reflexivity|].
  intros (c & [<-|[]] & _ & Hlt). vm_compute in Hlt. discriminate.
Qed.

(** C2, amended: for a positive target and candidates of non-negative
    amounts, if the candidates' total covers the target the selector returns
    a non-empty sub-multiset of the candidates whose total covers the target
    and falls below it once a smallest coin is removed; if the candidates'
    total is below the target, [compute_combine_action] returns [None]. *)
Theorem selector_greedy_cover (amt : Z) (usable_coins : dict bytes32 Coin) :
  0 < amt ->
  Forall (fun c => 0 <= amount c) (dict_values usable_coins) ->
  (amt <= sum (amounts (dict_values usable_coins)) ->
   exists sel,
     compute_combine_action amt (@nil unit) usable_coins = Some sel /\
     (exists rest, Permutation (sel ++ rest) (dict_values usable_coins)) /\
     amt <= sum (amounts sel) /\
     sel <> [] /\
     (forall c, In c sel -> (forall x, In x sel -> amount c <= amount x) ->
                sum (amounts sel) - amount c < amt))
  /\
  (sum (amounts (dict_values usable_coins)) < amt ->
   compute_combine_action amt (@nil unit) usable_coins = None).
Proof.
  intros Hpos Hnn.
  destruct (search_of_inv amt usable_coins Hpos Hnn) as [Hinv Ht].
  destruct Hinv as [Htot Hdesc [dropped Hsub] Hkept Htight Hcover].
  rewrite Ht in *.
  rewrite compute_combine_action_search.
  set (s := search_of amt usable_coins) in *.
  assert (Hle : CoinPairSearch.total s <= sum (amounts (dict_values usable_coins))).
  { rewrite Htot. unfold amounts.
    rewrite <- (sum_perm _ _ (Permutation_map amount Hsub)).
    rewrite map_app, sum_app.
    assert (0 <= sum (map amount dropped)); [|lia].
    apply sum_nonneg, amounts_nonneg.
    eapply Forall_app. eapply Permutation_Forall; [symmetry; exact Hsub | exact Hnn]. }
  split.
  - intros Hsum.
    assert (Hge : amt <= CoinPairSearch.total s) by (destruct Hcover; lia).
    exists (CoinPairSearch.max_coins s).
    destruct (CoinPairSearch.total s >=? amt) eqn:E;
      [|rewrite Z.geb_leb in E; apply Z.leb_gt in E; lia].
    assert (Hne : CoinPairSearch.max_coins s <> []).
    { intros Hnil. rewrite Hnil in Htot. change (sum (amounts [])) with 0 in Htot. lia. }
    repeat split; auto.
    + exists dropped; exact Hsub.
    + rewrite <- Htot; exact Hge.
    + intros c Hin Hmin. rewrite <- Htot.
      specialize (Htight c Hne).
      assert (amount (last (CoinPairSearch.max_coins s) c) <= amount c)
        by (apply SelectorFacts.desc_last_min; assumption).
      assert (amount c <= amount (last (CoinPairSearch.max_coins s) c)).
      { apply Hmin.
        rewrite (app_removelast_last c Hne) at 2.
        apply in_or_app; right; left; reflexivity. }
      lia.
  - intros Hsum.
    destruct (CoinPairSearch.total s >=? amt) eqn:E; [|reflexivity].
    apply Z.geb_le in E. lia.
Qed.

(** The hypotheses of [selector_greedy_cover] hold for the coins 10, 10, 10
    and the target 25, where all three coins are selected. *)
Lemma selector_greedy_cover_witness :
  let usable := [([x31], mkCoin [x31] [] 10); ([x32], mkCoin [x32] [] 10);
                 ([x33], mkCoin [x33] [] 10)] in
  (25 <= sum (amounts (dict_values usable)) ->
   exists sel,
     compute_combine_action 25 (@nil unit) usable = Some sel /\
     (exists rest, Permutation (sel ++ rest) (dict_values usable)) /\
     25 <= sum (amounts sel) /\
     sel <> [] /\
     (forall c, In c sel -> (forall x, In x sel -> amount c <= amount x) ->
                sum (amounts sel) - amount c < 25))
  /\
  (sum (amounts (dict_values usable)) < 25 ->
   compute_combine_action 25 (@nil unit) usable = None).
Proof.
  cbv zeta.
  apply (selector_greedy_cover 25); [lia|].
  repeat constructor; simpl; lia.
Defined.

(** ** Dictionaries *)

Section DictFacts.
Context {K V : Type} (K_eq_dec : forall a b : K, {a = b} + {a <> b}).

Lemma dict_get_set (k k' : K) (v : V) (d : dict K V) :
  dict_get K_eq_dec k' (dict_set K_eq_dec k v d) =
  if K_eq_dec k k' then Some v else dict_get K_eq_dec k' d.
Proof.
  induction d as [|[k0 v0] d IH]; simpl.
  - destruct (K_eq_dec k k'); reflexivity.
  - destruct (K_eq_dec k0 k) as [->|Hne]; simpl.
    + destruct (K_eq_dec k k'); reflexivity.
    + destruct (K_eq_dec k0 k') as [->|Hne'].
      * destruct (K_eq_dec k k'); [congruence | reflexivity].
      * exact IH.
Qed.

Lemma dict_get_map (f : V -> V) (k : K) (d : dict K V) :
  dict_get K_eq_dec k (map (fun kv => (fst kv, f (snd kv))) d) =
  option_map f (dict_get K_eq_dec k d).
Proof.
  induction d as [|[k0 v0] d IH]; simpl; [reflexivity|].
  destruct (K_eq_dec k0 k); [reflexivity | exact IH].
Qed.

Lemma dict_get_in (k : K) (v : V) (d : dict K V) :
  dict_get K_eq_dec k d = Some v -> In (k, v) d.
Proof.
  induction d as [|[k0 v0] d IH]; simpl; [discriminate|].
  destruct (K_eq_dec k0 k) as [->|Hne]; intros Hg.
  - left; congruence.
  - right; auto.
Qed.
End DictFacts.

(** ** Runs *)

Section RunFacts.
Context `{Chia} `{SpendSim}.

Lemma same_actors_refl (s : Network) : same_actors s s.
Proof. split; reflexivity. Qed.

Lemma same_actors_trans (s1 s2 s3 : Network) :
  same_actors s1 s2 -> same_actors s2 s3 -> same_actors s1 s3.
Proof. intros [? ?] [? ?]; split; congruence. Qed.

Lemma actors_get (k : wref) (s : Network) :
  dict_get string_dec k (actors s) =
  option_map Wallet._clear_coins (dict_get string_dec k (wallets s)).
Proof. apply dict_get_map. Qed.

(** A wallet registered before a run is registered after it, with the
    same keys, puzzle and puzzle hash. *)
Lemma same_actors_get (k : wref) (s s' : Network) (w : Wallet.t) :
  same_actors s s' ->
  dict_get string_dec k (wallets s) = Some w ->
  exists w', dict_get string_dec k (wallets s') = Some w' /\
             Wallet._clear_coins w' = Wallet._clear_coins w.
Proof.
  intros [_ Ha] Hg.
  assert (Hk := actors_get k s'). rewrite Ha, actors_get, Hg in Hk.
  destruct (dict_get string_dec k (wallets s')) as [w'|]; [|discriminate].
  exists w'. split; [reflexivity|]. simpl in Hk. congruence.
Qed.

Lemma same_actors_registered (k : wref) (s s' : Network) :
  same_actors s s' -> registered k s -> registered k s'.
Proof.
  unfold registered. intros Hs Hr.
  destruct (dict_get string_dec k (wallets s)) as [w|] eqn:E; [|congruence].
  destruct (same_actors_get k s s' w Hs E) as (w' & -> & _). discriminate.
Qed.

Lemma keeps_ret {A} (a : A) : keeps_actors (ret a).
Proof. intros s s' [= <-]. apply same_actors_refl. Qed.

Lemma keeps_raise {A} (e : exn) : keeps_actors (@raise _ A e).
Proof. intros s s' [= <-]. apply same_actors_refl. Qed.

Lemma keeps_timeout {A} : keeps_actors (@timeout _ A).
Proof. intros s s' [=]. Qed.

Lemma keeps_bind {A B} (m : M A) (k : A -> M B) :
  keeps_actors m -> (forall a, keeps_actors (k a)) -> keeps_actors (bind m k).
Proof.
  intros Hm Hk s s'. unfold bind.
  destruct (m s) as [a s1|e s1|] eqn:E; intros Hf.
  - apply same_actors_trans with s1.
    + apply Hm. rewrite E. reflexivity.
    + apply (Hk a). exact Hf.
  - apply Hm. rewrite E. exact Hf.
  - discriminate.
Qed.

Lemma keeps_get_wallet (w : wref) : keeps_actors (get_wallet w).
Proof.
  intros s s'. unfold get_wallet.
  destruct (dict_get string_dec w (wallets s)); intros [= <-];
    apply same_actors_refl.
Qed.

Lemma keeps_assert (b : bool) : keeps_actors (assert_ b).
Proof. destruct b; [apply keeps_ret | apply keeps_raise]. Qed.

Lemma keeps_lift {A} (r : result A) : keeps_actors (lift r).
Proof. destruct r; [apply keeps_raise | apply keeps_ret]. Qed.

Lemma get_wallet_some (k : wref) (s : Network) (w : Wallet.t) :
  dict_get string_dec k (wallets s) = Some w -> get_wallet k s = Return w s.
Proof. unfold get_wallet. intros ->. reflexivity. Qed.

Lemma add_unspent_clear (w : Wallet.t) (records : list CoinRecord) :
  Wallet._clear_coins (add_unspent w records) = Wallet._clear_coins w.
Proof.
  unfold add_unspent. revert w.
  induction records as [|r records IH]; intros w; simpl; [reflexivity|].
  rewrite IH. destruct (Bool.eqb (spent r) false); reflexivity.
Qed.

(** The state that [farm_block] leaves, for a farmer of puzzle hash [ph]. *)
Lemma farm_block_run (farmer : option wref) (s : Network) (fw : Wallet.t) :
  dict_get string_dec
    (match farmer with Some f => f | None => nobody s end) (wallets s)
  = Some fw ->
  exists s',
    farm_block farmer s
    = Return (snd (sim_farm_block (sim s) (Wallet.puzzle_hash fw))) s' /\
    sim s' = fst (sim_farm_block (sim s) (Wallet.puzzle_hash fw)) /\
    time s' = time s + farm_duration /\
    nobody s' = nobody s /\
    wallets s' =
    map (fun kw =>
           (fst kw,
            add_unspent (Wallet._clear_coins (snd kw))
              (get_coin_records_by_puzzle_hash (sim s')
                 (Wallet.puzzle_hash (snd kw)))))
        (wallets s).
Proof.
  intros Hf. unfold farm_block, bind, get.
  rewrite (get_wallet_some _ _ _ Hf).
  destruct (sim_farm_block (sim s) (Wallet.puzzle_hash fw)) as [sim1 farmed].
  eexists. split; [reflexivity|]. cbn [sim time nobody wallets fst snd].
  repeat split. rewrite map_map. reflexivity.
Qed.

Lemma keeps_farm_block (farmer : option wref) : keeps_actors (farm_block farmer).
Proof.
  intros s s'. 
  destruct (dict_get string_dec
              (match farmer with Some f => f | None => nobody s end)
              (wallets s)) as [fw|] eqn:E.
  - destruct (farm_block_run farmer s fw E) as (s1 & -> & _ & _ & Hn & Hw).
    intros [= <-]. split; [exact Hn|].
    unfold actors. rewrite Hw, map_map. apply map_ext.
    intros [k w]; cbn [fst snd]. rewrite add_unspent_clear. reflexivity.
  - unfold farm_block, bind, get, get_wallet. rewrite E.
    intros [= <-]. apply same_actors_refl.
Qed.

Lemma keeps_push_tx (bundle : SpendBundle) : keeps_actors (push_tx bundle).
Proof.
  intros s s'. unfold push_tx, bind, get, put.
  destruct (sim_push_tx (sim s) bundle) as [sim1 [e|]].
  - intros [= <-]. split; reflexivity.
  - assert (Hk := keeps_farm_block None
                    (mkNetwork (time s) sim1 (wallets s) (nobody s))).
    destruct (farm_block None _) as [farmed s1|e s1|]; intros [= <-];
      exact (Hk _ eq_refl).
Qed.

(** The two ways [push_tx] ends when [nobody] is a registered wallet. *)
Lemma push_tx_cases (bundle : SpendBundle) (s : Network) (nw : Wallet.t) :
  dict_get string_dec (nobody s) (wallets s) = Some nw ->
  match sim_push_tx (sim s) bundle with
  | (sim1, Some reason) =>
      push_tx bundle s
      = Return (ErrorDict reason)
               (mkNetwork (time s) sim1 (wallets s) (nobody s))
  | (sim1, None) =>
      exists s',
        push_tx bundle s
        = Return (FarmedDict
                    (fst (snd (sim_farm_block sim1 (Wallet.puzzle_hash nw))))
                    (snd (snd (sim_farm_block sim1 (Wallet.puzzle_hash nw)))))
                 s' /\
        sim s' = fst (sim_farm_block sim1 (Wallet.puzzle_hash nw)) /\
        time s' = time s + farm_duration
  end.
Proof.
  intros Hn. unfold push_tx, bind, get, put.
  destruct (sim_push_tx (sim s) bundle) as [sim1 [reason|]]; [reflexivity|].
  destruct (farm_block_run None
              (mkNetwork (time s) sim1 (wallets s) (nobody s)) nw Hn)
    as (s' & Hrun & Hsim & Ht & _).
  rewrite Hrun. exists s'. auto.
Qed.

End RunFacts.

(** ** The coin sets after a block *)

Section RefreshFacts.
Context `{Chia} `{SpendSim}.

Lemma add_unspent_coins (w : Wallet.t) (records : list CoinRecord) :
  Wallet.usable_coins (add_unspent w records) =
  coin_dict (unspent_coins records) (Wallet.usable_coins w).
Proof.
  unfold add_unspent, unspent_coins, coin_dict. revert w.
  induction records as [|r records IH]; intros w; simpl; [reflexivity|].
  rewrite IH. destruct (Bool.eqb (spent r) false); reflexivity.
Qed.

Lemma add_unspent_puzzle_hash (w : Wallet.t) (records : list CoinRecord) :
  Wallet.puzzle_hash (add_unspent w records) = Wallet.puzzle_hash w.
Proof.
  change (Wallet.puzzle_hash (Wallet._clear_coins (add_unspent w records))
          = Wallet.puzzle_hash w).
  rewrite add_unspent_clear. reflexivity.
Qed.

(** An entry of the rebuilt coin set is a coin of the list, under its id,
    unless it was in the set before. *)
Lemma coin_dict_get_inv (cs : list Coin) (d : dict bytes32 Coin)
    (id : bytes32) (c : Coin) :
  dict_get bytes_eq_dec id (coin_dict cs d) = Some c ->
  (In c cs /\ coin_name c = id) \/ dict_get bytes_eq_dec id d = Some c.
Proof.
  unfold coin_dict. revert d.
  induction cs as [|c0 cs IH]; intros d Hg; simpl in *; [right; exact Hg|].
  destruct (IH _ Hg) as [[Hin Hid]|Hd]; [left; tauto|].
  rewrite dict_get_set in Hd.
  destruct (bytes_eq_dec (coin_name c0) id) as [Heq|Hne]; [|right; exact Hd].
  left. split; [left|]; congruence.
Qed.

Lemma coin_dict_get_cases (cs : list Coin) (d : dict bytes32 Coin)
    (id : bytes32) :
  dict_get bytes_eq_dec id (coin_dict cs d) = dict_get bytes_eq_dec id d \/
  exists c, In c cs /\ coin_name c = id /\
            dict_get bytes_eq_dec id (coin_dict cs d) = Some c.
Proof.
  unfold coin_dict. revert d.
  induction cs as [|c0 cs IH]; intros d; simpl; [left; reflexivity|].
  destruct (IH (dict_set bytes_eq_dec (coin_name c0) c0 d))
    as [Hsame|(c & Hin & Hid & Hg)].
  - rewrite Hsame, dict_get_set.
    destruct (bytes_eq_dec (coin_name c0) id) as [Heq|Hne];
      [|left; reflexivity].
    right. exists c0. auto.
  - right. exists c. auto.
Qed.

(** The id of a coin of the list is bound to a coin of the list with that
    id. *)
Lemma coin_dict_get_last (cs : list Coin) (d : dict bytes32 Coin) (c : Coin) :
  In c cs ->
  exists c', In c' cs /\ coin_name c' = coin_name c /\
             dict_get bytes_eq_dec (coin_name c) (coin_dict cs d) = Some c'.
Proof.
  revert d. induction cs as [|c0 cs IH]; intros d Hin; [destruct Hin|].
  change (coin_dict (c0 :: cs) d)
    with (coin_dict cs (dict_set bytes_eq_dec (coin_name c0) c0 d)).
  destruct (coin_dict_get_cases cs
              (dict_set bytes_eq_dec (coin_name c0) c0 d) (coin_name c))
    as [Hsame|(c' & Hin' & Hid & Hg)].
  - destruct Hin as [->|Hin].
    + exists c. rewrite Hsame, dict_get_set.
      destruct (bytes_eq_dec (coin_name c) (coin_name c)); [|congruence].
      split; [left; reflexivity | auto].
    + destruct (IH (dict_set bytes_eq_dec (coin_name c0) c0 d) Hin)
        as (c' & Hin' & Hid & Hg).
      exists c'. split; [right; exact Hin' | auto].
  - exists c'. split; [right; exact Hin' | auto].
Qed.

End RefreshFacts.

(** C8: when the farmer resolves to a registered wallet, [farm_block]
    returns, keeps every actor, and leaves in each known actor's coin set
    exactly the coins of the unspent records that the ledger, queried after
    the block, lists for the actor's puzzle hash: every entry binds the id of
    such a coin to it, and (ids of listed coins not colliding) every such
    coin is bound.  Nothing of the coin set before the block remains. *)
Theorem farm_block_rebuilds_coin_sets `{Chia} `{SpendSim}
    (farmer : option wref) (s : Network) (fw : Wallet.t) :
  dict_get string_dec
    (match farmer with Some f => f | None => nobody s end) (wallets s)
  = Some fw ->
  exists farmed s',
    farm_block farmer s = Return farmed s' /\
    same_actors s s' /\
    forall k w', In (k, w') (wallets s') ->
      let listed :=
        unspent_coins (get_coin_records_by_puzzle_hash (sim s')
                         (Wallet.puzzle_hash w')) in
      (forall id c,
          dict_get bytes_eq_dec id (Wallet.usable_coins w') = Some c ->
          coin_name c = id /\ In c listed) /\
      (forall c,
          In c listed ->
          (forall c', In c' listed -> coin_name c' = coin_name c -> c' = c) ->
          dict_get bytes_eq_dec (coin_name c) (Wallet.usable_coins w') = Some c).
Proof.
  intros Hf.
  destruct (farm_block_run farmer s fw Hf) as (s' & Hrun & Hsim & Ht & Hn & Hw).
  exists (snd (sim_farm_block (sim s) (Wallet.puzzle_hash fw))), s'.
  split; [exact Hrun|]. split.
  - apply (keeps_farm_block farmer s s'). rewrite Hrun. reflexivity.
  - intros k w' Hin. rewrite Hw in Hin. apply in_map_iff in Hin.
    destruct Hin as ([k0 w] & [= <- <-] & _). cbn [fst snd].
    rewrite add_unspent_puzzle_hash, add_unspent_coins.
    cbn [Wallet._clear_coins Wallet.puzzle_hash Wallet.usable_coins].
    set (listed := unspent_coins _). cbv zeta. split.
    + intros id c Hg. apply coin_dict_get_inv in Hg.
      destruct Hg as [[Hin Hid]|Hg]; [tauto | discriminate].
    + intros c Hin Hinj.
      destruct (coin_dict_get_last listed [] c Hin) as (c' & Hin' & Hid & Hg).
      rewrite Hg. f_equal. apply Hinj; assumption.
Qed.


Ltac keeps_steps :=
  repeat (cbv zeta;
          first [ apply keeps_get_wallet | apply keeps_lift
                | apply keeps_push_tx | apply keeps_farm_block
                | apply keeps_assert | apply keeps_ret | apply keeps_raise
                | apply keeps_timeout
                | apply keeps_bind; [|intros ?] ]).

(** ** Combining coins *)

Section CombineFacts.
Context `{Chia} `{SpendSim}.

Lemma nth_error_removelast {A} (l : list A) (i : nat) :
  (i < length l - 1)%nat -> nth_error (removelast l) i = nth_error l i.
Proof.
  intros Hi. destruct l as [|x l]; [simpl in Hi; lia|].
  rewrite (app_removelast_last x (l := x :: l)) at 2 by discriminate.
  rewrite nth_error_app1; [reflexivity|].
  assert (Hl := app_removelast_last x (l := x :: l)).
  apply (f_equal (@length A)) in Hl; [|discriminate].
  rewrite length_app in Hl. simpl in Hl, Hi |- *. lia.
Qed.

Lemma length_removelast {A} (l : list A) :
  l <> [] -> length l = S (length (removelast l)).
Proof.
  intros Hne. destruct l as [|x l]; [congruence|].
  assert (Hl := app_removelast_last x Hne).
  apply (f_equal (@length A)) in Hl.
  rewrite length_app in Hl. simpl in Hl |- *. lia.
Qed.

(** The run of [combine_coins] once the bundle is built. *)
Lemma combine_coins_run (self : wref) (s : Network) (w : Wallet.t)
    (coins : list CoinWrapper.t) (bundle : SpendBundle) :
  dict_get string_dec self (wallets s) = Some w ->
  combine_spend_bundle w coins = inr bundle ->
  combine_coins self coins s =
  (pushed <- push_tx bundle ;;
   combine_checks self (Wallet.balance w) (len (Wallet.usable_coins w))
     coins pushed) s.
Proof.
  intros Hw Hb. unfold combine_coins.
  unfold bind at 1. rewrite (get_wallet_some _ _ _ Hw).
  unfold bind at 1. rewrite Hb. reflexivity.
Qed.

(** A rejected combine: the wallets are as before, and the assertion on
    the number of coins fails unless a single coin was given. *)
Lemma combine_coins_rejected (self : wref) (s : Network) (w : Wallet.t)
    (coins : list CoinWrapper.t) (bundle : SpendBundle)
    (sim1 : Sim) (reason : string) :
  dict_get string_dec self (wallets s) = Some w ->
  combine_spend_bundle w coins = inr bundle ->
  sim_push_tx (sim s) bundle = (sim1, Some reason) ->
  combine_coins self coins s =
  if len coins =? 1
  then Return (SpendResult.init (ErrorDict reason))
              (mkNetwork (time s) sim1 (wallets s) (nobody s))
  else Raise AssertionError (mkNetwork (time s) sim1 (wallets s) (nobody s)).
Proof.
  intros Hw Hb Hp. rewrite (combine_coins_run self s w coins bundle Hw Hb).
  unfold bind at 1. unfold push_tx, bind, get, put. rewrite Hp.
  unfold ret at 1. unfold combine_checks. unfold bind at 1.
  rewrite (get_wallet_some self _ w) by exact Hw.
  unfold bind at 1. rewrite Z.eqb_refl. cbn [assert_]. unfold ret at 1.
  unfold bind at 1.
  destruct (len coins =? 1) eqn:E.
  - apply Z.eqb_eq in E. rewrite E.
    replace (len (Wallet.usable_coins w) - (1 - 1))
      with (len (Wallet.usable_coins w)) by lia.
    rewrite Z.eqb_refl. reflexivity.
  - apply Z.eqb_neq in E.
    destruct (len (Wallet.usable_coins w)
              =? len (Wallet.usable_coins w) - (len coins - 1)) eqn:E';
      [apply Z.eqb_eq in E'; lia | reflexivity].
Qed.

(** What the two assertions of [combine_coins] give once it returns. *)
Lemma combine_coins_returns (self : wref) (coins : list CoinWrapper.t)
    (s s' : Network) (w : Wallet.t) (r : SpendResult.t) :
  dict_get string_dec self (wallets s) = Some w ->
  combine_coins self coins s = Return r s' ->
  exists w',
    dict_get string_dec self (wallets s') = Some w' /\
    Wallet.balance w' = Wallet.balance w /\
    len (Wallet.usable_coins w')
    = len (Wallet.usable_coins w) - (len coins - 1).
Proof.
  intros Hw. unfold combine_coins.
  unfold bind at 1. rewrite (get_wallet_some _ _ _ Hw).
  unfold bind at 1.
  destruct (lift (combine_spend_bundle w coins) s) as [bundle s0|e s0|];
    try discriminate.
  unfold bind at 1.
  destruct (push_tx bundle s0) as [pushed s1|e s1|]; try discriminate.
  unfold combine_checks, bind, get_wallet.
  destruct (dict_get string_dec self (wallets s1)) as [w'|] eqn:Ew;
    try discriminate.
  destruct (Wallet.balance w =? Wallet.balance w') eqn:Eb;
    cbn [assert_]; unfold ret, raise; try discriminate.
  destruct (len (Wallet.usable_coins w')
            =? len (Wallet.usable_coins w) - (len coins - 1)) eqn:Ec;
    try discriminate.
  intros [= <- <-]. exists w'.
  apply Z.eqb_eq in Eb, Ec. auto.
Qed.

(** [farm_block], [push_tx] and [combine_coins] have no loop: they return
    or raise. *)
Lemma farm_block_ends (farmer : option wref) (s : Network) :
  farm_block farmer s <> Timeout.
Proof.
  unfold farm_block, bind, get, get_wallet.
  destruct (dict_get string_dec _ (wallets s)); [|discriminate].
  destruct (sim_farm_block _ _) as [sim1 farmed]. discriminate.
Qed.

Lemma push_tx_ends (bundle : SpendBundle) (s : Network) :
  push_tx bundle s <> Timeout.
Proof.
  unfold push_tx, bind, get, put.
  destruct (sim_push_tx (sim s) bundle) as [sim1 [e|]]; [discriminate|].
  assert (Hf := farm_block_ends None
                  (mkNetwork (time s) sim1 (wallets s) (nobody s))).
  destruct (farm_block None _); [discriminate | discriminate | congruence].
Qed.

Lemma combine_coins_ends (self : wref) (coins : list CoinWrapper.t)
    (s : Network) :
  combine_coins self coins s <> Timeout.
Proof.
  unfold combine_coins. unfold bind at 1, get_wallet.
  destruct (dict_get string_dec self (wallets s)) as [w|]; [|discriminate].
  unfold bind at 1.
  destruct (combine_spend_bundle w coins) as [e|bundle]; [discriminate|].
  cbn [lift]. unfold ret at 1. unfold bind at 1.
  assert (Hp := push_tx_ends bundle s).
  destruct (push_tx bundle s) as [pushed s1|e s1|];
    [|discriminate|congruence].
  unfold combine_checks, bind, get_wallet.
  destruct (dict_get string_dec self (wallets s1)); [|discriminate].
  destruct (_ =? _); cbn [assert_]; unfold ret, raise; [|discriminate].
  destruct (_ =? _); discriminate.
Qed.

Lemma keeps_combine_coins (self : wref) (coins : list CoinWrapper.t) :
  keeps_actors (combine_coins self coins).
Proof.
  unfold combine_coins, combine_checks. keeps_steps.
Qed.

End CombineFacts.

(** C1 as stated fails: the two rewards of a first farmed block, each a
    [uint64], sum to 21000000000000000000, which is none; to combine them
    raises [OverflowError] when the merged coin is made, before any spend
    is built, and there is no bundle. *)
Lemma combine_coins_overflow_no_bundle :
  Toy.reward_pair <> [] /\
  Forall (fun c => uint64_ok (CoinWrapper.amount c) = true) Toy.reward_pair /\
  combine_coins Toy.alice Toy.reward_pair Toy.toy
  = Raise OverflowError Toy.toy /\
  ~ (exists bundle,
        combine_spend_bundle (Toy.wallet_of Toy.alice Toy.toy) Toy.reward_pair
        = inr bundle).
Proof.
  split; [discriminate|]. split; [repeat constructor|].
  split; [vm_compute; reflexivity|].
  intros [bundle Hb]. vm_compute in Hb. discriminate Hb.
Qed.

(** C1, amended: for a non-empty list of coins whose amounts sum to a
    [uint64], [combine_coins] builds one bundle
    with one spend per coin.  The merged coin is made of the id of the last
    coin, the wallet's puzzle hash and the sum of the amounts.  The spend of
    every coin but the last has the single condition
    [ASSERT_COIN_ANNOUNCEMENT] of the hash of the last coin's id followed by
    the merged coin's id; the spend of the last coin has the conditions
    [CREATE_COIN_ANNOUNCEMENT] of the merged coin's id and [CREATE_COIN] of
    the summed amount to the wallet's puzzle hash.  The signatures, one per
    coin, are aggregated into the bundle's signature, and the bundle is
    pushed once.  When the sum is no [uint64] the call raises
    [OverflowError] and nothing is pushed. *)
Theorem combine_coins_bundle `{Chia} `{SpendSim}
    (self : wref) (s : Network) (w : Wallet.t)
    (coins : list CoinWrapper.t) (c0 : CoinWrapper.t) :
  coins <> [] ->
  dict_get string_dec self (wallets s) = Some w ->
  let last_coin := last coins c0 in
  let total := sum (map CoinWrapper.amount coins) in
  (uint64_ok total = false ->
   combine_spend_bundle w coins = inl OverflowError /\
   combine_coins self coins s = Raise OverflowError s) /\
  (uint64_ok total = true ->
  let final_coin :=
    CoinWrapper.mk (CoinWrapper.name last_coin) (Wallet.puzzle_hash w)
                   total (Wallet.puzzle w) in
  let assertion :=
    PList [PList [POp ASSERT_COIN_ANNOUNCEMENT;
                  PBytes (std_hash (CoinWrapper.name last_coin
                                    ++ CoinWrapper.name final_coin))]] in
  let creation :=
    PList [PList [POp CREATE_COIN_ANNOUNCEMENT;
                  PBytes (CoinWrapper.name final_coin)];
           PList [POp CREATE_COIN; PBytes (Wallet.puzzle_hash w); PInt total]] in
  let standard conditions :=
    PList [PList []; PTuple (PInt 1) conditions; PList []] in
  let signature c conditions :=
    snd (CoinWrapper.create_standard_spend c (Wallet.sk_ w) conditions) in
  exists bundle,
    combine_spend_bundle w coins = inr bundle /\
    length (coin_solutions bundle) = length coins /\
    (forall i c,
        (i < length coins - 1)%nat -> nth_error coins i = Some c ->
        nth_error (coin_solutions bundle) i
        = Some (mkCoinSolution (CoinWrapper.as_coin c) (CoinWrapper.puzzle c)
                               (standard assertion))) /\
    nth_error (coin_solutions bundle) (length coins - 1)
    = Some (mkCoinSolution (CoinWrapper.as_coin last_coin)
                           (CoinWrapper.puzzle last_coin) (standard creation)) /\
    aggregated_signature bundle
    = aggregate (map (fun c => signature c assertion) (removelast coins)
                 ++ [signature last_coin creation]) /\
    combine_coins self coins s
    = (pushed <- push_tx bundle ;;
       combine_checks self (Wallet.balance w) (len (Wallet.usable_coins w))
         coins pushed) s).
Proof.
  intros Hne Hw. cbv zeta.
  destruct coins as [|x coins]; [congruence|].
  rewrite (last_default (x :: coins) c0 x) by discriminate.
  split.
  { intros Hover.
    assert (Hb : combine_spend_bundle w (x :: coins) = inl OverflowError).
    { unfold combine_spend_bundle, uint64. rewrite Hover. reflexivity. }
    split; [exact Hb|].
    unfold combine_coins. unfold bind at 1.
    rewrite (get_wallet_some _ _ _ Hw). cbv zeta. unfold bind at 1.
    rewrite Hb. reflexivity. }
  intros Hfits.
  unfold combine_spend_bundle, uint64. rewrite Hfits. cbv zeta.
  eexists. split; [reflexivity|].
  cbn [coin_solutions aggregated_signature].
  assert (Hlen := length_removelast (x :: coins) Hne).
  repeat split.
  - rewrite length_app, !length_map. simpl length in *. lia.
  - intros i c Hi Hc.
    rewrite nth_error_app1 by (rewrite !length_map; lia).
    rewrite !nth_error_map, nth_error_removelast, Hc by exact Hi.
    reflexivity.
  - rewrite nth_error_app2 by (rewrite !length_map; lia).
    rewrite !length_map.
    replace (length (x :: coins) - 1 - length (removelast (x :: coins)))%nat
      with 0%nat by lia.
    reflexivity.
  - rewrite map_map. reflexivity.
  - apply combine_coins_run; [exact Hw|].
    unfold combine_spend_bundle, uint64. rewrite Hfits. reflexivity.
Qed.

(** C3: when [combine_coins] returns, the wallet's balance is what it was
    before the call and its coin set has [len(coins) - 1] coins fewer. *)
Theorem combine_coins_keeps_balance `{Chia} `{SpendSim}
    (self : wref) (coins : list CoinWrapper.t)
    (s s' : Network) (w : Wallet.t) (r : SpendResult.t) :
  dict_get string_dec self (wallets s) = Some w ->
  combine_coins self coins s = Return r s' ->
  exists w',
    dict_get string_dec self (wallets s') = Some w' /\
    Wallet.balance w' = Wallet.balance w /\
    len (Wallet.usable_coins w')
    = len (Wallet.usable_coins w) - (len coins - 1).
Proof. apply combine_coins_returns. Qed.

(** ** Choosing a coin and launching a contract *)

Lemma process_total (s : CoinPairSearch.t) (c : Coin) :
  CoinPairSearch.total s = sum (amounts (CoinPairSearch.max_coins s)) ->
  CoinPairSearch.total (CoinPairSearch.process_coin_for_combine_search s c)
  = sum (amounts (CoinPairSearch.max_coins
                    (CoinPairSearch.process_coin_for_combine_search s c))).
Proof.
  intros Htot.
  unfold CoinPairSearch.process_coin_for_combine_search;
    cbn [CoinPairSearch.max_coins CoinPairSearch.target CoinPairSearch.total].
  destruct (CoinPairSearch.max_coins s) as [|x l] eqn:El.
  - cbn [length Nat.eqb app CoinPairSearch.max_coins CoinPairSearch.total].
    revert Htot; sum_norm; intros Htot. lia.
  - cbn [length Nat.eqb].
    set (s1 := CoinPairSearch.insort _ c 0 _).
    assert (Htot1 : CoinPairSearch.total s1
                    = sum (amounts (CoinPairSearch.max_coins s1))).
    { unfold s1, CoinPairSearch.insort, amounts;
        cbn [CoinPairSearch.total CoinPairSearch.max_coins].
      rewrite (sum_perm _ _ (Permutation_map amount
                               (SelectorFacts.insert_desc_perm (x :: l) c))).
      rewrite Htot. sum_norm. lia. }
    destruct (SelectorFacts.evict_exit
                (length (CoinPairSearch.max_coins s1)) s1 Htot1 (le_n _))
      as (_ & gone & Hd & Htot' & _).
    set (s2 := CoinPairSearch.evict _ s1) in *.
    rewrite Htot', Htot1, Hd. sum_norm. lia.
Qed.

Lemma search_total (amt : Z) (usable_coins : dict bytes32 Coin) :
  CoinPairSearch.total (search_of amt usable_coins)
  = sum (amounts (CoinPairSearch.max_coins (search_of amt usable_coins))).
Proof.
  unfold search_of.
  assert (Hinit : CoinPairSearch.total (CoinPairSearch.init amt)
                  = sum (amounts (CoinPairSearch.max_coins
                                    (CoinPairSearch.init amt))))
    by reflexivity.
  revert Hinit. generalize (CoinPairSearch.init amt).
  induction (dict_values usable_coins) as [|c cs IH]; intros s Hs; simpl.
  - exact Hs.
  - apply IH, process_total, Hs.
Qed.

(** A single selected coin covers the amount. *)
Lemma single_selection_covers (amt : Z) (usable_coins : dict bytes32 Coin)
    (only : Coin) :
  compute_combine_action amt (@nil unit) usable_coins = Some [only] ->
  amt <= amount only.
Proof.
  rewrite compute_combine_action_search.
  assert (Htot := search_total amt usable_coins).
  destruct (CoinPairSearch.total (search_of amt usable_coins) >=? amt) eqn:E;
    [|discriminate].
  intros [= Hsel]. rewrite Hsel in Htot. revert Htot; sum_norm; intros Htot.
  apply Z.geb_le in E. lia.
Qed.

Section ChooseFacts.
Context `{Chia} `{SpendSim}.

Lemma keeps_choose_coin (fuel : nat) (self : wref) (amt : Z) :
  keeps_actors (choose_coin fuel self amt).
Proof.
  induction fuel as [|fuel IH]; [apply keeps_timeout|].
  cbn [choose_coin]. apply keeps_bind; [apply keeps_get_wallet|intros w].
  cbv zeta.
  destruct (compute_combine_action amt [] (Wallet.usable_coins w))
    as [[|x [|y l]]|].
  - apply keeps_bind; [apply keeps_combine_coins|intros _].
    apply keeps_bind; [apply keeps_get_wallet|intros w'].
    apply keeps_bind; [apply keeps_assert|intros _]. exact IH.
  - apply keeps_ret.
  - apply keeps_bind; [apply keeps_combine_coins|intros _].
    apply keeps_bind; [apply keeps_get_wallet|intros w'].
    apply keeps_bind; [apply keeps_assert|intros _]. exact IH.
  - apply keeps_ret.
Qed.

(** The coin that [choose_coin] returns covers the amount. *)
Lemma choose_coin_covers (fuel : nat) (self : wref) (amt : Z)
    (s s' : Network) (c : Coin) :
  choose_coin fuel self amt s = Return (Some c) s' -> amt <= amount c.
Proof.
  revert s; induction fuel as [|fuel IH]; intros s; [discriminate|].
  cbn [choose_coin]. unfold bind at 1.
  destruct (get_wallet self s) as [w s0|e s0|]; try discriminate.
  cbv zeta.
  destruct (compute_combine_action amt [] (Wallet.usable_coins w))
    as [[|x [|y l]]|] eqn:Esel.
  - unfold bind.
    destruct (combine_coins self _ s0) as [r s1|e s1|]; try discriminate.
    destruct (get_wallet self s1) as [w1 s2|e s2|]; try discriminate.
    destruct (assert_ _ s2) as [u s3|e s3|]; try discriminate.
    apply IH.
  - intros [= <- <-]. apply (single_selection_covers _ _ _ Esel).
  - unfold bind.
    destruct (combine_coins self _ s0) as [r s1|e s1|]; try discriminate.
    destruct (get_wallet self s1) as [w1 s2|e s2|]; try discriminate.
    destruct (assert_ _ s2) as [u s3|e s3|]; try discriminate.
    apply IH.
  - discriminate.
Qed.

(** A run of [choose_coin] that does not time out has read the wallet. *)
Lemma choose_coin_registered (fuel : nat) (self : wref) (amt : Z)
    (s s' : Network) (r : option Coin) :
  choose_coin fuel self amt s = Return r s' -> registered self s.
Proof.
  destruct fuel as [|fuel]; [discriminate|].
  cbn [choose_coin]. unfold bind at 1, get_wallet, registered.
  destruct (dict_get string_dec self (wallets s)); [discriminate|].
  discriminate.
Qed.

(** When the selector finds nothing, [choose_coin] returns [None] and
    leaves the network as it is. *)
Lemma choose_coin_none (fuel : nat) (self : wref) (amt : Z)
    (s : Network) (w : Wallet.t) :
  dict_get string_dec self (wallets s) = Some w ->
  compute_combine_action amt (@nil unit) (Wallet.usable_coins w) = None ->
  choose_coin (S fuel) self amt s = Return None s.
Proof.
  intros Hw Hsel. cbn [choose_coin]. unfold bind.
  rewrite (get_wallet_some _ _ _ Hw). cbv zeta. rewrite Hsel. reflexivity.
Qed.

(** [choose_coin] ends when its fuel exceeds the number of coins of the
    wallet: every combine it survives leaves the wallet with fewer coins. *)
Lemma choose_coin_ends (fuel : nat) (self : wref) (amt : Z) :
  forall (s : Network) (w : Wallet.t),
    dict_get string_dec self (wallets s) = Some w ->
    (length (Wallet.usable_coins w) < fuel)%nat ->
    choose_coin fuel self amt s <> Timeout.
Proof.
  induction fuel as [|fuel IH]; intros s w Hw Hlen; [inversion Hlen|].
  cbn [choose_coin]. unfold bind at 1. rewrite (get_wallet_some _ _ _ Hw).
  cbv zeta.
  destruct (compute_combine_action amt [] (Wallet.usable_coins w))
    as [[|x [|y l]]|]; try discriminate.
  - unfold bind at 1, combine_coins. unfold bind at 1.
    rewrite (get_wallet_some _ _ _ Hw). discriminate.
  - unfold bind at 1.
    assert (He := combine_coins_ends self
                    (map (fun x0 =>
                            CoinWrapper.mk (parent_coin_info x0)
                              (puzzle_hash x0) (amount x0) (Wallet.puzzle w))
                         (x :: y :: l)) s).
    destruct (combine_coins self _ s) as [r s1|e s1|] eqn:Ec;
      [|discriminate|congruence].
    destruct (combine_coins_returns _ _ _ _ _ _ Hw Ec)
      as (w1 & Hw1 & _ & Hcount).
    unfold bind at 1. rewrite (get_wallet_some _ _ _ Hw1).
    unfold bind at 1.
    destruct (Wallet.balance w1 =? Wallet.balance w); cbn [assert_];
      unfold ret, raise; [|discriminate].
    apply (IH s1 w1 Hw1).
    unfold len in Hcount. rewrite length_map in Hcount.
    cbn [length] in Hcount. clear - Hcount Hlen. lia.
Qed.

End ChooseFacts.

(** The selector finds nothing when the coins, of non-negative amounts, add
    up to less than a positive target. *)
Lemma selector_infeasible (amt : Z) (usable_coins : dict bytes32 Coin) :
  0 < amt ->
  Forall (fun c => 0 <= amount c) (dict_values usable_coins) ->
  sum (amounts (dict_values usable_coins)) < amt ->
  compute_combine_action amt (@nil unit) usable_coins = None.
Proof.
  intros Hpos Hnn Hsum.
  destruct (search_of_inv amt usable_coins Hpos Hnn) as [Hinv Ht].
  destruct Hinv as [Htot _ [dropped Hsub] _ _ _].
  rewrite compute_combine_action_search.
  destruct (CoinPairSearch.total (search_of amt usable_coins) >=? amt) eqn:E;
    [|reflexivity].
  apply Z.geb_le in E. exfalso.
  assert (Hle : 0 <= sum (amounts dropped)).
  { apply sum_nonneg, amounts_nonneg.
    eapply Forall_app. eapply Permutation_Forall; [symmetry; exact Hsub | exact Hnn]. }
  unfold amounts in *.
  rewrite <- (sum_perm _ _ (Permutation_map amount Hsub)) in Hsum.
  rewrite map_app, sum_app in Hsum. lia.
Qed.

(** C5 as stated fails: for a wallet holding three coins of 10 and a
    request of 31 the selector reports infeasibility, and [choose_coin]
    does not raise: it returns [None], the network unchanged. *)
Lemma choose_coin_infeasible_no_raise :
  let s := Toy.toy in
  (exists w,
      dict_get string_dec Toy.alice (wallets s) = Some w /\
      compute_combine_action 31 (@nil unit) (Wallet.usable_coins w) = None) /\
  choose_coin 5 Toy.alice 31 s = Return None s /\
  ~ (exists e s', choose_coin 5 Toy.alice 31 s = Raise e s').
Proof.
  cbv zeta.
  assert (Hn : choose_coin 5 Toy.alice 31 Toy.toy = Return None Toy.toy)
    by (vm_compute; reflexivity).
  split; [|split].
  - eexists. split; vm_compute; reflexivity.
  - exact Hn.
  - intros (e & s' & Hr). rewrite Hn in Hr. discriminate.
Qed.

(** C5, amended: when the selector reports infeasibility, [choose_coin]
    returns [None] to its caller without raising and without changing the
    network; the insufficient-funds error is the [ValueError] that
    [launch_contract] raises on that [None]. *)
Theorem choose_coin_infeasible_returns_none `{Chia} `{SpendSim}
    (fuel : nat) (self : wref) (amt : Z) (source : Program)
    (s : Network) (w : Wallet.t) :
  dict_get string_dec self (wallets s) = Some w ->
  compute_combine_action amt (@nil unit) (Wallet.usable_coins w) = None ->
  choose_coin (S fuel) self amt s = Return None s /\
  launch_contract (S fuel) self source (Some amt) s
  = Raise (ValueError ("could not find available coin containing "
                         ++ str_int amt ++ " mojo")) s.
Proof.
  intros Hw Hsel.
  assert (Hc := choose_coin_none fuel self amt s w Hw Hsel).
  split; [exact Hc|].
  unfold launch_contract, bind. rewrite Hc. reflexivity.
Qed.


(** ** Spending a coin *)

(** C10: [spend_coin] compares nothing with the coin's amount.  Without
    [args=] and with a remainder recipient that is a contract or a wallet,
    the solution holds a [CREATE_COIN] of [amt] followed by a [CREATE_COIN]
    of [coin.amount - amt] for the recipient, which is negative as soon as
    [amt] exceeds the coin's amount, and once signed this spend is what
    [push_tx] receives. *)
Theorem spend_coin_remainder_unchecked `{Chia} `{SpendSim}
    (self : wref) (coin : CoinWrapper.t) (kwargs : SpendKwargs)
    (remainer : Remainer) (s : Network) (w : Wallet.t)
    (target_ph remain_ph : bytes32) :
  dict_get string_dec self (wallets s) = Some w ->
  kw_args kwargs = None ->
  kw_remain kwargs = Some remainer ->
  recipient_hash s w (kw_to kwargs) = Some target_ph ->
  remainer_hash s remainer = Some remain_ph ->
  let amt := match kw_amt kwargs with Some a => a | None => 1 end in
  let solution :=
    PList [PList [];
           PTuple (PInt 1)
             (PList [PList [POp CREATE_COIN; PBytes target_ph; PInt amt];
                     PList [POp CREATE_COIN; PBytes remain_ph;
                            PInt (CoinWrapper.amount coin - amt)]]);
           PList []] in
  let solution_for_coin :=
    mkCoinSolution (CoinWrapper.as_coin coin) (CoinWrapper.puzzle coin)
                   solution in
  spend_solution self coin kwargs s = Return solution s /\
  (CoinWrapper.amount coin < amt -> CoinWrapper.amount coin - amt < 0) /\
  forall signature,
    sign_coin_solutions [solution_for_coin] (pk_to_sk w)
      AGG_SIG_ME_ADDITIONAL_DATA MAX_BLOCK_COST_CLVM = inr signature ->
    spend_coin self coin kwargs s
    = (pushed <- push_tx (mkSpendBundle [solution_for_coin] signature) ;;
       ret (SpendResult.init pushed)) s.
Proof.
  intros Hw Hargs Hremain Hto Hrem. cbv zeta.
  assert (Hsol : spend_solution self coin kwargs s
                 = Return
                     (PList [PList [];
                             PTuple (PInt 1)
                               (PList [PList [POp CREATE_COIN; PBytes target_ph;
                                              PInt match kw_amt kwargs with
                                                   | Some a => a
                                                   | None => 1
                                                   end];
                                       PList [POp CREATE_COIN; PBytes remain_ph;
                                              PInt (CoinWrapper.amount coin
                                                    - match kw_amt kwargs with
                                                      | Some a => a
                                                      | None => 1
                                                      end)]]);
                             PList []]) s).
  { unfold spend_solution. cbv zeta. unfold bind at 1.
    rewrite (get_wallet_some _ _ _ Hw), Hargs, Hremain.
    unfold recipient_hash in Hto. unfold remainer_hash in Hrem.
    unfold bind at 1.
    assert (Ht : (match kw_to kwargs with
                  | Some to => t <- get_wallet to ;; ret (Wallet.puzzle_hash t)
                  | None => ret (Wallet.puzzle_hash w)
                  end) s = Return target_ph s).
    { destruct (kw_to kwargs) as [to|].
      - unfold bind, get_wallet.
        destruct (dict_get string_dec to (wallets s)); [|discriminate].
        simpl in Hto. injection Hto as <-. reflexivity.
      - injection Hto as <-. reflexivity. }
    rewrite Ht. unfold bind at 1.
    destruct remainer as [c|r|]; [| |discriminate].
    - injection Hrem as <-. reflexivity.
    - unfold bind at 1, get_wallet.
      destruct (dict_get string_dec r (wallets s)); [|discriminate].
      simpl in Hrem. injection Hrem as <-. reflexivity. }
  split; [exact Hsol|]. split; [intros; lia|].
  intros signature Hsig. unfold spend_coin. unfold bind at 1.
  rewrite (get_wallet_some _ _ _ Hw). unfold bind at 1. rewrite Hsol.
  cbv zeta. unfold bind at 1. rewrite Hsig. reflexivity.
Qed.

(** ** Skipping time *)

Section SkipFacts.
Context `{Chia} `{SpendSim}.
Hypothesis farm_keeps_clock :
  forall l ph, timestamp (fst (sim_farm_block l ph)) = timestamp l.
Hypothesis pass_time_adds :
  forall l t, timestamp (pass_time l t) = timestamp l + t.

Lemma skip_time_loop_done (fuel : nat) (target_time : Z)
    (farmer : option wref) (s : Network) :
  target_time <= get_timestamp s ->
  skip_time_loop fuel target_time farmer s = Return tt s.
Proof.
  intros Hle.
  assert (Hc : (target_time >? get_timestamp s) = false)
    by (rewrite Z.gtb_ltb; apply Z.ltb_ge; exact Hle).
  destruct fuel; cbn [skip_time_loop]; unfold bind, get; rewrite Hc;
    reflexivity.
Qed.

(** One round of the loop: a block is farmed and 20 seconds pass. *)
Lemma skip_time_loop_round (target_time : Z)
    (farmer : option wref) (s : Network) (fw : Wallet.t) :
  get_timestamp s < target_time ->
  dict_get string_dec
    (match farmer with Some f => f | None => nobody s end) (wallets s)
  = Some fw ->
  exists s1,
    (forall fuel,
        skip_time_loop (S fuel) target_time farmer s
        = skip_time_loop fuel target_time farmer s1) /\
    time s1 = time s + farm_duration /\
    timestamp (sim s1) = timestamp (sim s) + 20 /\
    same_actors s s1 /\
    sim s1 = pass_time (fst (sim_farm_block (sim s) (Wallet.puzzle_hash fw))) 20.
Proof.
  intros Hlt Hf.
  assert (Hc : (target_time >? get_timestamp s) = true)
    by (rewrite Z.gtb_ltb; apply Z.ltb_lt; exact Hlt).
  destruct (farm_block_run farmer s fw Hf) as (s0 & Hrun & Hsim & Ht & Hn & Hw).
  assert (Hk : same_actors s s0).
  { apply (keeps_farm_block farmer s s0). rewrite Hrun. reflexivity. }
  exists (mkNetwork (time s0) (pass_time (sim s0) 20) (wallets s0) (nobody s0)).
  split; [|split; [|split; [|split]]].
  - intros fuel. cbn [skip_time_loop]. unfold bind at 1, get at 1.
    rewrite Hc. unfold bind at 1. rewrite Hrun. reflexivity.
  - exact Ht.
  - cbn [sim]. rewrite pass_time_adds, Hsim, farm_keeps_clock. reflexivity.
  - destruct Hk as [Hk1 Hk2]. split; [exact Hk1 | exact Hk2].
  - cbn [sim]. rewrite Hsim. reflexivity.
Qed.

Lemma skip_time_loop_run (target_time : Z) (farmer : option wref)
    (bound : nat) :
  forall (s : Network) (fw : Wallet.t),
    dict_get string_dec
      (match farmer with Some f => f | None => nobody s end) (wallets s)
    = Some fw ->
    target_time - get_timestamp s <= 20000000 * Z.of_nat bound ->
    exists (n : nat) (s' : Network),
      (forall fuel, (n <= fuel)%nat ->
                    skip_time_loop fuel target_time farmer s = Return tt s') /\
      time s' = time s + Z.of_nat n * farm_duration /\
      timestamp (sim s') = timestamp (sim s) + 20 * Z.of_nat n /\
      target_time <= get_timestamp s' /\
      (forall k, (k < n)%nat ->
                 timedelta_seconds (timestamp (sim s) + 20 * Z.of_nat k)
                 < target_time) /\
      sim s'
      = Nat.iter n
          (fun l =>
             pass_time (fst (sim_farm_block l (Wallet.puzzle_hash fw))) 20)
          (sim s).
Proof.
  assert (Hstop : forall s (fw : Wallet.t), target_time <= get_timestamp s ->
            exists (n : nat) (s' : Network),
              (forall fuel, (n <= fuel)%nat ->
                 skip_time_loop fuel target_time farmer s = Return tt s') /\
              time s' = time s + Z.of_nat n * farm_duration /\
              timestamp (sim s') = timestamp (sim s) + 20 * Z.of_nat n /\
              target_time <= get_timestamp s' /\
              (forall k, (k < n)%nat ->
                 timedelta_seconds (timestamp (sim s) + 20 * Z.of_nat k)
                 < target_time) /\
              sim s'
              = Nat.iter n
                  (fun l =>
                     pass_time
                       (fst (sim_farm_block l (Wallet.puzzle_hash fw))) 20)
                  (sim s)).
  { intros s fw Hle. exists 0%nat, s.
    split; [|split; [|split; [|split; [|split]]]].
    - intros fuel _. apply skip_time_loop_done. exact Hle.
    - simpl. lia.
    - simpl. lia.
    - exact Hle.
    - intros k Hk. inversion Hk.
    - reflexivity. }
  induction bound as [|bound IH]; intros s fw Hf Hb.
  - apply Hstop. simpl in Hb. lia.
  - destruct (Z_le_gt_dec target_time (get_timestamp s)) as [Hle|Hgt];
      [apply Hstop; exact Hle|].
    assert (Hlt : get_timestamp s < target_time) by lia.
    destruct (skip_time_loop_round target_time farmer s fw Hlt Hf)
      as (s1 & Hstep & Ht1 & Hts1 & Hs1 & Hsim1).
    destruct (same_actors_get _ s s1 fw Hs1 Hf) as (fw1 & Hf1 & Hsame).
    assert (Hph : Wallet.puzzle_hash fw1 = Wallet.puzzle_hash fw).
    { change (Wallet.puzzle_hash (Wallet._clear_coins fw1)
              = Wallet.puzzle_hash (Wallet._clear_coins fw)).
      rewrite Hsame. reflexivity. }
    assert (Hn1 : nobody s1 = nobody s) by (destruct Hs1; assumption).
    rewrite <- Hn1 in Hf1.
    destruct (IH s1 fw1)
      as (n & s' & Hrun & Ht & Hts & Hreach & Hbefore & Hledger).
    { exact Hf1. }
    { unfold get_timestamp, timedelta_seconds in *. rewrite Hts1. lia. }
    exists (S n), s'. split; [|split; [|split; [|split; [|split]]]].
    + intros [|fuel] Hfuel; [inversion Hfuel|].
      rewrite Hstep. apply Hrun. lia.
    + rewrite Ht, Ht1. lia.
    + rewrite Hts, Hts1. lia.
    + exact Hreach.
    + intros [|k] Hk.
      * unfold get_timestamp in Hlt. rewrite Z.mul_0_r, Z.add_0_r. exact Hlt.
      * assert (Hk' : (k < n)%nat) by lia.
        specialize (Hbefore k Hk'). rewrite Hts1 in Hbefore.
        replace (timestamp (sim s) + 20 * Z.of_nat (S k))
          with (timestamp (sim s) + 20 + 20 * Z.of_nat k) by lia.
        exact Hbefore.
    + rewrite Hledger, Hph, Hsim1. symmetry. apply Nat.iter_succ_r.
Qed.

End SkipFacts.



(** ** The statements on the small ledger *)

(** Scenario A: the coins 10, 10, 10 and the target 25 select all three. *)
Example scenario_a :
  option_map amounts
    (compute_combine_action 25 (@nil unit)
       (Wallet.usable_coins (Toy.wallet_of Toy.alice Toy.toy)))
  = Some [10; 10; 10].
Proof. vm_compute. reflexivity. Qed.

(** Scenario B: the coins 5, 40 and the target 10 select the coin of 40. *)
Example scenario_b :
  option_map amounts
    (compute_combine_action 10 (@nil unit)
       [([x01], mkCoin [x01] [] 5); ([x02], mkCoin [x02] [] 40)])
  = Some [40].
Proof. vm_compute. reflexivity. Qed.

(** Scenario C: [choose_coin(25)] combines the three coins into one of 30
    and returns it. *)
Example scenario_c :
  exists c s',
    choose_coin 2 Toy.alice 25 Toy.toy = Return (Some c) s' /\
    amount c = 30 /\ Toy.coins_of Toy.alice s' = [30].
Proof. do 2 eexists. vm_compute. repeat split. Qed.

Lemma Some_inj {A : Type} (x y : A) : Some x = Some y -> x = y.
Proof. intros [= Heq]. exact Heq. Qed.

Section ToyFacts.
Lemma toy_alice :
  dict_get string_dec Toy.alice (wallets Toy.toy)
  = Some (Toy.wallet_of Toy.alice Toy.toy).
Proof. vm_compute. reflexivity. Qed.

Lemma toy_nobody :
  dict_get string_dec (nobody Toy.toy) (wallets Toy.toy)
  = Some (Toy.wallet_of (nobody Toy.toy) Toy.toy).
Proof. vm_compute. reflexivity. Qed.

Lemma toy_after_nobody :
  dict_get string_dec (nobody Toy.after_combine) (wallets Toy.after_combine)
  = Some (Toy.wallet_of (nobody Toy.after_combine) Toy.after_combine).
Proof. vm_compute. reflexivity. Qed.

Lemma toy_early_nobody :
  dict_get string_dec (nobody Toy.early) (wallets Toy.early)
  = Some (Toy.wallet_of (nobody Toy.toy) Toy.toy).
Proof. vm_compute. reflexivity. Qed.

Lemma toy_alice_coins : Toy.alice_coins <> [].
Proof. vm_compute. discriminate. Qed.

Lemma toy_combine_returns :
  exists r,
    combine_coins Toy.alice Toy.first_two Toy.toy
    = Return r Toy.after_combine.
Proof. eexists. vm_compute. reflexivity. Qed.

Lemma toy_infeasible :
  compute_combine_action 31 (@nil unit)
    (Wallet.usable_coins (Toy.wallet_of Toy.alice Toy.toy)) = None.
Proof. vm_compute. reflexivity. Qed.

Lemma toy_choose_4 :
  choose_coin 3 Toy.alice 4 Toy.toy = Return (Some Toy.c0) Toy.toy.
Proof. vm_compute. reflexivity. Qed.

Lemma toy_launch_accepted :
  sim_push_tx (sim Toy.toy)
    (launch_spend_bundle (Toy.wallet_of Toy.alice Toy.toy) Toy.cw Toy.c0 4)
  = (fst (sim_push_tx (sim Toy.toy)
            (launch_spend_bundle (Toy.wallet_of Toy.alice Toy.toy) Toy.cw Toy.c0 4)),
     None).
Proof. vm_compute. reflexivity. Qed.

Lemma toy_empty_accepted :
  sim_push_tx (sim Toy.toy) (mkSpendBundle [] [])
  = (fst (sim_push_tx (sim Toy.toy) (mkSpendBundle [] [])), None).
Proof. vm_compute. reflexivity. Qed.

Lemma toy_empty_farmed :
  sim_farm_block (fst (sim_push_tx (sim Toy.toy) (mkSpendBundle [] [])))
    (Wallet.puzzle_hash (Toy.wallet_of (nobody Toy.toy) Toy.toy))
  = (fst (sim_farm_block
            (fst (sim_push_tx (sim Toy.toy) (mkSpendBundle [] [])))
            (Wallet.puzzle_hash (Toy.wallet_of (nobody Toy.toy) Toy.toy))),
     ([], [])).
Proof. vm_compute. reflexivity. Qed.

Lemma toy_stale_rejected :
  sim_push_tx (sim Toy.after_combine)
    (mkSpendBundle
       (map (fun c => mkCoinSolution (CoinWrapper.as_coin c)
                        (CoinWrapper.puzzle c) (PList []))
            Toy.stale_pair) [])
  = (sim Toy.after_combine, Some "UNKNOWN_UNSPENT"%string).
Proof. vm_compute. reflexivity. Qed.

Lemma toy_parse : parse_timedelta "40s" = Some 40000000.
Proof. vm_compute. reflexivity. Qed.

Lemma toy_first_coin :
  exists coin,
    nth_error Toy.alice_coins 0 = Some coin /\
    CoinWrapper.amount coin = 10 /\
    sim_push_tx (sim Toy.toy)
      (mkSpendBundle
         [mkCoinSolution (CoinWrapper.as_coin coin) (CoinWrapper.puzzle coin)
            (PList [PList [];
                    PTuple (PInt 1)
                      (PList [PList [POp CREATE_COIN;
                                     PBytes (Toy.b "#p2 pk1"); PInt 11];
                              PList [POp CREATE_COIN;
                                     PBytes (Toy.b "#p2 pk1");
                                     PInt (CoinWrapper.amount coin - 11)]]);
                    PList []])]
         (Toy.b "sig"))
    = (sim Toy.toy, Some "COIN_AMOUNT_NEGATIVE"%string).
Proof. eexists. vm_compute. repeat split. Qed.

Lemma toy_recipient :
  recipient_hash Toy.toy (Toy.wallet_of Toy.alice Toy.toy)
    (kw_to Toy.overspend) = Some (Toy.b "#p2 pk1").
Proof. vm_compute. reflexivity. Qed.

Lemma toy_remainer :
  remainer_hash Toy.toy (RemainWallet Toy.alice) = Some (Toy.b "#p2 pk1").
Proof. vm_compute. reflexivity. Qed.
End ToyFacts.

(** [combine_coins_bundle] at the three coins of [alice]. *)
Lemma combine_coins_bundle_witness :
  Toy.alice_coins <> [] /\
  dict_get string_dec Toy.alice (wallets Toy.toy)
  = Some (Toy.wallet_of Toy.alice Toy.toy) /\
  uint64_ok (sum (map CoinWrapper.amount Toy.alice_coins)) = true /\
  exists bundle,
    combine_spend_bundle (Toy.wallet_of Toy.alice Toy.toy) Toy.alice_coins
    = inr bundle /\
    length (coin_solutions bundle) = length Toy.alice_coins.
Proof.
  assert (Hfits : uint64_ok (sum (map CoinWrapper.amount Toy.alice_coins))
                  = true) by (vm_compute; reflexivity).
  split; [exact toy_alice_coins|]. split; [exact toy_alice|].
  split; [exact Hfits|].
  destruct (proj2 (combine_coins_bundle Toy.alice Toy.toy
                     (Toy.wallet_of Toy.alice Toy.toy) Toy.alice_coins
                     (CoinWrapper.mk [] [] 0 (PInt 0))
                     toy_alice_coins toy_alice) Hfits)
    as (bundle & Hb & Hlen & _).
  exists bundle. split; [exact Hb | exact Hlen].
Defined.

(** [combine_coins_keeps_balance] at a combine of two coins of 10 that the
    ledger accepts: the balance stays 30 and one coin fewer is left. *)
Lemma combine_coins_keeps_balance_witness :
  exists r w',
    combine_coins Toy.alice Toy.first_two Toy.toy = Return r Toy.after_combine /\
    dict_get string_dec Toy.alice (wallets Toy.after_combine) = Some w' /\
    Wallet.balance w' = Wallet.balance (Toy.wallet_of Toy.alice Toy.toy) /\
    len (Wallet.usable_coins w')
    = len (Wallet.usable_coins (Toy.wallet_of Toy.alice Toy.toy))
      - (len Toy.first_two - 1).
Proof.
  destruct toy_combine_returns as (r & Hr). exists r.
  destruct (combine_coins_keeps_balance Toy.alice Toy.first_two Toy.toy
              Toy.after_combine (Toy.wallet_of Toy.alice Toy.toy) r
              toy_alice Hr)
    as (w' & Hg & Hb & Hl).
  exists w'. split; [exact Hr|]. split; [exact Hg|].
  split; [exact Hb | exact Hl].
Defined.

(** C4: the push of a combine of two coins is rejected (the first coin was
    already spent); [combine_coins] leaves the wallets and the time as they
    were, and raises [AssertionError] instead of returning the rejection. *)
Theorem combine_coins_rejected_raises :
  Toy.coins_of Toy.alice Toy.after_combine = [10; 20] /\
  map CoinWrapper.amount Toy.stale_pair = [10; 10] /\
  exists s',
    combine_coins Toy.alice Toy.stale_pair Toy.after_combine
    = Raise AssertionError s' /\
    wallets s' = wallets Toy.after_combine /\
    time s' = time Toy.after_combine.
Proof.
  split; [vm_compute; reflexivity|]. split; [vm_compute; reflexivity|].
  exists (Toy.the_state
            (combine_coins Toy.alice Toy.stale_pair Toy.after_combine)).
  split; [|split]; vm_compute; reflexivity.
Qed.

(** [choose_coin_infeasible_returns_none] at a request of 31 from a wallet
    holding 30. *)
Lemma choose_coin_infeasible_returns_none_witness :
  compute_combine_action 31 (@nil unit)
    (Wallet.usable_coins (Toy.wallet_of Toy.alice Toy.toy)) = None /\
  choose_coin 1 Toy.alice 31 Toy.toy = Return None Toy.toy /\
  launch_contract 1 Toy.alice (PCode (Toy.b "contract")) (Some 31) Toy.toy
  = Raise (ValueError ("could not find available coin containing "
                         ++ str_int 31 ++ " mojo"))
          Toy.toy.
Proof.
  split; [exact toy_infeasible|].
  exact (choose_coin_infeasible_returns_none 0 Toy.alice 31
           (PCode (Toy.b "contract")) Toy.toy
           (Toy.wallet_of Toy.alice Toy.toy) toy_alice toy_infeasible).
Defined.



(** [farm_block_rebuilds_coin_sets] at a block farmed for [nobody]. *)
Lemma farm_block_rebuilds_coin_sets_witness :
  dict_get string_dec (nobody Toy.toy) (wallets Toy.toy)
  = Some (Toy.wallet_of (nobody Toy.toy) Toy.toy) /\
  exists farmed s',
    farm_block None Toy.toy = Return farmed s' /\
    same_actors Toy.toy s' /\
    forall k w' id c,
      In (k, w') (wallets s') ->
      dict_get bytes_eq_dec id (Wallet.usable_coins w') = Some c ->
      coin_name c = id /\
      In c (unspent_coins (get_coin_records_by_puzzle_hash (sim s')
                             (Wallet.puzzle_hash w'))).
Proof.
  split; [exact toy_nobody|].
  destruct (farm_block_rebuilds_coin_sets None Toy.toy _ toy_nobody)
    as (farmed & s' & Hrun & Hsame & Hsets).
  exists farmed, s'. split; [exact Hrun|]. split; [exact Hsame|].
  intros k w' id c Hin Hg. destruct (Hsets k w' Hin) as [Hfrom _].
  exact (Hfrom id c Hg).
Defined.


(** [spend_coin_remainder_unchecked] at a spend of 11 from a coin of 10: the
    remainder of -1 reaches the ledger, which rejects it. *)
Lemma spend_coin_remainder_unchecked_witness :
  exists coin r s',
    nth_error Toy.alice_coins 0 = Some coin /\
    CoinWrapper.amount coin - 11 < 0 /\
    spend_coin Toy.alice coin Toy.overspend Toy.toy = Return r s' /\
    SpendResult.error r = Some "COIN_AMOUNT_NEGATIVE"%string.
Proof.
  destruct toy_first_coin as (coin & Hc & Hamt & Hreject).
  destruct (spend_coin_remainder_unchecked Toy.alice coin Toy.overspend
              (RemainWallet Toy.alice) Toy.toy
              (Toy.wallet_of Toy.alice Toy.toy)
              (Toy.b "#p2 pk1") (Toy.b "#p2 pk1")
              toy_alice eq_refl eq_refl toy_recipient toy_remainer)
    as (_ & Hneg & Hpush).
  cbn [kw_amt Toy.overspend] in Hneg, Hpush.
  specialize (Hpush (Toy.b "sig") eq_refl).
  exists coin.
  exists (SpendResult.init (ErrorDict "COIN_AMOUNT_NEGATIVE")).
  exists (mkNetwork (time Toy.toy) (sim Toy.toy) (wallets Toy.toy)
                    (nobody Toy.toy)).
  split; [exact Hc|]. split; [apply Hneg; rewrite Hamt; reflexivity|].
  split; [|reflexivity].
  rewrite Hpush. unfold bind at 1, push_tx, bind, get, put.
  rewrite Hreject. reflexivity.
Defined.

(** * Further properties *)

(** ** The selector, for every target *)

Lemma init_basic (amt : Z) : search_basic [] (CoinPairSearch.init amt).
Proof.
  split; simpl.
  - reflexivity.
  - constructor.
  - exists []. reflexivity.
Qed.

Lemma process_basic (seen : list Coin) (s : CoinPairSearch.t) (c : Coin) :
  search_basic seen s ->
  search_basic (seen ++ [c]) (CoinPairSearch.process_coin_for_combine_search s c).
Proof.
  intros [Htot Hdesc [dropped Hsub]].
  assert (Htot' := process_total s c Htot).
  split; [exact Htot'| |].
  - unfold CoinPairSearch.process_coin_for_combine_search;
      cbn [CoinPairSearch.max_coins CoinPairSearch.target CoinPairSearch.total].
    destruct (CoinPairSearch.max_coins s) as [|x l] eqn:El.
    + cbn [length Nat.eqb app CoinPairSearch.max_coins]. repeat constructor.
    + cbn [length Nat.eqb].
      set (s1 := CoinPairSearch.insort _ c 0 _).
      assert (Htot1 : CoinPairSearch.total s1
                      = sum (amounts (CoinPairSearch.max_coins s1))).
      { unfold s1, CoinPairSearch.insort, amounts;
          cbn [CoinPairSearch.total CoinPairSearch.max_coins].
        rewrite (sum_perm _ _ (Permutation_map amount
                                 (SelectorFacts.insert_desc_perm (x :: l) c))).
        rewrite Htot. sum_norm. lia. }
      destruct (SelectorFacts.evict_exit
                  (length (CoinPairSearch.max_coins s1)) s1 Htot1 (le_n _))
        as (_ & gone & Hd & _).
      apply (SelectorFacts.desc_prefix _ gone). rewrite <- Hd.
      apply SelectorFacts.insert_desc_sorted. exact Hdesc.
  - unfold CoinPairSearch.process_coin_for_combine_search;
      cbn [CoinPairSearch.max_coins CoinPairSearch.target CoinPairSearch.total].
    destruct (CoinPairSearch.max_coins s) as [|x l] eqn:El.
    + cbn [length Nat.eqb app CoinPairSearch.max_coins].
      exists dropped. rewrite <- Hsub. simpl.
      apply Permutation_cons_append.
    + cbn [length Nat.eqb].
      set (s1 := CoinPairSearch.insort _ c 0 _).
      assert (Htot1 : CoinPairSearch.total s1
                      = sum (amounts (CoinPairSearch.max_coins s1))).
      { unfold s1, CoinPairSearch.insort, amounts;
          cbn [CoinPairSearch.total CoinPairSearch.max_coins].
        rewrite (sum_perm _ _ (Permutation_map amount
                                 (SelectorFacts.insert_desc_perm (x :: l) c))).
        rewrite Htot. sum_norm. lia. }
      destruct (SelectorFacts.evict_exit
                  (length (CoinPairSearch.max_coins s1)) s1 Htot1 (le_n _))
        as (_ & gone & Hd & _).
      set (s2 := CoinPairSearch.evict _ s1) in *.
      exists (gone ++ dropped).
      rewrite app_assoc, <- Hd.
      assert (Hperm : Permutation (CoinPairSearch.max_coins s1) (c :: x :: l))
        by apply SelectorFacts.insert_desc_perm.
      rewrite Hperm, <- Hsub.
      apply (Permutation_cons_append ((x :: l) ++ dropped) c).
Qed.

Lemma search_of_basic (amt : Z) (usable_coins : dict bytes32 Coin) :
  search_basic (dict_values usable_coins) (search_of amt usable_coins).
Proof.
  unfold search_of.
  assert (Hgen : forall cs seen s,
             search_basic seen s ->
             search_basic (seen ++ cs)
               (fold_left CoinPairSearch.process_coin_for_combine_search cs s)).
  { induction cs as [|c cs IH]; intros seen s Hs; simpl.
    - rewrite app_nil_r. exact Hs.
    - replace (seen ++ c :: cs) with ((seen ++ [c]) ++ cs)
        by (rewrite <- app_assoc; reflexivity).
      apply IH, process_basic, Hs. }
  apply (Hgen (dict_values usable_coins) [] _ (init_basic amt)).
Qed.

(** X1: whatever [compute_combine_action] returns is in descending order of
    amount, so that its last coin, the one whose spend creates the merged
    coin, is a smallest one. *)
Theorem selection_descending (amt : Z) (usable_coins : dict bytes32 Coin)
    (sel : list Coin) :
  compute_combine_action amt (@nil unit) usable_coins = Some sel ->
  StronglySorted (fun a b => amount b <= amount a) sel /\
  forall d x, In x sel -> amount (last sel d) <= amount x.
Proof.
  rewrite compute_combine_action_search.
  destruct (_ >=? amt); [|discriminate]. intros [= <-].
  destruct (search_of_basic amt usable_coins) as [_ Hdesc _].
  split; [exact Hdesc|].
  intros d x Hin. apply SelectorFacts.desc_last_min; assumption.
Qed.

(** [selection_descending] at the coins 5, 3, 1, 2, 9, 4 and the target 12,
    where 9 and 5 are selected. *)
Lemma selection_descending_witness :
  let usable := map (fun n => ([], mkCoin [] [] n)) [5; 3; 1; 2; 9; 4] in
  let sel := [mkCoin [] [] 9; mkCoin [] [] 5] in
  compute_combine_action 12 (@nil unit) usable = Some sel /\
  StronglySorted (fun a b => amount b <= amount a) sel /\
  forall d x, In x sel -> amount (last sel d) <= amount x.
Proof.
  cbv zeta.
  assert (Hsel : compute_combine_action 12 (@nil unit)
                   (map (fun n => ([], mkCoin [] [] n)) [5; 3; 1; 2; 9; 4])
                 = Some [mkCoin [] [] 9; mkCoin [] [] 5])
    by (vm_compute; reflexivity).
  split; [exact Hsel|]. exact (selection_descending _ _ _ Hsel).
Defined.

(** X2: for every target and every amounts, a selection that
    [compute_combine_action] returns is made of candidates, each taken at
    most as often as it occurs, and its amounts add up to the target or
    more. *)
Theorem selection_covers_target (amt : Z) (usable_coins : dict bytes32 Coin)
    (sel : list Coin) :
  compute_combine_action amt (@nil unit) usable_coins = Some sel ->
  (exists rest, Permutation (sel ++ rest) (dict_values usable_coins)) /\
  amt <= sum (amounts sel).
Proof.
  rewrite compute_combine_action_search.
  destruct (search_of_basic amt usable_coins) as [Htot _ Hsub].
  destruct (_ >=? amt) eqn:E; [|discriminate]. intros [= <-].
  split; [exact Hsub|]. rewrite <- Htot. apply Z.geb_le. exact E.
Qed.

(** [selection_covers_target] at the negative target -3: the coins 5, 3
    give the empty selection. *)
Lemma selection_covers_target_witness :
  let usable := map (fun n => ([], mkCoin [] [] n)) [5; 3] in
  compute_combine_action (-3) (@nil unit) usable = Some [] /\
  (exists rest, Permutation ([] ++ rest) (dict_values usable)) /\
  -3 <= sum (amounts []).
Proof.
  cbv zeta.
  assert (Hsel : compute_combine_action (-3) (@nil unit)
                   (map (fun n => ([], mkCoin [] [] n)) [5; 3]) = Some [])
    by (vm_compute; reflexivity).
  split; [exact Hsel|]. exact (selection_covers_target _ _ _ Hsel).
Defined.

Lemma member_le_sum (l : list Coin) (x : Coin) :
  Forall (fun c => 0 <= amount c) l -> In x l -> amount x <= sum (amounts l).
Proof.
  induction 1 as [|y l Hy Hl IH]; intros Hin; [destruct Hin|].
  assert (0 <= sum (amounts l)) by (apply sum_nonneg, amounts_nonneg, Hl).
  unfold amounts in *. cbn [map]. rewrite sum_cons.
  destruct Hin as [->|Hin]; [lia|]. specialize (IH Hin). lia.
Qed.

Lemma process_head_max (seen : list Coin) (s : CoinPairSearch.t) (c : Coin) :
  0 < CoinPairSearch.target s -> 0 <= amount c ->
  search_inv seen s -> head_max seen s ->
  head_max (seen ++ [c]) (CoinPairSearch.process_coin_for_combine_search s c).
Proof.
  intros Hpos Hc Hinv Hmax.
  assert (Hinv' := SelectorFacts.process_inv seen s c Hpos Hc Hinv).
  assert (Hkept : CoinPairSearch.max_coins
                    (CoinPairSearch.process_coin_for_combine_search s c) <> [])
    by (apply (inv_kept _ _ Hinv'); destruct seen; discriminate).
  destruct Hinv as [Htot _ _ Hseen _ _].
  revert Hkept.
  unfold head_max, CoinPairSearch.process_coin_for_combine_search;
    cbn [CoinPairSearch.max_coins CoinPairSearch.target CoinPairSearch.total].
  destruct (CoinPairSearch.max_coins s) as [|x0 l] eqn:El.
  - cbn [length Nat.eqb app CoinPairSearch.max_coins hd_error].
    intros _ h x [= <-] Hin.
    assert (Hnil : seen = []).
    { destruct seen; [reflexivity|]. exfalso. apply Hseen; congruence. }
    subst seen. destruct Hin as [->|[]]. lia.
  - cbn [length Nat.eqb].
    set (s1 := CoinPairSearch.insort _ c 0 _).
    assert (Htot1 : CoinPairSearch.total s1
                    = sum (amounts (CoinPairSearch.max_coins s1))).
    { unfold s1, CoinPairSearch.insort, amounts;
        cbn [CoinPairSearch.total CoinPairSearch.max_coins].
      rewrite (sum_perm _ _ (Permutation_map amount
                               (SelectorFacts.insert_desc_perm (x0 :: l) c))).
      rewrite Htot. sum_norm. lia. }
    destruct (SelectorFacts.evict_exit
                (length (CoinPairSearch.max_coins s1)) s1 Htot1 (le_n _))
      as (_ & gone & Hd & _).
    set (s2 := CoinPairSearch.evict _ s1) in *.
    intros Hne h x Hh Hin.
    assert (Hh1 : hd_error (CoinPairSearch.max_coins s1) = Some h).
    { rewrite Hd. destruct (CoinPairSearch.max_coins s2); [congruence|].
      exact Hh. }
    assert (Hx0 : forall y, In y seen -> amount y <= amount x0).
    { intros y Hy. apply (Hmax x0 y); [rewrite El; reflexivity | exact Hy]. }
    unfold s1, CoinPairSearch.insort in Hh1.
    cbn [CoinPairSearch.max_coins CoinPairSearch.insert_desc] in Hh1.
    apply in_app_or in Hin.
    destruct (amount x0 <? amount c) eqn:E; injection Hh1 as <-.
    + apply Z.ltb_lt in E.
      destruct Hin as [Hin|[->|[]]]; [specialize (Hx0 x Hin)|]; lia.
    + apply Z.ltb_ge in E.
      destruct Hin as [Hin|[->|[]]]; [apply Hx0; exact Hin | exact E].
Qed.

Lemma search_of_head_max (amt : Z) (usable_coins : dict bytes32 Coin) :
  0 < amt ->
  Forall (fun c => 0 <= amount c) (dict_values usable_coins) ->
  head_max (dict_values usable_coins) (search_of amt usable_coins).
Proof.
  intros Hpos Hnn. unfold search_of.
  assert (Hgen : forall cs seen s,
             0 < CoinPairSearch.target s ->
             Forall (fun c => 0 <= amount c) cs ->
             search_inv seen s -> head_max seen s ->
             head_max (seen ++ cs)
               (fold_left CoinPairSearch.process_coin_for_combine_search cs s)).
  { induction cs as [|c cs IH]; intros seen s Ht Hcs Hinv Hmax; simpl.
    - rewrite app_nil_r. exact Hmax.
    - inversion Hcs as [|? ? Hc Hcs']; subst.
      replace (seen ++ c :: cs) with ((seen ++ [c]) ++ cs)
        by (rewrite <- app_assoc; reflexivity).
      apply IH.
      + rewrite SelectorFacts.process_target by apply Hinv. exact Ht.
      + exact Hcs'.
      + apply SelectorFacts.process_inv; assumption.
      + apply process_head_max; assumption. }
  apply (Hgen (dict_values usable_coins) [] (CoinPairSearch.init amt));
    auto.
  - apply SelectorFacts.init_inv.
  - intros h x Hh. discriminate Hh.
Qed.

(** A coin that covers a positive target alone is selected alone. *)
Lemma single_coin_selected (amt : Z) (usable_coins : dict bytes32 Coin)
    (big : Coin) :
  0 < amt ->
  Forall (fun c => 0 <= amount c) (dict_values usable_coins) ->
  In big (dict_values usable_coins) ->
  amt <= amount big ->
  exists c,
    compute_combine_action amt (@nil unit) usable_coins = Some [c] /\
    In c (dict_values usable_coins) /\
    forall x, In x (dict_values usable_coins) -> amount x <= amount c.
Proof.
  intros Hpos Hnn Hin Hbig.
  destruct (search_of_inv amt usable_coins Hpos Hnn) as [Hinv Ht].
  assert (Hmax := search_of_head_max amt usable_coins Hpos Hnn).
  destruct Hinv as [Htot _ [dropped Hsub] Hkept Htight _].
  rewrite Ht in Htight.
  rewrite compute_combine_action_search.
  set (s := search_of amt usable_coins) in *.
  assert (Hne : CoinPairSearch.max_coins s <> [])
    by (apply Hkept; intros Hnil; rewrite Hnil in Hin; destruct Hin).
  destruct (CoinPairSearch.max_coins s) as [|h r] eqn:El; [congruence|].
  assert (Hh : forall x, In x (dict_values usable_coins) -> amount x <= amount h)
    by (intros x Hx; apply (Hmax h x); [rewrite El; reflexivity | exact Hx]).
  assert (Hkeptnn : Forall (fun c => 0 <= amount c) (h :: r)).
  { assert (Hall : Forall (fun c => 0 <= amount c) ((h :: r) ++ dropped))
      by (eapply Permutation_Forall; [symmetry; exact Hsub|exact Hnn]).
    apply Forall_app in Hall. tauto. }
  assert (Hr : r = []).
  { destruct r as [|y r']; [reflexivity|]. exfalso.
    specialize (Htight h ltac:(discriminate)).
    change (last (h :: y :: r') h) with (last (y :: r') h) in Htight.
    assert (Hlast : In (last (y :: r') h) (y :: r')).
    { rewrite (app_removelast_last h (l := y :: r')) at 2 by discriminate.
      apply in_or_app; right; left; reflexivity. }
    assert (Hrnn := Forall_inv_tail Hkeptnn).
    assert (Hle := member_le_sum _ _ Hrnn Hlast).
    specialize (Hh big Hin).
    rewrite Htot in Htight. revert Htight. sum_norm.
    unfold amounts in Hle. cbn [map] in Hle. rewrite sum_cons in Hle.
    intros Htight. lia. }
  subst r. exists h.
  assert (Hth : CoinPairSearch.total s = amount h)
    by (rewrite Htot; sum_norm; lia).
  specialize (Hh big Hin) as Hbh.
  destruct (CoinPairSearch.total s >=? amt) eqn:E;
    [|rewrite Z.geb_leb in E; apply Z.leb_gt in E; lia].
  split; [reflexivity|]. split; [|exact Hh].
  apply (Permutation_in h Hsub). left; reflexivity.
Qed.

(** X3: when one candidate alone covers a positive target, the selector
    returns exactly one coin, a candidate of the largest amount. *)
Theorem selection_single_coin (amt : Z) (usable_coins : dict bytes32 Coin)
    (big : Coin) :
  0 < amt ->
  Forall (fun c => 0 <= amount c) (dict_values usable_coins) ->
  In big (dict_values usable_coins) ->
  amt <= amount big ->
  exists c,
    compute_combine_action amt (@nil unit) usable_coins = Some [c] /\
    In c (dict_values usable_coins) /\
    forall x, In x (dict_values usable_coins) -> amount x <= amount c.
Proof. exact (single_coin_selected amt usable_coins big). Qed.

(** [selection_single_coin] at the coins 5, 40, 7 and the target 6. *)
Lemma selection_single_coin_witness :
  let usable := map (fun n => ([], mkCoin [] [] n)) [5; 40; 7] in
  exists c,
    compute_combine_action 6 (@nil unit) usable = Some [c] /\
    In c (dict_values usable) /\
    forall x, In x (dict_values usable) -> amount x <= amount c.
Proof.
  cbv zeta.
  apply (selection_single_coin 6 _ (mkCoin [] [] 7)).
  - lia.
  - repeat constructor; simpl; lia.
  - simpl. auto.
  - simpl. lia.
Defined.

(** ** The selector at a target of zero or less *)

Lemma last_cons_default {A} (x d : A) (l : list A) :
  last (x :: l) d = last l x.
Proof.
  destruct l as [|y l]; [reflexivity|].
  change (last (y :: l) d = last (y :: l) x).
  apply last_default. discriminate.
Qed.

Lemma process_from_single (t : Z) (x c : Coin) :
  t <= 0 -> 0 <= amount x -> 0 <= amount c ->
  CoinPairSearch.process_coin_for_combine_search
    (CoinPairSearch.mk t (amount x) [x]) c
  = CoinPairSearch.mk t 0 [].
Proof.
  intros Ht Hx Hc.
  unfold CoinPairSearch.process_coin_for_combine_search, CoinPairSearch.insort.
  cbn [CoinPairSearch.max_coins CoinPairSearch.target CoinPairSearch.total
       length Nat.eqb CoinPairSearch.insert_desc].
  destruct (amount x <? amount c);
    cbn [length CoinPairSearch.evict CoinPairSearch.max_coins
         CoinPairSearch.target CoinPairSearch.total last removelast].
  - destruct (amount x + amount c - amount x >=? t) eqn:E1;
      [|rewrite Z.geb_leb in E1; apply Z.leb_gt in E1; lia].
    destruct (amount x + amount c - amount x - amount c >=? t) eqn:E2;
      [|rewrite Z.geb_leb in E2; apply Z.leb_gt in E2; lia].
    f_equal. lia.
  - destruct (amount x + amount c - amount c >=? t) eqn:E1;
      [|rewrite Z.geb_leb in E1; apply Z.leb_gt in E1; lia].
    destruct (amount x + amount c - amount c - amount x >=? t) eqn:E2;
      [|rewrite Z.geb_leb in E2; apply Z.leb_gt in E2; lia].
    f_equal. lia.
Qed.

(** At a target of zero or less every second coin empties the list. *)
Lemma search_nonpositive (t : Z) (cs : list Coin) :
  t <= 0 ->
  Forall (fun c => 0 <= amount c) cs ->
  (forall d,
      fold_left CoinPairSearch.process_coin_for_combine_search cs
                (CoinPairSearch.mk t 0 [])
      = if Nat.even (length cs) then CoinPairSearch.mk t 0 []
        else CoinPairSearch.mk t (amount (last cs d)) [last cs d]) /\
  (forall x,
      0 <= amount x ->
      fold_left CoinPairSearch.process_coin_for_combine_search cs
                (CoinPairSearch.mk t (amount x) [x])
      = if Nat.even (length cs)
        then CoinPairSearch.mk t (amount (last cs x)) [last cs x]
        else CoinPairSearch.mk t 0 []).
Proof.
  intros Ht. induction 1 as [|c cs Hc Hcs [IHe IHo]].
  - split; intros; reflexivity.
  - split.
    + intros d. cbn [fold_left].
      change (CoinPairSearch.process_coin_for_combine_search
                (CoinPairSearch.mk t 0 []) c)
        with (CoinPairSearch.mk t (amount c) [c]).
      rewrite (IHo c Hc). cbn [length]. rewrite Nat.even_succ, <- Nat.negb_even.
      rewrite last_cons_default.
      destruct (Nat.even (length cs)); reflexivity.
    + intros x Hx. cbn [fold_left].
      rewrite (process_from_single t x c Ht Hx Hc), (IHe x).
      cbn [length]. rewrite Nat.even_succ, <- Nat.negb_even.
      rewrite last_cons_default.
      destruct (Nat.even (length cs)) eqn:E; cbn [negb]; [reflexivity|].
      replace (last cs c) with (last cs x); [reflexivity|].
      apply last_default. intros ->. discriminate E.
Qed.

Lemma selection_nonpositive (amt : Z) (usable_coins : dict bytes32 Coin)
    (d : Coin) :
  amt <= 0 ->
  Forall (fun c => 0 <= amount c) (dict_values usable_coins) ->
  compute_combine_action amt (@nil unit) usable_coins
  = Some (if Nat.even (length usable_coins) then []
          else [last (dict_values usable_coins) d]).
Proof.
  intros Ht Hnn. rewrite compute_combine_action_search. unfold search_of.
  destruct (search_nonpositive amt (dict_values usable_coins) Ht Hnn)
    as [He _].
  assert (Hlen : length (dict_values usable_coins) = length usable_coins)
    by apply length_map.
  specialize (He d). rewrite Hlen in He.
  change (CoinPairSearch.init amt) with (CoinPairSearch.mk amt 0 []).
  rewrite He.
  destruct (Nat.even (length usable_coins)) eqn:E;
    cbn [CoinPairSearch.total CoinPairSearch.max_coins].
  - destruct (0 >=? amt) eqn:E0; [reflexivity|].
    rewrite Z.geb_leb in E0; apply Z.leb_gt in E0; lia.
  - assert (Hin : In (last (dict_values usable_coins) d)
                     (dict_values usable_coins)).
    { destruct (dict_values usable_coins) as [|x l] eqn:El.
      - simpl in Hlen. rewrite <- Hlen in E. discriminate E.
      - rewrite (app_removelast_last d (l := x :: l)) at 2 by discriminate.
        apply in_or_app; right; left; reflexivity. }
    rewrite Forall_forall in Hnn. specialize (Hnn _ Hin).
    destruct (_ >=? amt) eqn:E0; [reflexivity|].
    rewrite Z.geb_leb in E0; apply Z.leb_gt in E0; lia.
Qed.

(** X4: at a target of zero or less, with amounts that are not negative,
    the selector returns the empty list when the number of candidates is
    even and the last candidate alone when it is odd. *)
Theorem selection_at_nonpositive_target (amt : Z)
    (usable_coins : dict bytes32 Coin) (d : Coin) :
  amt <= 0 ->
  Forall (fun c => 0 <= amount c) (dict_values usable_coins) ->
  compute_combine_action amt (@nil unit) usable_coins
  = Some (if Nat.even (length usable_coins) then []
          else [last (dict_values usable_coins) d]).
Proof. exact (selection_nonpositive amt usable_coins d). Qed.

(** [selection_at_nonpositive_target] at the target 0 and the coins 5, 3, 8. *)
Lemma selection_at_nonpositive_target_witness :
  compute_combine_action 0 (@nil unit)
    (map (fun n => ([], mkCoin [] [] n)) [5; 3; 8])
  = Some [mkCoin [] [] 8].
Proof.
  apply (selection_at_nonpositive_target 0
           (map (fun n => ([], mkCoin [] [] n)) [5; 3; 8]) (mkCoin [] [] 0)).
  - lia.
  - repeat constructor; simpl; lia.
Defined.

(** ** Ties in [insort] *)

(** X5: [insort] puts a coin behind every kept coin of the same or a larger
    amount and in front of every smaller one, so that coins of equal amount
    stay in the order in which they were processed. *)
Theorem insort_after_equal_amounts (l : list Coin) (c : Coin) :
  StronglySorted (fun a b => amount b <= amount a) l ->
  exists before after,
    l = before ++ after /\
    CoinPairSearch.insert_desc l c = before ++ c :: after /\
    Forall (fun x => amount c <= amount x) before /\
    Forall (fun x => amount x < amount c) after.
Proof.
  induction l as [|x l IH]; intros Hs.
  - exists [], []. repeat split; constructor.
  - apply StronglySorted_inv in Hs as [Hl Hx]. cbn [CoinPairSearch.insert_desc].
    destruct (amount x <? amount c) eqn:E.
    + apply Z.ltb_lt in E. exists [], (x :: l). repeat split.
      * constructor.
      * constructor; [exact E|]. eapply Forall_impl; [|exact Hx].
        cbv beta. intros a Ha. lia.
    + apply Z.ltb_ge in E.
      destruct (IH Hl) as (before & after & Heq & Hins & Hb & Ha).
      exists (x :: before), after. repeat split.
      * simpl. f_equal. exact Heq.
      * simpl. f_equal. exact Hins.
      * constructor; assumption.
      * exact Ha.
Qed.

(** [insort_after_equal_amounts] at the kept coins 9, 5, 2 and a second
    coin of amount 5. *)
Lemma insort_after_equal_amounts_witness :
  CoinPairSearch.insert_desc
    [mkCoin [x01] [] 9; mkCoin [x02] [] 5; mkCoin [x03] [] 2]
    (mkCoin [x04] [] 5)
  = [mkCoin [x01] [] 9; mkCoin [x02] [] 5; mkCoin [x04] [] 5;
     mkCoin [x03] [] 2] /\
  exists before after,
    [mkCoin [x01] [] 9; mkCoin [x02] [] 5; mkCoin [x03] [] 2]
    = before ++ after /\
    CoinPairSearch.insert_desc
      [mkCoin [x01] [] 9; mkCoin [x02] [] 5; mkCoin [x03] [] 2]
      (mkCoin [x04] [] 5)
    = before ++ mkCoin [x04] [] 5 :: after /\
    Forall (fun x => amount (mkCoin [x04] [] 5) <= amount x) before /\
    Forall (fun x => amount x < amount (mkCoin [x04] [] 5)) after.
Proof.
  split; [reflexivity|].
  apply insort_after_equal_amounts.
  repeat constructor; simpl; lia.
Defined.

(** ** What the calls keep *)

Section PreserveFacts.
Context `{Chia} `{SpendSim}.
Variable P : Network -> Prop.
Hypothesis P_ledger :
  forall s t l, P s -> P (mkNetwork t l (wallets s) (nobody s)).
Hypothesis P_farm_block : forall farmer, preserves P (farm_block farmer).

Lemma preserves_ret {A} (a : A) : preserves P (ret a).
Proof. intros s s' HP [= <-]. exact HP. Qed.

Lemma preserves_raise {A} (e : exn) : preserves P (@raise _ A e).
Proof. intros s s' HP [= <-]. exact HP. Qed.

Lemma preserves_timeout {A} : preserves P (@timeout _ A).
Proof. intros s s' HP [=]. Qed.

Lemma preserves_bind {A B} (m : M A) (k : A -> M B) :
  preserves P m -> (forall a, preserves P (k a)) -> preserves P (bind m k).
Proof.
  intros Hm Hk s s' HP. unfold bind.
  destruct (m s) as [a s1|e s1|] eqn:E; intros Hf.
  - apply (Hk a s1 s'); [|exact Hf]. apply (Hm s s1 HP). rewrite E. reflexivity.
  - apply (Hm s s' HP). rewrite E. exact Hf.
  - discriminate.
Qed.

Lemma preserves_get_then {A} (k : Network -> M A) :
  (forall s0, preserves P (k s0)) -> preserves P (s <- get ;; k s).
Proof. intros Hk s s' HP. unfold bind, get. apply Hk. exact HP. Qed.

Lemma preserves_get_wallet (w : wref) : preserves P (get_wallet w).
Proof.
  intros s s' HP. unfold get_wallet.
  destruct (dict_get string_dec w (wallets s)); intros [= <-]; exact HP.
Qed.

Lemma preserves_assert (b : bool) : preserves P (assert_ b).
Proof. destruct b; [apply preserves_ret | apply preserves_raise]. Qed.

Lemma preserves_lift {A} (r : result A) : preserves P (lift r).
Proof. destruct r; [apply preserves_raise | apply preserves_ret]. Qed.

Lemma preserves_push_tx (bundle : SpendBundle) : preserves P (push_tx bundle).
Proof.
  intros s s' HP. unfold push_tx, bind, get, put.
  destruct (sim_push_tx (sim s) bundle) as [sim1 [e|]].
  - intros [= <-]. apply P_ledger. exact HP.
  - assert (Hk := P_farm_block None
                    (mkNetwork (time s) sim1 (wallets s) (nobody s))).
    destruct (farm_block None _) as [farmed s1|e s1|]; intros [= <-];
      apply Hk; try reflexivity; apply P_ledger; exact HP.
Qed.

Lemma preserves_combine_coins (self : wref) (coins : list CoinWrapper.t) :
  preserves P (combine_coins self coins).
Proof.
  unfold combine_coins, combine_checks.
  repeat (cbv zeta;
          first [ apply preserves_get_wallet | apply preserves_lift
                | apply preserves_push_tx | apply preserves_assert
                | apply preserves_ret
                | apply preserves_bind; [|intros ?] ]).
Qed.

Lemma preserves_choose_coin (fuel : nat) (self : wref) (amt : Z) :
  preserves P (choose_coin fuel self amt).
Proof.
  induction fuel as [|fuel IH]; [apply preserves_timeout|].
  cbn [choose_coin].
  apply preserves_bind; [apply preserves_get_wallet|intros w].
  cbv zeta.
  destruct (compute_combine_action amt [] (Wallet.usable_coins w))
    as [[|x [|y l]]|]; try apply preserves_ret;
    (apply preserves_bind; [apply preserves_combine_coins|intros _];
     apply preserves_bind; [apply preserves_get_wallet|intros w'];
     apply preserves_bind; [apply preserves_assert|intros _]; exact IH).
Qed.

Lemma preserves_launch_contract (fuel : nat) (self : wref) (source : Program)
    (kw_amt : option Z) :
  preserves P (launch_contract fuel self source kw_amt).
Proof.
  unfold launch_contract. cbv zeta.
  apply preserves_bind; [apply preserves_choose_coin|intros [found|]];
    [|apply preserves_raise].
  apply preserves_bind; [apply preserves_get_wallet|intros w]. cbv zeta.
  apply preserves_bind; [apply preserves_push_tx|intros [e|a r]];
    apply preserves_ret.
Qed.

Lemma preserves_give_chia (fuel : nat) (self target : wref) (amt : Z) :
  preserves P (give_chia fuel self target amt).
Proof.
  unfold give_chia.
  apply preserves_bind; [apply preserves_get_wallet|intros t].
  apply preserves_launch_contract.
Qed.

Lemma preserves_spend_solution (self : wref) (coin : CoinWrapper.t)
    (kwargs : SpendKwargs) :
  preserves P (spend_solution self coin kwargs).
Proof.
  unfold spend_solution. cbv zeta.
  apply preserves_bind; [apply preserves_get_wallet|intros w].
  destruct (kw_args kwargs); [apply preserves_ret|].
  apply preserves_bind.
  - destruct (kw_to kwargs); [|apply preserves_ret].
    apply preserves_bind; [apply preserves_get_wallet|intros t].
    apply preserves_ret.
  - intros ph. apply preserves_bind; [|intros l; apply preserves_ret].
    destruct (kw_remain kwargs) as [[c|r|]|]; cbv zeta;
      try apply preserves_ret; try apply preserves_raise.
    apply preserves_bind; [apply preserves_get_wallet|intros rw].
    apply preserves_ret.
Qed.

Lemma preserves_spend_coin (self : wref) (coin : CoinWrapper.t)
    (kwargs : SpendKwargs) :
  preserves P (spend_coin self coin kwargs).
Proof.
  unfold spend_coin.
  apply preserves_bind; [apply preserves_get_wallet|intros w].
  apply preserves_bind; [apply preserves_spend_solution|intros sol]. cbv zeta.
  apply preserves_bind; [apply preserves_lift|intros sig].
  apply preserves_bind; [apply preserves_push_tx|intros pushed].
  apply preserves_ret.
Qed.

Lemma preserves_skip_time_loop (fuel : nat) (target_time : Z)
    (farmer : option wref) :
  preserves P (skip_time_loop fuel target_time farmer).
Proof.
  induction fuel as [|fuel IH]; cbn [skip_time_loop];
    apply preserves_get_then; intros s0;
    (destruct (_ >? _); [|apply preserves_ret]).
  - apply preserves_timeout.
  - apply preserves_bind; [apply P_farm_block|intros _].
    intros s s' HP. unfold bind at 1, get at 1. unfold bind at 1, put at 1.
    apply IH. apply P_ledger. exact HP.
Qed.

Lemma preserves_skip_time (fuel : nat) (target_duration : string)
    (farmer : option wref) :
  preserves P (skip_time fuel target_duration farmer).
Proof.
  unfold skip_time. apply preserves_get_then. intros s0.
  destruct (parse_timedelta target_duration); [|apply preserves_raise].
  apply preserves_bind; [apply preserves_lift|intros duration].
  apply preserves_bind; [apply preserves_lift|intros target_time].
  apply preserves_skip_time_loop.
Qed.

End PreserveFacts.

Section ActorFacts.
Context `{Chia} `{SpendSim}.

Lemma same_actors_ledger (s0 s : Network) (t : Z) (l : Sim) :
  same_actors s0 s -> same_actors s0 (mkNetwork t l (wallets s) (nobody s)).
Proof. intros [Hn Ha]. split; assumption. Qed.

Lemma same_actors_farm_block (s0 : Network) (farmer : option wref) :
  preserves (same_actors s0) (farm_block farmer).
Proof.
  intros s s' Hs Hf. apply same_actors_trans with s; [exact Hs|].
  apply (keeps_farm_block farmer s s' Hf).
Qed.

Lemma keeps_of_preserves {A} (m : M A) :
  (forall s0, preserves (same_actors s0) m) -> keeps_actors m.
Proof. intros Hp s s' Hf. apply (Hp s s s'); [apply same_actors_refl|exact Hf]. Qed.

Lemma keeps_run_call (c : call) :
  (forall name, c <> CallMakeWallet name) -> keeps_actors (run_call c).
Proof.
  intros Hc. apply keeps_of_preserves. intros s0.
  assert (Hl := same_actors_ledger s0).
  assert (Hf := same_actors_farm_block s0).
  destruct c; cbn [run_call]; try (exfalso; eapply Hc; reflexivity);
    try (apply preserves_bind; [|intros ?; apply preserves_ret]).
  - apply Hf.
  - apply preserves_skip_time; assumption.
  - apply preserves_push_tx; assumption.
  - apply preserves_combine_coins; assumption.
  - apply preserves_choose_coin; assumption.
  - apply preserves_launch_contract; assumption.
  - apply preserves_give_chia; assumption.
  - apply preserves_spend_coin; assumption.
Qed.

End ActorFacts.

(** X6: no call but [make_wallet] adds, removes or reorders a wallet or
    changes a wallet's name, keys, puzzle or puzzle hash, whether it returns
    or raises: [farm_block], [skip_time], [push_tx], [combine_coins],
    [choose_coin], [launch_contract], [give_chia] and [spend_coin] change
    nothing of the wallets but their coin sets. *)
Theorem calls_keep_actors `{Chia} `{SpendSim} (c : call) (s s' : Network) :
  (forall name, c <> CallMakeWallet name) ->
  final (run_call c s) = Some s' ->
  nobody s' = nobody s /\
  map (fun kw => (fst kw, Wallet._clear_coins (snd kw))) (wallets s')
  = map (fun kw => (fst kw, Wallet._clear_coins (snd kw))) (wallets s).
Proof.
  intros Hc Hf. exact (keeps_run_call c Hc s s' Hf).
Qed.

(** [calls_keep_actors] at a launch of 4 from the wallet [alice]. *)
Lemma calls_keep_actors_witness :
  exists s',
    final (run_call (CallLaunchContract 3 Toy.alice Toy.src (Some 4)) Toy.toy)
    = Some s' /\
    nobody s' = nobody Toy.toy /\
    map (fun kw => (fst kw, Wallet._clear_coins (snd kw))) (wallets s')
    = map (fun kw => (fst kw, Wallet._clear_coins (snd kw))) (wallets Toy.toy).
Proof.
  assert (Hf : final (run_call (CallLaunchContract 3 Toy.alice Toy.src (Some 4))
                        Toy.toy)
               = Some (Toy.the_state
                         (run_call (CallLaunchContract 3 Toy.alice Toy.src
                                      (Some 4)) Toy.toy)))
    by (vm_compute; reflexivity).
  eexists. split; [exact Hf|].
  apply (calls_keep_actors (CallLaunchContract 3 Toy.alice Toy.src (Some 4))
           Toy.toy _); [discriminate | exact Hf].
Defined.

(** ** Networks that can be reached *)

Section ReachFacts.
Context `{Chia} `{SpendSim}.

Lemma dict_set_in {K V} (K_eq_dec : forall a b : K, {a = b} + {a <> b})
    (k k' : K) (v v' : V) (d : dict K V) :
  In (k', v') (dict_set K_eq_dec k v d) -> In (k', v') d \/ v' = v.
Proof.
  induction d as [|[k0 v0] d IH]; simpl.
  - intros [[= _ <-]|[]]. right; reflexivity.
  - destruct (K_eq_dec k0 k).
    + intros [[= _ <-]|Hin]; [right; reflexivity | left; right; exact Hin].
    + intros [Heq|Hin]; [left; left; exact Heq|].
      destruct (IH Hin); [left; right; assumption | right; assumption].
Qed.

Lemma network_ok_ledger (s : Network) (t : Z) (l : Sim) :
  network_ok s -> network_ok (mkNetwork t l (wallets s) (nobody s)).
Proof. intros [Hn Hw]. split; assumption. Qed.

Lemma wallet_ok_refresh (w : Wallet.t) (records : list CoinRecord) :
  wallet_ok w -> wallet_ok (add_unspent (Wallet._clear_coins w) records).
Proof.
  intros (Hp & Hh & _).
  assert (Hc := add_unspent_clear (Wallet._clear_coins w) records).
  set (w' := add_unspent (Wallet._clear_coins w) records) in *.
  assert (Hpk : Wallet.pk_ w' = Wallet.pk_ w)
    by exact (f_equal Wallet.pk_ Hc).
  assert (Hpz : Wallet.puzzle w' = Wallet.puzzle w)
    by exact (f_equal Wallet.puzzle Hc).
  assert (Hph : Wallet.puzzle_hash w' = Wallet.puzzle_hash w)
    by exact (f_equal Wallet.puzzle_hash Hc).
  split; [congruence|]. split; [congruence|].
  intros id c Hg. unfold w' in Hg. rewrite add_unspent_coins in Hg.
  apply coin_dict_get_inv in Hg. destruct Hg as [[_ Hid]|Hg];
    [exact Hid | discriminate Hg].
Qed.

Lemma network_ok_farm_block (farmer : option wref) :
  preserves network_ok (farm_block farmer).
Proof.
  intros s s' [Hn Hw] Hf.
  assert (Hk := keeps_farm_block farmer s s' Hf).
  split.
  - destruct Hk as [Hnb Ha]. rewrite Hnb.
    apply (same_actors_registered (nobody s) s s'); [split; assumption|exact Hn].
  - destruct (dict_get string_dec
                (match farmer with Some f => f | None => nobody s end)
                (wallets s)) as [fw|] eqn:E.
    + destruct (farm_block_run farmer s fw E) as (s1 & Hrun & _ & _ & _ & Hws).
      rewrite Hrun in Hf. injection Hf as <-.
      intros k w' Hin. rewrite Hws in Hin. apply in_map_iff in Hin.
      destruct Hin as ([k0 w] & [= <- <-] & Hin). cbn [snd].
      apply wallet_ok_refresh. apply (Hw k0 w Hin).
    + unfold farm_block, bind, get, get_wallet in Hf. rewrite E in Hf.
      injection Hf as <-. exact Hw.
Qed.

Lemma network_ok_make_wallet (name : string) :
  preserves network_ok (make_wallet name).
Proof.
  intros s s' [Hn Hw]. unfold make_wallet, bind, get, put, _alloc_key.
  intros [= <-]. split.
  - unfold registered in *. cbn [nobody wallets]. rewrite dict_get_set.
    destruct (string_dec _ (nobody s)); [discriminate | exact Hn].
  - cbn [wallets]. intros k w Hin. apply dict_set_in in Hin.
    destruct Hin as [Hin| ->]; [apply (Hw k w Hin)|].
    split; [reflexivity|]. split; [reflexivity|]. intros id c Hg.
    discriminate Hg.
Qed.

(** The network that [create] returns. *)
Lemma create_returns :
  let pk := public_key_for_index 0 in
  let w := Wallet.init "nobody" pk (private_key_for_index 0) in
  let s := mkNetwork (18750 * 86400000000 + 61201 * 1000000) sim_create
                     [(str_pk pk, w)] (str_pk pk) in
  create = Return s s.
Proof.
  cbv zeta. unfold create, make_wallet, bind, get, put, get_wallet, _alloc_key.
  cbn [wallets dict_set dict_get time sim nobody len length Z.of_nat
       Wallet.pk Wallet.init Wallet.pk_].
  set (key := str_pk (public_key_for_index 0)).
  unfold ret. cbn [wallets dict_set dict_get time sim nobody].
  destruct (string_dec key key) as [_|Hne]; [|congruence].
  cbn [wallets dict_set dict_get time sim nobody Wallet.pk Wallet.pk_
       Wallet.init].
  fold key. destruct (string_dec key key) as [_|Hne]; [|congruence].
  reflexivity.
Qed.

Lemma network_ok_create (s : Network) :
  final create = Some s -> network_ok s.
Proof.
  assert (Hc := create_returns). cbv zeta in Hc. rewrite Hc.
  intros [= <-]. split.
  - unfold registered. cbn [wallets nobody dict_get].
    destruct (string_dec _ _) as [_|Hne]; [discriminate | congruence].
  - cbn [wallets]. intros k w [[= _ <-]|[]].
    split; [reflexivity|]. split; [reflexivity|]. intros id c Hg.
    discriminate Hg.
Qed.

Lemma network_ok_run_call (c : call) : preserves network_ok (run_call c).
Proof.
  assert (Hl := network_ok_ledger).
  assert (Hf := network_ok_farm_block).
  destruct c; cbn [run_call];
    try (apply preserves_bind; [|intros ?; apply preserves_ret]).
  - apply network_ok_make_wallet.
  - apply Hf.
  - apply preserves_skip_time; assumption.
  - apply preserves_push_tx; assumption.
  - apply preserves_combine_coins; assumption.
  - apply preserves_choose_coin; assumption.
  - apply preserves_launch_contract; assumption.
  - apply preserves_give_chia; assumption.
  - apply preserves_spend_coin; assumption.
Qed.

Lemma reachable_ok (s : Network) : reachable s -> network_ok s.
Proof.
  induction 1 as [s Hc|s s' c _ IH Hf].
  - apply network_ok_create. exact Hc.
  - apply (network_ok_run_call c s s' IH Hf).
Qed.

End ReachFacts.

(** X7: in every network reached from [Network.create()] by any calls,
    returned or raised, [nobody] is a registered wallet, and every
    registered wallet has the standard puzzle of its public key, the hash of
    that puzzle as its puzzle hash, and each of its coins filed under the
    coin's id. *)
Theorem reachable_network_ok `{Chia} `{SpendSim} (s : Network) :
  reachable s ->
  (exists nw, dict_get string_dec (nobody s) (wallets s) = Some nw) /\
  forall k w,
    In (k, w) (wallets s) ->
    Wallet.puzzle w = puzzle_for_pk (Wallet.pk_ w) /\
    Wallet.puzzle_hash w = get_tree_hash (Wallet.puzzle w) /\
    forall id c,
      dict_get bytes_eq_dec id (Wallet.usable_coins w) = Some c ->
      coin_name c = id.
Proof.
  intros Hr. destruct (reachable_ok s Hr) as [Hn Hw]. split.
  - unfold registered in Hn.
    destruct (dict_get string_dec (nobody s) (wallets s)) as [nw|];
      [exists nw; reflexivity | congruence].
  - exact Hw.
Qed.

(** [reachable_network_ok] at the network made by [create] and a
    [make_wallet]. *)
Lemma reachable_network_ok_witness :
  let s := Toy.the_state (Toy.state_after (make_wallet "alice") create) in
  reachable s /\
  exists nw, dict_get string_dec (nobody s) (wallets s) = Some nw.
Proof.
  cbv zeta.
  assert (Hr : reachable
                 (Toy.the_state
                    (Toy.state_after (make_wallet "alice") create))).
  { apply (reach_call (Toy.the_state create) _ (CallMakeWallet "alice"));
      [|vm_compute; reflexivity].
    apply reach_create. vm_compute. reflexivity. }
  split; [exact Hr|]. exact (proj1 (reachable_network_ok _ Hr)).
Defined.

(** ** Making a wallet *)

(** X8: [make_wallet] files a wallet without coins, with the keys of the
    next index, under the text of its public key and returns that key;
    looking the key up gives the new wallet (a wallet that was filed under
    the same key is replaced), every other key gives what it gave before,
    and time, ledger and [nobody] stay. *)
Theorem make_wallet_registers `{Chia} `{SpendSim}
    (name : string) (s : Network) :
  let idx := len (wallets s) in
  let key := str_pk (public_key_for_index idx) in
  let w := Wallet.init name (public_key_for_index idx)
                       (private_key_for_index idx) in
  exists s',
    make_wallet name s = Return key s' /\
    dict_get string_dec key (wallets s') = Some w /\
    Wallet.balance w = 0 /\
    (forall k, k <> key ->
               dict_get string_dec k (wallets s')
               = dict_get string_dec k (wallets s)) /\
    time s' = time s /\ sim s' = sim s /\ nobody s' = nobody s.
Proof.
  cbv zeta. unfold make_wallet, _alloc_key, bind, get, put, ret.
  eexists. split; [reflexivity|].
  cbn [wallets time sim nobody]. repeat split.
  - rewrite dict_get_set.
    destruct (string_dec _ _) as [_|Hne]; [reflexivity|].
    exfalso. apply Hne. reflexivity.
  - intros k Hk. rewrite dict_get_set.
    destruct (string_dec _ k) as [Heq|_]; [|reflexivity].
    exfalso. apply Hk. symmetry. exact Heq.
Qed.

(** [make_wallet_registers] at the first wallet made after
    [Network.create()]: it gets the keys of index 1, and [nobody] stays. *)
Lemma make_wallet_registers_witness :
  exists s',
    make_wallet "alice" (Toy.the_state create) = Return Toy.alice s' /\
    dict_get string_dec (nobody s') (wallets s')
    = dict_get string_dec (nobody (Toy.the_state create))
        (wallets (Toy.the_state create)).
Proof.
  destruct (make_wallet_registers "alice" (Toy.the_state create))
    as (s' & Hrun & _ & _ & Hother & _ & _ & Hn).
  exists s'. split; [exact Hrun|]. rewrite Hn. apply Hother.
  vm_compute. discriminate.
Defined.

(** ** Edges of [skip_time] *)



(** ** Choosing a coin *)

Section ChooseMore.
Context `{Chia} `{SpendSim}.

Lemma selection_members (amt : Z) (usable_coins : dict bytes32 Coin)
    (sel : list Coin) (x : Coin) :
  compute_combine_action amt (@nil unit) usable_coins = Some sel ->
  In x sel -> In x (dict_values usable_coins).
Proof.
  rewrite compute_combine_action_search.
  destruct (search_of_basic amt usable_coins) as [_ _ [dropped Hsub]].
  destruct (_ >=? amt); [|discriminate]. intros [= <-] Hin.
  apply (Permutation_in x Hsub). apply in_or_app. left. exact Hin.
Qed.

(** A returned [choose_coin] keeps the balance, and the coin it returns is
    one of the wallet. *)
Lemma choose_coin_returns (fuel : nat) (self : wref) (amt : Z) :
  forall (s s' : Network) (w : Wallet.t) (r : option Coin),
    dict_get string_dec self (wallets s) = Some w ->
    choose_coin fuel self amt s = Return r s' ->
    exists w',
      dict_get string_dec self (wallets s') = Some w' /\
      Wallet.balance w' = Wallet.balance w /\
      forall c, r = Some c ->
                In c (dict_values (Wallet.usable_coins w')) /\ amt <= amount c.
Proof.
  induction fuel as [|fuel IH]; intros s s' w r Hw; [discriminate|].
  cbn [choose_coin]. unfold bind at 1. rewrite (get_wallet_some _ _ _ Hw).
  cbv zeta.
  destruct (compute_combine_action amt [] (Wallet.usable_coins w))
    as [[|x [|y l]]|] eqn:Esel.
  - unfold bind at 1, combine_coins. unfold bind at 1.
    rewrite (get_wallet_some _ _ _ Hw). discriminate.
  - intros [= <- <-]. exists w. split; [exact Hw|]. split; [reflexivity|].
    intros c [= <-]. split.
    + apply (selection_members _ _ _ _ Esel). left; reflexivity.
    + apply (single_selection_covers _ _ _ Esel).
  - unfold bind at 1.
    destruct (combine_coins self _ s) as [r0 s1|e s1|] eqn:Ec;
      try discriminate.
    destruct (combine_coins_returns _ _ _ _ _ _ Hw Ec)
      as (w1 & Hw1 & Hb1 & _).
    unfold bind at 1. rewrite (get_wallet_some _ _ _ Hw1).
    unfold bind at 1.
    destruct (Wallet.balance w1 =? Wallet.balance w); cbn [assert_];
      unfold ret, raise; [|discriminate].
    intros Hc. destruct (IH s1 s' w1 r Hw1 Hc) as (w' & Hw' & Hb' & Hr).
    exists w'. split; [exact Hw'|]. split; [congruence | exact Hr].
  - intros [= <- <-]. exists w. split; [exact Hw|]. split; [reflexivity|].
    intros c Hc. discriminate Hc.
Qed.

End ChooseMore.

(** X10: when [choose_coin] returns, the wallet's balance is what it was
    before the call, and a coin that it returns is one of the wallet's
    usable coins at that point, of the requested amount or more. *)
Theorem choose_coin_keeps_balance `{Chia} `{SpendSim}
    (fuel : nat) (self : wref) (amt : Z)
    (s s' : Network) (w : Wallet.t) (r : option Coin) :
  dict_get string_dec self (wallets s) = Some w ->
  choose_coin fuel self amt s = Return r s' ->
  exists w',
    dict_get string_dec self (wallets s') = Some w' /\
    Wallet.balance w' = Wallet.balance w /\
    forall c, r = Some c ->
              In c (dict_values (Wallet.usable_coins w')) /\ amt <= amount c.
Proof. apply choose_coin_returns. Qed.

(** [choose_coin_keeps_balance] at a request of 25 from three coins of 10,
    which takes one combine. *)
Lemma choose_coin_keeps_balance_witness :
  exists s' w' c,
    choose_coin 2 Toy.alice 25 Toy.toy = Return (Some c) s' /\
    dict_get string_dec Toy.alice (wallets s') = Some w' /\
    Wallet.balance w' = Wallet.balance (Toy.wallet_of Toy.alice Toy.toy) /\
    In c (dict_values (Wallet.usable_coins w')) /\ 25 <= amount c.
Proof.
  assert (Hc : choose_coin 2 Toy.alice 25 Toy.toy
               = Return
                   (Some (hd Toy.c0
                            (map snd (Wallet.usable_coins
                               (Toy.wallet_of Toy.alice
                                  (Toy.the_state
                                     (choose_coin 2 Toy.alice 25 Toy.toy)))))))
                   (Toy.the_state (choose_coin 2 Toy.alice 25 Toy.toy)))
    by (vm_compute; reflexivity).
  destruct (choose_coin_keeps_balance 2 Toy.alice 25 Toy.toy _ _ _
              toy_alice Hc) as (w' & Hw' & Hb & Hr).
  destruct (Hr _ eq_refl) as [Hin Hge].
  do 3 eexists. split; [exact Hc|]. split; [exact Hw'|].
  split; [exact Hb|]. split; [exact Hin | exact Hge].
Defined.

(** X11: with more fuel than the wallet has coins [choose_coin] ends: it
    returns or raises, since every combine it survives leaves the wallet
    with fewer coins. *)
Theorem choose_coin_terminates `{Chia} `{SpendSim}
    (fuel : nat) (self : wref) (amt : Z) (s : Network) (w : Wallet.t) :
  dict_get string_dec self (wallets s) = Some w ->
  (length (Wallet.usable_coins w) < fuel)%nat ->
  (exists r s', choose_coin fuel self amt s = Return r s') \/
  (exists e s', choose_coin fuel self amt s = Raise e s').
Proof.
  intros Hw Hlen. assert (He := choose_coin_ends fuel self amt s w Hw Hlen).
  destruct (choose_coin fuel self amt s) as [r s'|e s'|].
  - left. exists r, s'. reflexivity.
  - right. exists e, s'. reflexivity.
  - congruence.
Qed.

(** [choose_coin_terminates] at a wallet of three coins and a fuel of 4. *)
Lemma choose_coin_terminates_witness :
  (length (Wallet.usable_coins (Toy.wallet_of Toy.alice Toy.toy)) < 4)%nat /\
  ((exists r s', choose_coin 4 Toy.alice 25 Toy.toy = Return r s') \/
   (exists e s', choose_coin 4 Toy.alice 25 Toy.toy = Raise e s')).
Proof.
  assert (Hlen : (length (Wallet.usable_coins
                            (Toy.wallet_of Toy.alice Toy.toy)) < 4)%nat)
    by (vm_compute; repeat constructor).
  split; [exact Hlen|].
  exact (choose_coin_terminates 4 Toy.alice 25 Toy.toy _ toy_alice Hlen).
Defined.

(** X12: when one coin of the wallet alone covers a positive amount (no
    amount being negative), [choose_coin] combines nothing: it returns a
    largest coin of the wallet at once and leaves the network as it was. *)
Theorem choose_coin_single_coin `{Chia} `{SpendSim}
    (fuel : nat) (self : wref) (amt : Z) (s : Network) (w : Wallet.t)
    (big : Coin) :
  dict_get string_dec self (wallets s) = Some w ->
  0 < amt ->
  Forall (fun c => 0 <= amount c) (dict_values (Wallet.usable_coins w)) ->
  In big (dict_values (Wallet.usable_coins w)) ->
  amt <= amount big ->
  exists c,
    choose_coin (S fuel) self amt s = Return (Some c) s /\
    In c (dict_values (Wallet.usable_coins w)) /\
    forall x, In x (dict_values (Wallet.usable_coins w)) ->
              amount x <= amount c.
Proof.
  intros Hw Hpos Hnn Hin Hbig.
  destruct (single_coin_selected amt _ big Hpos Hnn Hin Hbig)
    as (c & Esel & Hc & Hmax).
  exists c. split; [|split; assumption].
  cbn [choose_coin]. unfold bind at 1. rewrite (get_wallet_some _ _ _ Hw).
  cbv zeta. rewrite Esel. reflexivity.
Qed.

(** [choose_coin_single_coin] at a request of 4 from three coins of 10. *)
Lemma choose_coin_single_coin_witness :
  exists c,
    choose_coin 1 Toy.alice 4 Toy.toy = Return (Some c) Toy.toy /\
    In c (dict_values (Wallet.usable_coins (Toy.wallet_of Toy.alice Toy.toy))) /\
    forall x,
      In x (dict_values (Wallet.usable_coins (Toy.wallet_of Toy.alice Toy.toy))) ->
      amount x <= amount c.
Proof.
  apply (choose_coin_single_coin 0 Toy.alice 4 Toy.toy _ Toy.c0 toy_alice).
  - lia.
  - vm_compute. repeat constructor; discriminate.
  - vm_compute. left. reflexivity.
  - vm_compute. discriminate.
Defined.

(** X13: asked for an amount of zero or less (no amount being negative),
    [choose_coin] raises [IndexError] when the wallet holds an even number
    of coins, none included: the selector returns the empty list and
    [combine_coins] reads [coins[-1]] of it.  With an odd number of coins it
    returns the coin the wallet lists last.  The network is unchanged in
    both cases. *)
Theorem choose_coin_nonpositive_amount `{Chia} `{SpendSim}
    (fuel : nat) (self : wref) (amt : Z) (s : Network) (w : Wallet.t)
    (d : Coin) :
  dict_get string_dec self (wallets s) = Some w ->
  amt <= 0 ->
  Forall (fun c => 0 <= amount c) (dict_values (Wallet.usable_coins w)) ->
  choose_coin (S fuel) self amt s
  = if Nat.even (length (Wallet.usable_coins w))
    then Raise IndexError s
    else Return (Some (last (dict_values (Wallet.usable_coins w)) d)) s.
Proof.
  intros Hw Hle Hnn.
  cbn [choose_coin]. unfold bind at 1. rewrite (get_wallet_some _ _ _ Hw).
  cbv zeta. rewrite (selection_nonpositive amt _ d Hle Hnn).
  destruct (Nat.even _); [|reflexivity].
  unfold bind at 1. unfold combine_coins. unfold bind at 1.
  rewrite (get_wallet_some _ _ _ Hw). reflexivity.
Qed.

(** [choose_coin_nonpositive_amount] at a request of 0 from a wallet that
    was just made and holds no coin. *)
Lemma choose_coin_nonpositive_amount_witness :
  let s := Toy.the_state (Toy.state_after (make_wallet "alice") create) in
  choose_coin 1 Toy.alice 0 s = Raise IndexError s.
Proof.
  cbv zeta.
  apply (choose_coin_nonpositive_amount 0 Toy.alice 0
           (Toy.the_state (Toy.state_after (make_wallet "alice") create))
           (Wallet.init "alice" (public_key_for_index 1)
                        (private_key_for_index 1))
           Toy.c0).
  - vm_compute. reflexivity.
  - lia.
  - constructor.
Defined.

(** ** Value in, value out *)

Lemma created_amounts_app (l1 l2 : list Program) :
  created_amounts (l1 ++ l2) = created_amounts l1 ++ created_amounts l2.
Proof. unfold created_amounts. apply flat_map_app. Qed.

Lemma combine_assert_spends `{Chia} (sk : bytes) (conditions : Program)
    (coins : list CoinWrapper.t) :
  map (fun cs => coin cs)
      (map fst (map (fun c => CoinWrapper.create_standard_spend c sk conditions)
                    coins))
  = map CoinWrapper.as_coin coins.
Proof.
  rewrite !map_map. apply map_ext. intros c. reflexivity.
Qed.

Lemma combine_assert_creates `{Chia} (sk : bytes) (h : bytes)
    (coins : list CoinWrapper.t) :
  flat_map (fun cs => created_amounts (standard_conditions (solution cs)))
    (map fst
       (map (fun c =>
               CoinWrapper.create_standard_spend c sk
                 (PList [PList [POp ASSERT_COIN_ANNOUNCEMENT; PBytes h]]))
            coins))
  = [].
Proof.
  induction coins as [|c l IH]; [reflexivity|]. cbn. exact IH.
Qed.

Lemma conserves_of_parts (bundle : SpendBundle) (coins : list CoinWrapper.t) :
  map (fun cs => coin cs) (coin_solutions bundle)
  = map CoinWrapper.as_coin coins ->
  bundle_created bundle = [sum (map CoinWrapper.amount coins)] ->
  map (fun cs => coin cs) (coin_solutions bundle)
  = map CoinWrapper.as_coin coins /\
  bundle_created bundle = [sum (map CoinWrapper.amount coins)] /\
  sum (bundle_created bundle)
  = sum (amounts (map (fun cs => coin cs) (coin_solutions bundle))).
Proof.
  intros Hs Hc. split; [exact Hs|]. split; [exact Hc|].
  rewrite Hc, Hs. unfold amounts. rewrite map_map.
  rewrite sum_cons, sum_nil.
  replace (map (fun x => amount (CoinWrapper.as_coin x)) coins)
    with (map CoinWrapper.amount coins) by (apply map_ext; reflexivity).
  lia.
Qed.

Lemma combine_bundle_parts `{Chia}
    (w : Wallet.t) (coins : list CoinWrapper.t) :
  match combine_spend_bundle w coins with
  | inl e =>
      (e = IndexError /\ coins = []) \/
      (e = OverflowError /\ coins <> [] /\
       uint64_ok (sum (map CoinWrapper.amount coins)) = false)
  | inr bundle =>
      uint64_ok (sum (map CoinWrapper.amount coins)) = true /\
      map (fun cs => coin cs) (coin_solutions bundle)
      = map CoinWrapper.as_coin coins /\
      bundle_created bundle = [sum (map CoinWrapper.amount coins)] /\
      sum (bundle_created bundle)
      = sum (amounts (map (fun cs => coin cs) (coin_solutions bundle)))
  end.
Proof.
  destruct coins as [|c0 l]; [left; split; reflexivity|].
  unfold combine_spend_bundle, uint64. cbv zeta.
  set (coins := c0 :: l).
  assert (Hne : coins <> []) by discriminate.
  assert (Hsplit := app_removelast_last c0 Hne).
  set (lastc := last coins c0) in *.
  destruct (uint64_ok (sum (map CoinWrapper.amount coins))) eqn:Hfits.
  2:{ right. split; [reflexivity|]. split; [exact Hne | reflexivity]. }
  split; [reflexivity|].
  apply conserves_of_parts.
  - cbn [coin_solutions]. rewrite map_app, combine_assert_spends.
    transitivity (map CoinWrapper.as_coin (removelast coins ++ [lastc]));
      [rewrite map_app; reflexivity | rewrite <- Hsplit; reflexivity].
  - unfold bundle_created. cbn [coin_solutions].
    rewrite flat_map_app, combine_assert_creates. reflexivity.
Qed.

(** X14: for a non-empty list of coins whose amounts sum to a [uint64],
    the bundle [combine_coins] builds spends the given coins, each once and
    in the given order, and all its spends together create one coin, of the
    sum of their amounts: what goes in comes out.  No bundle is built for
    the empty list, where [coins[-1]] raises [IndexError], nor for a sum
    that is no [uint64], where the making of the merged coin raises
    [OverflowError]. *)
Theorem combine_bundle_conserves `{Chia}
    (w : Wallet.t) (coins : list CoinWrapper.t) :
  match combine_spend_bundle w coins with
  | inl e =>
      (e = IndexError /\ coins = []) \/
      (e = OverflowError /\ coins <> [] /\
       uint64_ok (sum (map CoinWrapper.amount coins)) = false)
  | inr bundle =>
      uint64_ok (sum (map CoinWrapper.amount coins)) = true /\
      map (fun cs => coin cs) (coin_solutions bundle)
      = map CoinWrapper.as_coin coins /\
      bundle_created bundle = [sum (map CoinWrapper.amount coins)] /\
      sum (bundle_created bundle)
      = sum (amounts (map (fun cs => coin cs) (coin_solutions bundle)))
  end.
Proof. apply combine_bundle_parts. Qed.

(** X15: the bundle [launch_contract] builds once [choose_coin] returned a
    funding coin spends that coin alone, and the coins it creates, the first
    of them of the requested amount, add up to the funding coin's amount:
    nothing of it is lost. *)
Theorem launch_contract_conserves `{Chia} `{SpendSim}
    (fuel : nat) (self : wref) (source : Program) (kw_amt : option Z)
    (s s1 : Network) (w : Wallet.t) (found_coin : Coin) :
  let amt := match kw_amt with Some a => a | None => 1 end in
  let bundle :=
    launch_spend_bundle w (ContractWrapper.mk GENESIS_CHALLENGE source)
                        found_coin amt in
  choose_coin fuel self amt s = Return (Some found_coin) s1 ->
  map (fun cs => coin cs) (coin_solutions bundle) = [found_coin] /\
  hd_error (bundle_created bundle) = Some amt /\
  sum (bundle_created bundle) = amount found_coin.
Proof.
  cbv zeta. intros Hc. assert (Hge := choose_coin_covers _ _ _ _ _ _ Hc).
  unfold launch_spend_bundle, bundle_created, launch_conditions. cbv zeta.
  cbn [coin_solutions map coin flat_map solution standard_conditions].
  rewrite app_nil_r.
  destruct (_ <? amount found_coin) eqn:E.
  - cbn. split; [reflexivity|]. split; [reflexivity|].
    rewrite !sum_cons, sum_nil. lia.
  - cbn. split; [reflexivity|]. split; [reflexivity|].
    apply Z.ltb_ge in E. rewrite sum_cons, sum_nil. lia.
Qed.

(** [launch_contract_conserves] at a launch of 4 funded by a coin of 10. *)
Lemma launch_contract_conserves_witness :
  let bundle :=
    launch_spend_bundle (Toy.wallet_of Toy.alice Toy.toy)
      (ContractWrapper.mk GENESIS_CHALLENGE Toy.src) Toy.c0 4 in
  choose_coin 3 Toy.alice 4 Toy.toy = Return (Some Toy.c0) Toy.toy /\
  map (fun cs => coin cs) (coin_solutions bundle) = [Toy.c0] /\
  hd_error (bundle_created bundle) = Some 4 /\
  sum (bundle_created bundle) = 10.
Proof.
  split; [exact toy_choose_4|].
  exact (launch_contract_conserves 3 Toy.alice Toy.src (Some 4) Toy.toy
           Toy.toy (Toy.wallet_of Toy.alice Toy.toy) Toy.c0 toy_choose_4).
Defined.

(** ** Spending a coin *)

(** X16: with [args=] given, [spend_coin] takes the solution as it is, and
    [amt=], [to=] and [remain=] count for nothing: the call does what it
    does with [args=] alone, even for a remainder recipient that would
    otherwise raise. *)
Theorem spend_coin_explicit_args `{Chia} `{SpendSim}
    (self : wref) (coin : CoinWrapper.t) (kwargs : SpendKwargs)
    (args : Program) (s : Network) (w : Wallet.t) :
  dict_get string_dec self (wallets s) = Some w ->
  kw_args kwargs = Some args ->
  spend_solution self coin kwargs s = Return args s /\
  spend_coin self coin kwargs s
  = spend_coin self coin (mkSpendKwargs None (Some args) None None) s.
Proof.
  intros Hw Hargs.
  assert (Hsol : forall kw, kw_args kw = Some args ->
                            spend_solution self coin kw s = Return args s).
  { intros kw Hkw. unfold spend_solution. cbv zeta. unfold bind at 1.
    rewrite (get_wallet_some _ _ _ Hw), Hkw. reflexivity. }
  split; [apply Hsol; exact Hargs|].
  assert (Hrun : forall kw,
             kw_args kw = Some args ->
             spend_coin self coin kw s
             = (signature <-
                  lift (sign_coin_solutions
                          [mkCoinSolution (CoinWrapper.as_coin coin)
                             (CoinWrapper.puzzle coin) args]
                          (pk_to_sk w) AGG_SIG_ME_ADDITIONAL_DATA
                          MAX_BLOCK_COST_CLVM) ;;
                pushed <-
                  push_tx (mkSpendBundle
                             [mkCoinSolution (CoinWrapper.as_coin coin)
                                (CoinWrapper.puzzle coin) args]
                             signature) ;;
                ret (SpendResult.init pushed)) s).
  { intros kw Hkw. unfold spend_coin. unfold bind at 1.
    rewrite (get_wallet_some _ _ _ Hw). unfold bind at 1.
    rewrite (Hsol kw Hkw). reflexivity. }
  rewrite (Hrun kwargs Hargs). symmetry. apply Hrun. reflexivity.
Qed.

(** [spend_coin_explicit_args] at an empty solution, with an unknown
    recipient and an invalid remainder recipient beside it. *)
Lemma spend_coin_explicit_args_witness :
  let kwargs :=
    mkSpendKwargs (Some 7) (Some (PList [])) (Some "ghost"%string)
                  (Some RemainOther) in
  let coin := (wrap_coin (Wallet.puzzle (Toy.wallet_of Toy.alice Toy.toy)) Toy.c0) in
  spend_solution Toy.alice coin kwargs Toy.toy = Return (PList []) Toy.toy /\
  spend_coin Toy.alice coin kwargs Toy.toy
  = spend_coin Toy.alice coin (mkSpendKwargs None (Some (PList [])) None None)
      Toy.toy.
Proof.
  exact (spend_coin_explicit_args Toy.alice (wrap_coin (Wallet.puzzle (Toy.wallet_of Toy.alice Toy.toy)) Toy.c0)
           (mkSpendKwargs (Some 7) (Some (PList [])) (Some "ghost"%string)
                          (Some RemainOther))
           (PList []) Toy.toy (Toy.wallet_of Toy.alice Toy.toy)
           toy_alice eq_refl).
Defined.

Section SpendFacts.
Context `{Chia} `{SpendSim}.

(** The recipient's puzzle hash, as [spend_solution] reads it. *)
Lemma spend_target_run (s : Network) (w : Wallet.t) (to : option wref)
    (target_ph : bytes32) :
  recipient_hash s w to = Some target_ph ->
  (match to with
   | Some to => t <- get_wallet to ;; ret (Wallet.puzzle_hash t)
   | None => ret (Wallet.puzzle_hash w)
   end) s = Return target_ph s.
Proof.
  unfold recipient_hash. destruct to as [to|].
  - unfold bind, get_wallet.
    destruct (dict_get string_dec to (wallets s)); [|discriminate].
    intros [= <-]. reflexivity.
  - intros [= <-]. reflexivity.
Qed.

(** [spend_solution] returns in the state it started from. *)
Lemma spend_solution_state (self : wref) (coin : CoinWrapper.t)
    (kwargs : SpendKwargs) (s s1 : Network) (sol : Program) :
  spend_solution self coin kwargs s = Return sol s1 -> s1 = s.
Proof.
  unfold spend_solution. cbv zeta. unfold bind at 1, get_wallet.
  destruct (dict_get string_dec self (wallets s)) as [w|]; [|discriminate].
  destruct (kw_args kwargs) as [args|]; [intros [= _ <-]; reflexivity|].
  unfold bind at 1.
  destruct (kw_to kwargs) as [to|].
  - unfold bind at 1, get_wallet.
    destruct (dict_get string_dec to (wallets s)); [|discriminate].
    unfold ret at 1. unfold bind at 1.
    destruct (kw_remain kwargs) as [[c|r|]|]; try discriminate.
    + intros [= _ <-]; reflexivity.
    + unfold bind at 1, get_wallet.
      destruct (dict_get string_dec r (wallets s)); [|discriminate].
      intros [= _ <-]; reflexivity.
    + intros [= _ <-]; reflexivity.
  - unfold ret at 1. unfold bind at 1.
    destruct (kw_remain kwargs) as [[c|r|]|]; try discriminate.
    + intros [= _ <-]; reflexivity.
    + unfold bind at 1, get_wallet.
      destruct (dict_get string_dec r (wallets s)); [|discriminate].
      intros [= _ <-]; reflexivity.
    + intros [= _ <-]; reflexivity.
Qed.

End SpendFacts.

(** X17: without [args=], a remainder recipient that is neither a contract
    nor a wallet makes [spend_coin] raise [ValueError] before anything is
    signed or pushed: the network, its ledger included, is as it was. *)
Theorem spend_coin_invalid_remainer `{Chia} `{SpendSim}
    (self : wref) (coin : CoinWrapper.t) (kwargs : SpendKwargs)
    (s : Network) (w : Wallet.t) (target_ph : bytes32) :
  dict_get string_dec self (wallets s) = Some w ->
  kw_args kwargs = None ->
  kw_remain kwargs = Some RemainOther ->
  recipient_hash s w (kw_to kwargs) = Some target_ph ->
  spend_coin self coin kwargs s
  = Raise (ValueError "remainer is not a wallet or a contract") s.
Proof.
  intros Hw Hargs Hremain Hto.
  unfold spend_coin. unfold bind at 1. rewrite (get_wallet_some _ _ _ Hw).
  unfold bind at 1. unfold spend_solution. cbv zeta. unfold bind at 1.
  rewrite (get_wallet_some _ _ _ Hw), Hargs, Hremain.
  unfold bind at 1. rewrite (spend_target_run _ _ _ _ Hto). reflexivity.
Qed.

(** [spend_coin_invalid_remainer] at a spend of a coin of [alice]. *)
Lemma spend_coin_invalid_remainer_witness :
  spend_coin Toy.alice
    (wrap_coin (Wallet.puzzle (Toy.wallet_of Toy.alice Toy.toy)) Toy.c0)
    (mkSpendKwargs (Some 3) None None (Some RemainOther)) Toy.toy
  = Raise (ValueError "remainer is not a wallet or a contract") Toy.toy.
Proof.
  exact (spend_coin_invalid_remainer Toy.alice _
           (mkSpendKwargs (Some 3) None None (Some RemainOther))
           Toy.toy (Toy.wallet_of Toy.alice Toy.toy)
           (Wallet.puzzle_hash (Toy.wallet_of Toy.alice Toy.toy))
           toy_alice eq_refl eq_refl eq_refl).
Defined.

(** X18: when the ledger rejects the spend, [spend_coin] does not raise:
    it returns a [SpendResult] with the ledger's reason as its error and no
    outputs, no block is farmed, and time and wallets are as they were. *)
Theorem spend_coin_rejected_returns `{Chia} `{SpendSim}
    (self : wref) (coin : CoinWrapper.t) (kwargs : SpendKwargs)
    (s s1 : Network) (w : Wallet.t) (sol : Program) (signature : bytes)
    (sim1 : Sim) (reason : string) :
  let solution_for_coin :=
    mkCoinSolution (CoinWrapper.as_coin coin) (CoinWrapper.puzzle coin) sol in
  dict_get string_dec self (wallets s) = Some w ->
  spend_solution self coin kwargs s = Return sol s1 ->
  sign_coin_solutions [solution_for_coin] (pk_to_sk w)
    AGG_SIG_ME_ADDITIONAL_DATA MAX_BLOCK_COST_CLVM = inr signature ->
  sim_push_tx (sim s) (mkSpendBundle [solution_for_coin] signature)
  = (sim1, Some reason) ->
  exists r,
    spend_coin self coin kwargs s
    = Return r (mkNetwork (time s) sim1 (wallets s) (nobody s)) /\
    SpendResult.error r = Some reason /\
    SpendResult.outputs r = [] /\
    forall ph, SpendResult.find_standard_coins r ph = [].
Proof.
  cbv zeta. intros Hw Hsol Hsig Hrej.
  assert (Hs := spend_solution_state _ _ _ _ _ _ Hsol). subst s1.
  exists (SpendResult.init (ErrorDict reason)).
  split; [|repeat split].
  unfold spend_coin. unfold bind at 1. rewrite (get_wallet_some _ _ _ Hw).
  unfold bind at 1. rewrite Hsol. cbv zeta. unfold bind at 1.
  rewrite Hsig. unfold lift, ret at 1. unfold bind at 1.
  unfold push_tx. unfold bind at 1, get. rewrite Hrej.
  reflexivity.
Qed.

(** [spend_coin_rejected_returns] at a spend of 11 out of a coin of 10,
    which the ledger rejects for its negative remainder. *)
Lemma spend_coin_rejected_returns_witness :
  exists r,
    spend_coin Toy.alice
      (wrap_coin (Wallet.puzzle (Toy.wallet_of Toy.alice Toy.toy)) Toy.c0)
      Toy.overspend Toy.toy
    = Return r (mkNetwork (time Toy.toy) (sim Toy.toy) (wallets Toy.toy)
                          (nobody Toy.toy)) /\
    SpendResult.error r = Some "COIN_AMOUNT_NEGATIVE"%string /\
    SpendResult.outputs r = [] /\
    forall ph, SpendResult.find_standard_coins r ph = [].
Proof.
  apply (spend_coin_rejected_returns Toy.alice
           (wrap_coin (Wallet.puzzle (Toy.wallet_of Toy.alice Toy.toy)) Toy.c0)
           Toy.overspend Toy.toy Toy.toy (Toy.wallet_of Toy.alice Toy.toy)
           (PList [PList [];
                   PTuple (PInt 1)
                     (PList [PList [POp CREATE_COIN;
                                    PBytes (Toy.b "#p2 pk1"); PInt 11];
                             PList [POp CREATE_COIN;
                                    PBytes (Toy.b "#p2 pk1"); PInt (-1)]]);
                   PList []])
           (Toy.b "sig") (sim Toy.toy) "COIN_AMOUNT_NEGATIVE"%string
           toy_alice).
  - vm_compute. reflexivity.
  - reflexivity.
  - vm_compute. reflexivity.
Defined.

(** X19: without [args=], the coins a [spend_coin] solution creates add up
    to the coin's amount when [remain=] is given, whatever [amt] is, and to
    [amt] alone (1 when [amt=] is not given) when it is not: the rest of the
    coin is then in no output. *)
Theorem spend_coin_outputs_total `{Chia} `{SpendSim}
    (self : wref) (coin : CoinWrapper.t) (kwargs : SpendKwargs)
    (s s1 : Network) (sol : Program) :
  let amt := match kw_amt kwargs with Some a => a | None => 1 end in
  kw_args kwargs = None ->
  spend_solution self coin kwargs s = Return sol s1 ->
  s1 = s /\
  hd_error (created_amounts (standard_conditions sol)) = Some amt /\
  sum (created_amounts (standard_conditions sol))
  = match kw_remain kwargs with
    | Some _ => CoinWrapper.amount coin
    | None => amt
    end.
Proof.
  cbv zeta. intros Hargs Hsol.
  split; [exact (spend_solution_state _ _ _ _ _ _ Hsol)|].
  revert Hsol. unfold spend_solution. cbv zeta. unfold bind at 1.
  destruct (dict_get string_dec self (wallets s)) as [w|] eqn:Ew;
    [rewrite (get_wallet_some _ _ _ Ew)
    |unfold get_wallet; rewrite Ew; discriminate].
  rewrite Hargs. unfold bind at 1.
  set (target := match kw_to kwargs with
                 | Some to => t <- get_wallet to ;; ret (Wallet.puzzle_hash t)
                 | None => ret (Wallet.puzzle_hash w)
                 end).
  destruct (target s) as [ph s2|e s2|]; try discriminate.
  unfold bind at 1.
  destruct (kw_remain kwargs) as [[c|r|]|]; try discriminate.
  - intros [= <- _]. cbn. split; [reflexivity|].
    rewrite !sum_cons, sum_nil. lia.
  - unfold bind at 1.
    destruct (get_wallet r s2) as [rw s3|e s3|]; try discriminate.
    intros [= <- _]. cbn. split; [reflexivity|].
    rewrite !sum_cons, sum_nil. lia.
  - intros [= <- _]. cbn. split; [reflexivity|].
    rewrite sum_cons, sum_nil. lia.
Qed.

(** [spend_coin_outputs_total] at a spend of 3 out of a coin of 10, without
    [remain=]. *)
Lemma spend_coin_outputs_total_witness :
  exists sol,
    spend_solution Toy.alice
      (wrap_coin (Wallet.puzzle (Toy.wallet_of Toy.alice Toy.toy)) Toy.c0)
      (mkSpendKwargs (Some 3) None None None) Toy.toy
    = Return sol Toy.toy /\
    sum (created_amounts (standard_conditions sol)) = 3.
Proof.
  eexists. 
  assert (Hs : spend_solution Toy.alice
      (wrap_coin (Wallet.puzzle (Toy.wallet_of Toy.alice Toy.toy)) Toy.c0)
      (mkSpendKwargs (Some 3) None None None) Toy.toy
    = Return
        (PList [PList [];
                PTuple (PInt 1)
                  (PList [PList [POp CREATE_COIN;
                                 PBytes (Toy.b "#p2 pk1"); PInt 3]]);
                PList []]) Toy.toy) by (vm_compute; reflexivity).
  split; [exact Hs|].
  exact (proj2 (proj2 (spend_coin_outputs_total Toy.alice _
                         (mkSpendKwargs (Some 3) None None None)
                         Toy.toy Toy.toy _ eq_refl Hs))).
Defined.

(** ** The coin sets after a block *)

Section DictMore.
Context {K V : Type} (K_eq_dec : forall a b : K, {a = b} + {a <> b}).

Lemma dict_set_fresh (k : K) (v : V) (d : dict K V) :
  ~ In k (dict_keys d) -> dict_set K_eq_dec k v d = d ++ [(k, v)].
Proof.
  induction d as [|[k0 v0] d IH]; intros Hn; [reflexivity|].
  cbn [dict_set]. destruct (K_eq_dec k0 k) as [->|Hne].
  - exfalso. apply Hn. left. reflexivity.
  - cbn [app]. f_equal. apply IH. intros Hin. apply Hn. right. exact Hin.
Qed.

End DictMore.

Lemma coin_dict_fresh `{Chia} (cs : list Coin) :
  forall d : dict bytes32 Coin,
    NoDup (map coin_name cs) ->
    (forall c, In c cs -> ~ In (coin_name c) (dict_keys d)) ->
    coin_dict cs d = d ++ map (fun c => (coin_name c, c)) cs.
Proof.
  induction cs as [|c cs IH]; intros d Hnd Hfresh.
  - cbn. rewrite app_nil_r. reflexivity.
  - change (coin_dict (c :: cs) d)
      with (coin_dict cs (dict_set bytes_eq_dec (coin_name c) c d)).
    inversion Hnd as [|x l Hnotin Hnd']; subst.
    rewrite (dict_set_fresh bytes_eq_dec);
      [|apply Hfresh; left; reflexivity].
    rewrite IH; [rewrite <- app_assoc; reflexivity | exact Hnd' |].
    intros c' Hin' Hk. unfold dict_keys in Hk. rewrite map_app in Hk.
    apply in_app_or in Hk. destruct Hk as [Hk|[Hk|[]]].
    + apply (Hfresh c' (or_intror Hin')). exact Hk.
    + cbn in Hk. apply Hnotin. rewrite Hk. apply in_map. exact Hin'.
Qed.

(** X20: after [farm_block], a wallet whose listed unspent coins have
    distinct ids holds exactly those coins, in the order the ledger lists
    them, each under its id, and its balance is the sum of their amounts. *)
Theorem farm_block_balance `{Chia} `{SpendSim}
    (farmer : option wref) (s s' : Network) (farmed : list Coin * list Coin)
    (k : wref) (w' : Wallet.t) :
  let listed :=
    unspent_coins (get_coin_records_by_puzzle_hash (sim s')
                     (Wallet.puzzle_hash w')) in
  farm_block farmer s = Return farmed s' ->
  In (k, w') (wallets s') ->
  NoDup (map coin_name listed) ->
  dict_values (Wallet.usable_coins w') = listed /\
  dict_keys (Wallet.usable_coins w') = map coin_name listed /\
  Wallet.balance w' = sum (amounts listed).
Proof.
  cbv zeta. intros Hrun Hin Hnd.
  destruct (dict_get string_dec
              (match farmer with Some f => f | None => nobody s end)
              (wallets s)) as [fw|] eqn:Ef.
  2:{ unfold farm_block, bind, get, get_wallet in Hrun. rewrite Ef in Hrun.
      discriminate. }
  destruct (farm_block_run farmer s fw Ef) as (s2 & Hrun2 & _ & _ & _ & Hws).
  rewrite Hrun in Hrun2. injection Hrun2 as _ <-.
  rewrite Hws in Hin. apply in_map_iff in Hin.
  destruct Hin as ([k0 w0] & Heq & _). cbn [fst snd] in Heq.
  injection Heq as _ <-.
  rewrite add_unspent_puzzle_hash in *.
  cbn [Wallet.puzzle_hash Wallet._clear_coins] in *.
  set (listed := unspent_coins
                   (get_coin_records_by_puzzle_hash (sim s')
                      (Wallet.puzzle_hash w0))) in *.
  assert (Hd : Wallet.usable_coins
                 (add_unspent (Wallet._clear_coins w0)
                    (get_coin_records_by_puzzle_hash (sim s')
                       (Wallet.puzzle_hash w0)))
               = map (fun c => (coin_name c, c)) listed).
  { rewrite add_unspent_coins.
    cbn [Wallet.usable_coins Wallet._clear_coins]. fold listed.
    rewrite (coin_dict_fresh listed [] Hnd); [reflexivity|].
    intros c _ []. }
  unfold Wallet.balance. rewrite Hd. unfold dict_values, dict_keys.
  rewrite !map_map. cbn [fst snd]. rewrite map_id.
  repeat split; reflexivity.
Qed.

(** [farm_block_balance] at the first block farmed for a wallet. *)
Lemma farm_block_balance_witness :
  let s := Toy.the_state (Toy.state_after (make_wallet "alice") create) in
  let s' := Toy.the_state (farm_block (Some Toy.alice) s) in
  let w' := Toy.wallet_of Toy.alice s' in
  farm_block (Some Toy.alice) s = Return ([], []) s' /\
  map amount (dict_values (Wallet.usable_coins w')) = [10] /\
  Wallet.balance w'
  = sum (amounts (unspent_coins
                    (get_coin_records_by_puzzle_hash (sim s')
                       (Wallet.puzzle_hash w')))).
Proof.
  cbv zeta.
  assert (Hrun : farm_block (Some Toy.alice)
                   (Toy.the_state
                      (Toy.state_after (make_wallet "alice") create))
                 = Return ([], [])
                     (Toy.the_state
                        (farm_block (Some Toy.alice)
                           (Toy.the_state
                              (Toy.state_after (make_wallet "alice") create)))))
    by (vm_compute; reflexivity).
  split; [exact Hrun|]. split; [vm_compute; reflexivity|].
  refine (proj2 (proj2 (farm_block_balance (Some Toy.alice) _ _ _ Toy.alice _
                          Hrun _ _))).
  - vm_compute. right. left. reflexivity.
  - vm_compute. constructor; [intros []|constructor].
Defined.

Lemma dict_set_sum (k : bytes32) (c : Coin) (d : dict bytes32 Coin) :
  sum (map amount (map snd (dict_set bytes_eq_dec k c d)))
  = sum (map amount (map snd d)) + amount c
    - match dict_get bytes_eq_dec k d with
      | Some old => amount old
      | None => 0
      end.
Proof.
  induction d as [|[k0 c0] d IH]; cbn [dict_set dict_get].
  - cbn [map snd]. rewrite sum_cons, sum_nil. lia.
  - destruct (bytes_eq_dec k0 k); cbn [map snd]; rewrite !sum_cons.
    + unfold bytes32 in *. lia.
    + rewrite IH. unfold bytes32 in *. lia.
Qed.

Lemma dict_set_length (k : bytes32) (c : Coin) (d : dict bytes32 Coin) :
  len (dict_set bytes_eq_dec k c d)
  = len d + match dict_get bytes_eq_dec k d with
            | Some _ => 0
            | None => 1
            end.
Proof.
  unfold len. induction d as [|[k0 c0] d IH]; cbn [dict_set dict_get].
  - reflexivity.
  - destruct (bytes_eq_dec k0 k); cbn [length]; unfold bytes32 in *.
    + lia.
    + rewrite !Nat2Z.inj_succ, IH. lia.
Qed.

(** X21: [add_coin] files the coin under its id: the balance grows by the
    coin's amount, less the amount of the coin that was filed under the
    same id, if there was one, which the new coin replaces. *)
Theorem add_coin_balance `{Chia} (w : Wallet.t) (c : Coin) :
  Wallet.balance (Wallet.add_coin w c)
  = Wallet.balance w + amount c
    - match dict_get bytes_eq_dec (coin_name c) (Wallet.usable_coins w) with
      | Some old => amount old
      | None => 0
      end
  /\
  dict_get bytes_eq_dec (coin_name c) (Wallet.usable_coins (Wallet.add_coin w c))
  = Some c
  /\
  len (Wallet.usable_coins (Wallet.add_coin w c))
  = len (Wallet.usable_coins w)
    + match dict_get bytes_eq_dec (coin_name c) (Wallet.usable_coins w) with
      | Some _ => 0
      | None => 1
      end.
Proof.
  unfold Wallet.balance, Wallet.add_coin, dict_values.
  cbn [Wallet.usable_coins].
  split; [apply dict_set_sum|]. split; [|apply dict_set_length].
  rewrite dict_get_set.
  destruct (bytes_eq_dec (coin_name c) (coin_name c)); congruence.
Qed.

(** ** Giving chia *)

(** X22: in a network reached from [Network.create()], the coin that
    [give_chia] returns is a standard coin of the target: it carries the
    target's puzzle and puzzle hash and the given amount, and its parent is
    a coin of at least that amount. *)
Theorem give_chia_pays_target `{Chia} `{SpendSim}
    (fuel : nat) (self target : wref) (amt : Z) (s s' : Network)
    (t : Wallet.t) (c : CoinWrapper.t) :
  reachable s ->
  dict_get string_dec target (wallets s) = Some t ->
  give_chia fuel self target amt s = Return (Some c) s' ->
  CoinWrapper.puzzle_hash c = Wallet.puzzle_hash t /\
  CoinWrapper.puzzle c = Wallet.puzzle t /\
  CoinWrapper.amount c = amt /\
  exists found_coin,
    CoinWrapper.parent_coin_info c = coin_name found_coin /\
    amt <= amount found_coin.
Proof.
  intros Hr Ht.
  destruct (reachable_ok s Hr) as [_ Hok].
  destruct (Hok target t (dict_get_in string_dec _ _ _ Ht)) as (_ & Hph & _).
  unfold give_chia. unfold bind at 1. rewrite (get_wallet_some _ _ _ Ht).
  unfold launch_contract. unfold bind at 1.
  destruct (choose_coin fuel self amt s) as [[found|] s1|e s1|] eqn:Ec;
    try discriminate.
  assert (Hge := choose_coin_covers _ _ _ _ _ _ Ec).
  unfold bind at 1.
  destruct (get_wallet self s1) as [w s2|e s2|]; try discriminate.
  unfold bind at 1.
  destruct (push_tx _ s2) as [[reason|additions removals] s3|e s3|];
    try discriminate.
  intros [= <- _].
  unfold ContractWrapper.custom_coin, ContractWrapper.puzzle_hash,
    CoinWrapper.puzzle.
  cbn [CoinWrapper.puzzle_hash CoinWrapper.amount CoinWrapper.source
       CoinWrapper.parent_coin_info ContractWrapper.source].
  split; [symmetry; exact Hph|]. split; [reflexivity|].
  split; [reflexivity|]. exists found. split; [reflexivity | exact Hge].
Qed.

(** [give_chia_pays_target] at a gift of 4 to [nobody] from a wallet with
    one coin of 10. *)
Lemma give_chia_pays_target_witness :
  let s :=
    Toy.the_state
      (Toy.state_after (farm_block (Some Toy.alice))
         (Toy.state_after (make_wallet "alice") create)) in
  let c :=
    ContractWrapper.custom_coin
      (ContractWrapper.mk GENESIS_CHALLENGE
         (Wallet.puzzle (Toy.wallet_of "pk0"%string s))) Toy.c0 4 in
  give_chia 2 Toy.alice "pk0"%string 4 s
  = Return (Some c) (Toy.the_state (give_chia 2 Toy.alice "pk0"%string 4 s)) /\
  CoinWrapper.puzzle_hash c = Wallet.puzzle_hash (Toy.wallet_of "pk0"%string s) /\
  CoinWrapper.amount c = 4.
Proof.
  cbv zeta.
  set (s0 := Toy.the_state (Toy.state_after (make_wallet "alice") create)).
  set (s := Toy.the_state
              (Toy.state_after (farm_block (Some Toy.alice))
                 (Toy.state_after (make_wallet "alice") create))).
  assert (Hr : reachable s).
  { apply (reach_call s0 s (CallFarmBlock (Some Toy.alice)));
      [|vm_compute; reflexivity].
    apply (reach_call (Toy.the_state create) s0 (CallMakeWallet "alice"));
      [|vm_compute; reflexivity].
    apply reach_create. vm_compute. reflexivity. }
  assert (Ht : dict_get string_dec "pk0"%string (wallets s)
               = Some (Toy.wallet_of "pk0"%string s)) by (vm_compute; reflexivity).
  assert (Hg : give_chia 2 Toy.alice "pk0"%string 4 s
               = Return
                   (Some (ContractWrapper.custom_coin
                            (ContractWrapper.mk GENESIS_CHALLENGE
                               (Wallet.puzzle (Toy.wallet_of "pk0"%string s)))
                            Toy.c0 4))
                   (Toy.the_state (give_chia 2 Toy.alice "pk0"%string 4 s)))
    by (vm_compute; reflexivity).
  split; [exact Hg|].
  destruct (give_chia_pays_target 2 Toy.alice "pk0"%string 4 s _ _ _ Hr Ht Hg)
    as (Hph & _ & Hamt & _).
  split; [exact Hph | exact Hamt].
Defined.

(** ** A fresh network *)

(** X23: [Network.create()] returns a network at 18750 days and 61201
    seconds, on a fresh ledger, with one wallet: [nobody], holding the keys
    of index 0 and no coin.  The key [nobody] is filed under is assigned
    twice, which leaves one entry. *)
Theorem network_create_initial `{Chia} `{SpendSim} :
  exists s nw,
    create = Return s s /\
    time s = (18750 * 86400 + 61201) * 1000000 /\
    sim s = sim_create /\
    wallets s = [(nobody s, nw)] /\
    nobody s = str_pk (public_key_for_index 0) /\
    nw = Wallet.init "nobody" (public_key_for_index 0)
                     (private_key_for_index 0) /\
    Wallet.balance nw = 0.
Proof.
  eexists. eexists. split; [exact create_returns|].
  cbn [time sim wallets nobody]. repeat split.
Qed.

(** ** One round of [choose_coin] *)

(** X24: when the selector returns two coins or more, [choose_coin] hands
    them, wrapped with the wallet's puzzle, to [combine_coins], checks the
    balance and starts over.  When the selected amounts sum to a [uint64],
    the bundle of that combine spends just the selected coins, in the
    selector's order, and creates one coin of their total, which covers the
    requested amount; when they do not, [choose_coin] raises
    [OverflowError] and the network is as it was. *)
Theorem choose_coin_combine_step `{Chia} `{SpendSim}
    (fuel : nat) (self : wref) (amt : Z) (s : Network) (w : Wallet.t)
    (sel : list Coin) :
  dict_get string_dec self (wallets s) = Some w ->
  compute_combine_action amt (@nil unit) (Wallet.usable_coins w) = Some sel ->
  (2 <= length sel)%nat ->
  choose_coin (S fuel) self amt s
  = (combine_coins self (map (wrap_coin (Wallet.puzzle w)) sel) ;;
     w' <- get_wallet self ;;
     assert_ (Wallet.balance w' =? Wallet.balance w) ;;
     choose_coin fuel self amt) s /\
  amt <= sum (amounts sel) /\
  (uint64_ok (sum (amounts sel)) = false ->
   choose_coin (S fuel) self amt s = Raise OverflowError s) /\
  (uint64_ok (sum (amounts sel)) = true ->
   exists bundle,
     combine_spend_bundle w (map (wrap_coin (Wallet.puzzle w)) sel)
     = inr bundle /\
     map (fun cs => coin cs) (coin_solutions bundle) = sel /\
     bundle_created bundle = [sum (amounts sel)]).
Proof.
  intros Hw Hsel Hlen.
  assert (Hstep : choose_coin (S fuel) self amt s
                  = (combine_coins self (map (wrap_coin (Wallet.puzzle w)) sel) ;;
                     w' <- get_wallet self ;;
                     assert_ (Wallet.balance w' =? Wallet.balance w) ;;
                     choose_coin fuel self amt) s).
  { cbn [choose_coin]. unfold bind at 1. rewrite (get_wallet_some _ _ _ Hw).
    cbv zeta. rewrite Hsel.
    destruct sel as [|x [|y l]]; cbn [length] in Hlen; try lia.
    reflexivity. }
  assert (Hamounts : map CoinWrapper.amount
                       (map (wrap_coin (Wallet.puzzle w)) sel)
                     = amounts sel).
  { rewrite map_map. reflexivity. }
  assert (Hparts := combine_bundle_parts w
                      (map (wrap_coin (Wallet.puzzle w)) sel)).
  rewrite Hamounts in Hparts.
  split; [exact Hstep|]. split; [|split].
  - rewrite compute_combine_action_search in Hsel.
    destruct (search_of_basic amt (Wallet.usable_coins w)) as [Htot _ _].
    destruct (_ >=? amt) eqn:E; [|discriminate].
    injection Hsel as <-. rewrite <- Htot. apply Z.geb_le. exact E.
  - intros Hover. rewrite Hstep. unfold bind at 1, combine_coins.
    unfold bind at 1. rewrite (get_wallet_some _ _ _ Hw). cbv zeta.
    unfold bind at 1.
    destruct (combine_spend_bundle w (map (wrap_coin (Wallet.puzzle w)) sel))
      as [e|bundle].
    + destruct Hparts as [[_ Hnil]|[-> _]]; [|reflexivity].
      destruct sel; [cbn in Hlen; lia | discriminate Hnil].
    + destruct Hparts as [Hfits _]. congruence.
  - intros Hfits.
    destruct (combine_spend_bundle w (map (wrap_coin (Wallet.puzzle w)) sel))
      as [e|bundle].
    + destruct Hparts as [[_ Hnil]|[_ [_ Hover]]]; [|congruence].
      destruct sel; [cbn in Hlen; lia | discriminate Hnil].
    + exists bundle. split; [reflexivity|].
      destruct Hparts as (_ & Hspent & Hcreated & _).
      rewrite map_map in Hspent.
      split; [|exact Hcreated].
      rewrite Hspent. rewrite <- (map_id sel) at 2. apply map_ext.
      intros [p ph a]. reflexivity.
Qed.

(** [choose_coin_combine_step] at a request of 25 from three coins of 10. *)
Lemma choose_coin_combine_step_witness :
  exists sel bundle,
    compute_combine_action 25 (@nil unit)
      (Wallet.usable_coins (Toy.wallet_of Toy.alice Toy.toy)) = Some sel /\
    map amount sel = [10; 10; 10] /\
    combine_spend_bundle (Toy.wallet_of Toy.alice Toy.toy)
      (map (wrap_coin (Wallet.puzzle (Toy.wallet_of Toy.alice Toy.toy))) sel)
    = inr bundle /\
    map (fun cs => coin cs) (coin_solutions bundle) = sel /\
    bundle_created bundle = [sum (amounts sel)].
Proof.
  assert (Hsel : compute_combine_action 25 (@nil unit)
                   (Wallet.usable_coins (Toy.wallet_of Toy.alice Toy.toy))
                 = Some (dict_values
                           (Wallet.usable_coins
                              (Toy.wallet_of Toy.alice Toy.toy))))
    by (vm_compute; reflexivity).
  assert (Hlen : (2 <= length (dict_values
                                 (Wallet.usable_coins
                                    (Toy.wallet_of Toy.alice Toy.toy))))%nat)
    by (vm_compute; repeat constructor).
  assert (Hfits : uint64_ok
                    (sum (amounts
                            (dict_values
                               (Wallet.usable_coins
                                  (Toy.wallet_of Toy.alice Toy.toy)))))
                  = true) by (vm_compute; reflexivity).
  destruct (choose_coin_combine_step 0 Toy.alice 25 Toy.toy _ _
              toy_alice Hsel Hlen)
    as (_ & _ & _ & Hbundle).
  destruct (Hbundle Hfits) as (bundle & Hb & Hspent & Hcreated).
  exists (dict_values (Wallet.usable_coins (Toy.wallet_of Toy.alice Toy.toy))).
  exists bundle. split; [exact Hsel|]. split; [vm_compute; reflexivity|].
  split; [exact Hb|]. split; [exact Hspent | exact Hcreated].
Defined.

(** ** Launching a contract: funds and exceptions *)

Section RaiseFacts.
Context `{Chia} `{SpendSim}.
Variable Q : exn -> Prop.

Lemma raises_ret {A} (a : A) : raises_only Q (ret a).
Proof. intros s e s' Hr. discriminate Hr. Qed.

Lemma raises_timeout {A} : raises_only Q (@timeout _ A).
Proof. intros s e s' Hr. discriminate Hr. Qed.

Lemma raises_raise {A} (e : exn) : Q e -> raises_only Q (@raise _ A e).
Proof. intros HQ s e' s' [= <- _]. exact HQ. Qed.

Lemma raises_bind {A B} (m : M A) (k : A -> M B) :
  raises_only Q m -> (forall a, raises_only Q (k a)) ->
  raises_only Q (bind m k).
Proof.
  intros Hm Hk s e s'. unfold bind.
  destruct (m s) as [a s1|e1 s1|] eqn:E.
  - apply Hk.
  - intros [= <- _]. apply (Hm s e1 s1 E).
  - discriminate.
Qed.

Lemma raises_get_then {A} (k : Network -> M A) :
  (forall s0, raises_only Q (k s0)) -> raises_only Q (bind get k).
Proof. intros Hk s e s'. unfold bind, get. apply Hk. Qed.

Hypothesis Q_unknown : Q UnknownWallet.
Hypothesis Q_assertion : Q AssertionError.
Hypothesis Q_index : Q IndexError.
Hypothesis Q_overflow : Q OverflowError.

Lemma raises_get_wallet (w : wref) : raises_only Q (get_wallet w).
Proof.
  intros s e s'. unfold get_wallet.
  destruct (dict_get string_dec w (wallets s)); [discriminate|].
  intros [= <- _]. exact Q_unknown.
Qed.

Lemma raises_assert (b : bool) : raises_only Q (assert_ b).
Proof.
  destruct b; [apply raises_ret | apply raises_raise; exact Q_assertion].
Qed.

Lemma raises_farm_block (farmer : option wref) :
  raises_only Q (farm_block farmer).
Proof.
  unfold farm_block. apply raises_get_then. intros s0.
  apply raises_bind; [apply raises_get_wallet|intros fw].
  destruct (sim_farm_block _ _) as [sim1 farmed].
  apply raises_bind; [|intros _; apply raises_ret].
  intros s e s' Hr. discriminate Hr.
Qed.

Lemma raises_push_tx (bundle : SpendBundle) : raises_only Q (push_tx bundle).
Proof.
  unfold push_tx. apply raises_get_then. intros s0.
  destruct (sim_push_tx _ _) as [sim1 [reason|]].
  - apply raises_bind; [|intros _; apply raises_ret].
    intros s e s' Hr. discriminate Hr.
  - apply raises_bind; [intros s e s' Hr; discriminate Hr|intros _].
    apply raises_bind; [apply raises_farm_block|intros f; apply raises_ret].
Qed.

Lemma raises_combine_coins (self : wref) (coins : list CoinWrapper.t) :
  raises_only Q (combine_coins self coins).
Proof.
  unfold combine_coins. apply raises_bind; [apply raises_get_wallet|intros w].
  cbv zeta. apply raises_bind.
  - intros s e s'. unfold combine_spend_bundle, uint64.
    destruct coins as [|c0 l]; [intros [= <- _]; exact Q_index|].
    destruct (uint64_ok _); [discriminate|].
    intros [= <- _]. exact Q_overflow.
  - intros bundle. apply raises_bind; [apply raises_push_tx|intros pushed].
    unfold combine_checks.
    apply raises_bind; [apply raises_get_wallet|intros w'].
    apply raises_bind; [apply raises_assert|intros _].
    apply raises_bind; [apply raises_assert|intros _]. apply raises_ret.
Qed.

Lemma raises_choose_coin (fuel : nat) (self : wref) (amt : Z) :
  raises_only Q (choose_coin fuel self amt).
Proof.
  induction fuel as [|fuel IH]; [apply raises_timeout|].
  cbn [choose_coin]. apply raises_bind; [apply raises_get_wallet|intros w].
  cbv zeta.
  destruct (compute_combine_action amt [] (Wallet.usable_coins w))
    as [[|x [|y l]]|]; try apply raises_ret.
  - apply raises_bind; [apply raises_combine_coins|intros _].
    apply raises_bind; [apply raises_get_wallet|intros w'].
    apply raises_bind; [apply raises_assert|intros _]. exact IH.
  - apply raises_bind; [apply raises_combine_coins|intros _].
    apply raises_bind; [apply raises_get_wallet|intros w'].
    apply raises_bind; [apply raises_assert|intros _]. exact IH.
Qed.

End RaiseFacts.

Section DictValues.
Context {K V : Type} (K_eq_dec : forall a b : K, {a = b} + {a <> b}).

Lemma dict_set_values_forall (P : V -> Prop) (k : K) (v : V) (d : dict K V) :
  P v -> Forall P (dict_values d) ->
  Forall P (dict_values (dict_set K_eq_dec k v d)).
Proof.
  intros Hv. unfold dict_values.
  induction d as [|[k0 v0] d IH]; intros Hd; cbn [dict_set map snd].
  - constructor; [exact Hv | constructor].
  - destruct (K_eq_dec k0 k); cbn [map snd].
    + constructor; [exact Hv | exact (Forall_inv_tail Hd)].
    + constructor; [exact (Forall_inv Hd) | apply IH, (Forall_inv_tail Hd)].
Qed.

End DictValues.

Section FundsFacts.
Context `{Chia} `{SpendSim}.
Variable I : Sim -> Prop.
Variable self : wref.
Hypothesis I_push : forall l bundle, I l -> I (fst (sim_push_tx l bundle)).
Hypothesis I_farm : forall l ph, I l -> I (fst (sim_farm_block l ph)).
Hypothesis I_listed :
  forall l ph r, I l -> In r (get_coin_records_by_puzzle_hash l ph) ->
                 0 <= amount (record_coin r).

Lemma coin_dict_values_forall (P : Coin -> Prop) (cs : list Coin) :
  forall d : dict bytes32 Coin,
    Forall P cs -> Forall P (dict_values d) ->
    Forall P (dict_values (coin_dict cs d)).
Proof.
  induction cs as [|c cs IH]; intros d Hcs Hd; [exact Hd|].
  change (coin_dict (c :: cs) d)
    with (coin_dict cs (dict_set bytes_eq_dec (coin_name c) c d)).
  apply IH; [exact (Forall_inv_tail Hcs)|].
  apply dict_set_values_forall; [exact (Forall_inv Hcs) | exact Hd].
Qed.

Lemma funds_farm_block (farmer : option wref) :
  preserves (funds_ok I self) (farm_block farmer).
Proof.
  intros s s' [HI Hw] Hf.
  destruct (dict_get string_dec
              (match farmer with Some f => f | None => nobody s end)
              (wallets s)) as [fw|] eqn:Ef.
  2:{ unfold farm_block, bind, get, get_wallet in Hf. rewrite Ef in Hf.
      injection Hf as <-. split; assumption. }
  destruct (farm_block_run farmer s fw Ef) as (s2 & Hrun & Hsim & _ & _ & Hws).
  rewrite Hrun in Hf. injection Hf as <-.
  assert (HI2 : I (sim s2)) by (rewrite Hsim; apply I_farm; exact HI).
  split; [exact HI2|].
  intros w' Hg. rewrite Hws in Hg.
  rewrite (dict_get_map string_dec
             (fun w0 => add_unspent (Wallet._clear_coins w0)
                          (get_coin_records_by_puzzle_hash (sim s2)
                             (Wallet.puzzle_hash w0)))) in Hg.
  destruct (dict_get string_dec self (wallets s)) as [w0|]; [|discriminate].
  injection Hg as <-. rewrite add_unspent_coins.
  apply coin_dict_values_forall; [|constructor].
  unfold unspent_coins. apply Forall_forall. intros c Hc.
  apply in_map_iff in Hc. destruct Hc as (r & <- & Hr).
  apply filter_In in Hr. destruct Hr as [Hr _].
  exact (I_listed _ _ r HI2 Hr).
Qed.

Lemma funds_push_tx (bundle : SpendBundle) :
  preserves (funds_ok I self) (push_tx bundle).
Proof.
  intros s s' [HI Hw]. unfold push_tx. unfold bind at 1, get.
  assert (HI1 := I_push (sim s) bundle HI).
  destruct (sim_push_tx (sim s) bundle) as [sim1 [reason|]];
    cbn [fst] in HI1; unfold bind at 1, put.
  - intros [= <-]. split; [exact HI1 | exact Hw].
  - unfold bind at 1. intros Hf.
    assert (Hp : funds_ok I self
                   (mkNetwork (time s) sim1 (wallets s) (nobody s)))
      by (split; [exact HI1 | exact Hw]).
    destruct (farm_block None _) as [f s1|e s1|] eqn:Ef;
      [| |discriminate].
    + injection Hf as <-.
      apply (funds_farm_block None _ s1 Hp). rewrite Ef. reflexivity.
    + injection Hf as <-.
      apply (funds_farm_block None _ s1 Hp). rewrite Ef. reflexivity.
Qed.

Lemma funds_combine_coins (coins : list CoinWrapper.t) :
  preserves (funds_ok I self) (combine_coins self coins).
Proof.
  unfold combine_coins.
  apply preserves_bind; [apply preserves_get_wallet|intros w]. cbv zeta.
  apply preserves_bind; [apply preserves_lift|intros bundle].
  apply preserves_bind; [apply funds_push_tx|intros pushed].
  unfold combine_checks.
  apply preserves_bind; [apply preserves_get_wallet|intros w'].
  apply preserves_bind; [apply preserves_assert|intros _].
  apply preserves_bind; [apply preserves_assert|intros _].
  apply preserves_ret.
Qed.

Lemma funds_choose_coin (fuel : nat) (amt : Z) :
  preserves (funds_ok I self) (choose_coin fuel self amt).
Proof.
  induction fuel as [|fuel IH]; [apply preserves_timeout|].
  cbn [choose_coin].
  apply preserves_bind; [apply preserves_get_wallet|intros w]. cbv zeta.
  destruct (compute_combine_action amt [] (Wallet.usable_coins w))
    as [[|x [|y l]]|]; try apply preserves_ret.
  - apply preserves_bind; [apply funds_combine_coins|intros _].
    apply preserves_bind; [apply preserves_get_wallet|intros w'].
    apply preserves_bind; [apply preserves_assert|intros _]. exact IH.
  - apply preserves_bind; [apply funds_combine_coins|intros _].
    apply preserves_bind; [apply preserves_get_wallet|intros w'].
    apply preserves_bind; [apply preserves_assert|intros _]. exact IH.
Qed.

(** A [None] of [choose_coin] is a [None] of the selector on the wallet as
    it is on return. *)
Lemma choose_coin_none_selector (fuel : nat) (amt : Z) :
  forall s s1,
    choose_coin fuel self amt s = Return None s1 ->
    exists w1,
      dict_get string_dec self (wallets s1) = Some w1 /\
      compute_combine_action amt (@nil unit) (Wallet.usable_coins w1) = None.
Proof.
  induction fuel as [|fuel IH]; intros s s1; [discriminate|].
  cbn [choose_coin]. unfold bind at 1.
  destruct (dict_get string_dec self (wallets s)) as [w|] eqn:Ew;
    [rewrite (get_wallet_some _ _ _ Ew)
    |unfold get_wallet; rewrite Ew; discriminate].
  cbv zeta.
  assert (Hrec : forall coins,
             (combine_coins self coins ;;
              w0 <- get_wallet self ;;
              assert_ (Wallet.balance w0 =? Wallet.balance w) ;;
              choose_coin fuel self amt) s = Return None s1 ->
             exists w1,
               dict_get string_dec self (wallets s1) = Some w1 /\
               compute_combine_action amt (@nil unit) (Wallet.usable_coins w1)
               = None).
  { intros coins. unfold bind at 1.
    destruct (combine_coins self coins s) as [r s2|e s2|]; try discriminate.
    unfold bind at 1.
    destruct (get_wallet self s2) as [w2 s3|e s3|]; try discriminate.
    unfold bind at 1.
    destruct (Wallet.balance w2 =? Wallet.balance w); cbn [assert_];
      unfold raise; [|discriminate].
    apply IH. }
  destruct (compute_combine_action amt [] (Wallet.usable_coins w))
    as [[|x [|y l]]|] eqn:Esel.
  - apply Hrec.
  - discriminate.
  - apply Hrec.
  - intros [= <-]. exists w. split; [exact Ew | exact Esel].
Qed.

End FundsFacts.

(** With amounts that are not negative and a positive target, the selector
    reports infeasibility only when the total is below the target. *)
Lemma selector_none_total (amt : Z) (usable_coins : dict bytes32 Coin) :
  0 < amt ->
  Forall (fun c => 0 <= amount c) (dict_values usable_coins) ->
  compute_combine_action amt (@nil unit) usable_coins = None ->
  sum (amounts (dict_values usable_coins)) < amt.
Proof.
  intros Hpos Hnn. rewrite compute_combine_action_search.
  destruct (search_of_inv amt usable_coins Hpos Hnn) as [Hinv Ht].
  destruct (_ >=? amt) eqn:E; [discriminate|]. intros _.
  rewrite Z.geb_leb in E. apply Z.leb_gt in E.
  destruct (inv_cover _ _ Hinv) as [Hall|Hcover].
  - rewrite <- Hall. exact E.
  - rewrite Ht in Hcover. lia.
Qed.


Section ToyLedgerFacts.

Lemma toy_valid_push (l : Toy.ledger) (bundle : SpendBundle) :
  Toy.valid_ledger l -> Toy.valid_ledger (fst (sim_push_tx l bundle)).
Proof.
  intros [Hr Hm]. cbn [sim_push_tx Toy.spend_sim]. unfold Toy.toy_push_tx.
  destruct (negb (forallb _ _)); [split; assumption|].
  destruct (negb (Toy.distinct _)); [split; assumption|].
  destruct (existsb _ _) eqn:Eneg; [split; assumption|].
  split; [exact Hr|]. cbn [fst Toy.mempool].
  apply Forall_app. split; [exact Hm|]. constructor; [|constructor].
  apply Forall_forall. intros c Hc.
  destruct (Z_lt_le_dec (amount c) 0) as [Hlt|Hle]; [|exact Hle].
  exfalso.
  assert (Hex : existsb (fun c => amount c <? 0)
                  (flat_map Toy.created (coin_solutions bundle)) = true).
  { apply existsb_exists. exists c. split; [exact Hc|].
    apply Z.ltb_lt. exact Hlt. }
  rewrite Hex in Eneg. discriminate Eneg.
Qed.

Lemma toy_valid_farm (l : Toy.ledger) (ph : bytes32) :
  Toy.valid_ledger l -> Toy.valid_ledger (fst (sim_farm_block l ph)).
Proof.
  intros [Hr Hm]. cbn [sim_farm_block Toy.spend_sim]. unfold Toy.toy_farm_block.
  cbn [fst]. split; [|constructor]. cbn [Toy.records].
  apply Forall_app. split.
  - apply Forall_forall. intros r Hin. apply in_map_iff in Hin.
    destruct Hin as (r0 & <- & Hin0).
    assert (H0 := proj1 (Forall_forall _ _) Hr r0 Hin0).
    destruct (existsb _ _); exact H0.
  - apply Forall_forall. intros r Hin. apply in_map_iff in Hin.
    destruct Hin as (c & <- & Hc). cbn [record_coin].
    apply in_app_or in Hc. destruct Hc as [Hc|[<-|[]]].
    + apply in_flat_map in Hc. destruct Hc as (cs & Hcs & Hc).
      apply in_flat_map in Hcs. destruct Hcs as (bundle & Hb & Hcs).
      assert (Hgood := proj1 (Forall_forall _ _) Hm bundle Hb).
      apply (proj1 (Forall_forall _ _) Hgood c).
      apply in_flat_map. exists cs. split; assumption.
    + cbn [amount]. discriminate.
Qed.

Lemma toy_valid_listed (l : Toy.ledger) (ph : bytes32) (r : CoinRecord) :
  Toy.valid_ledger l ->
  In r (get_coin_records_by_puzzle_hash l ph) ->
  0 <= amount (record_coin r).
Proof.
  intros [Hr _] Hin. cbn [get_coin_records_by_puzzle_hash Toy.spend_sim] in Hin.
  apply filter_In in Hin. destruct Hin as [Hin _].
  exact (proj1 (Forall_forall _ _) Hr r Hin).
Qed.

Lemma toy_valid : Toy.valid_ledger (sim Toy.toy).
Proof.
  split.
  - assert (Hb : forallb (fun r => 0 <=? amount (record_coin r))
                   (Toy.records (sim Toy.toy)) = true)
      by (vm_compute; reflexivity).
    apply Forall_forall. intros r Hin.
    apply Z.leb_le. exact (proj1 (forallb_forall _ _) Hb r Hin).
  - assert (Hm : Toy.mempool (sim Toy.toy) = []) by (vm_compute; reflexivity).
    rewrite Hm. constructor.
Qed.

Lemma toy_alice_funds :
  Forall (fun c => 0 <= amount c)
    (dict_values (Wallet.usable_coins (Toy.wallet_of Toy.alice Toy.toy))).
Proof.
  assert (Hb : forallb (fun c => 0 <=? amount c)
                 (dict_values
                    (Wallet.usable_coins (Toy.wallet_of Toy.alice Toy.toy)))
               = true) by (vm_compute; reflexivity).
  apply Forall_forall. intros c Hin.
  apply Z.leb_le. exact (proj1 (forallb_forall _ _) Hb c Hin).
Qed.

End ToyLedgerFacts.


